(** * Lineage prediction from SNP calls: a shallow embedding

    The three scripts of the repository are embedded side by side:
    - [V1]: [lineage_predictor_v1.py], one sample per VCF file, best match;
    - [V4]: [lineage_predictor_v4.py], joint VCF files, threshold policy;
    - [V5]: [lineage_predictorV5.py],  one sample per VCF file, best match,
            catalog with sub-lineages.

    Conventions of the embedding.
    - Python [int] is [Z]; a Python [set] of integers is a [gset Z]; a
      Python [dict] keyed by strings is an association list in insertion
      order ([dict V]), because the scripts depend on iteration order.
    - Python [float] arithmetic is modelled by exact rational arithmetic
      ([Q]); the [.2f] conversion rounds the exact value half to even.
      The scripts round the float [(k / n) * 100] instead, which can
      differ from the exact value in the last printed digit when the exact
      value is half way between two hundredths, or within float error of
      that (23/160 prints 14.37 in the scripts and 14.38 here).
    - Characters are the 8-bit characters of [ascii]; the built-ins are
      modelled on ASCII text (a character above 127 is never white space).
    - The file system is flat: regular text files by path, no
      directories; [os.makedirs] has nothing to fail on but the path
      itself.
    - Exceptions are values of [exn]; code that may raise returns a
      [result].  Console output and files live in an explicit [world]. *)

From Stdlib Require Import ZArith QArith String Ascii List Lia.
From Stdlib Require Import DecimalString DecimalN.
From stdpp Require Import base gmap sets list strings sorting.

Abbreviation dict V := (list (string * V)).

(** ** Exceptions *)

Inductive exn : Set :=
| ValueError
| IndexError
| ZeroDivisionError
| FileExistsError
| LibraryError (name : string).

Inductive result (A : Type) : Type :=
| Ok (a : A)
| Raise (e : exn).
Arguments Ok {A} a.
Arguments Raise {A} e.

#[export] Instance result_ret : MRet result := λ A a, Ok a.
#[export] Instance result_bind : MBind result := λ A B f m,
  match m with Ok a => f a | Raise e => Raise e end.
#[export] Instance result_fmap : FMap result := λ A B f m,
  match m with Ok a => Ok (f a) | Raise e => Raise e end.

(** ** Python built-ins used by the scripts *)

Module Py.

(** [str.isspace] on the ASCII range: TAB..CR, FS..US and the space. *)
Definition is_space (c : ascii) : bool :=
  let n := N_of_ascii c in
  ((9 <=? n) && (n <=? 13) || (28 <=? n) && (n <=? 32))%N.

Fixpoint drop_while {A} (p : A → bool) (l : list A) : list A :=
  match l with
  | [] => []
  | x :: l' => if p x then drop_while p l' else l
  end.

Definition strip_with (p : ascii → bool) (s : string) : string :=
  string_of_list_ascii
    (rev (drop_while p (rev (drop_while p (list_ascii_of_string s))))).

(** [s.strip()] *)
Definition strip (s : string) : string := strip_with is_space s.

(** [s.strip(chars)] for a one-character [chars] *)
Definition strip_char (c : ascii) (s : string) : string :=
  strip_with (Ascii.eqb c) s.

(** [s.startswith(p)] *)
Definition startswith (s p : string) : bool := String.prefix p s.

(** [s.split(sep)] for a one-character separator: never the empty list. *)
Fixpoint split (sep : ascii) (s : string) : list string :=
  match s with
  | EmptyString => [EmptyString]
  | String c s' =>
      if Ascii.eqb c sep then EmptyString :: split sep s'
      else match split sep s' with
           | w :: ws => String c w :: ws
           | [] => [String c EmptyString]
           end
  end.

(** [sep.join(l)] *)
Definition join (sep : string) (l : list string) : string := String.concat sep l.

(** [sorted(l)] on strings: code-point lexicographic order. *)
Definition sorted (l : list string) : list string := merge_sort String.le l.

Definition digit_of (c : ascii) : option Z :=
  let n := N_of_ascii c in
  if ((48 <=? n) && (n <=? 57))%N then Some (Z.of_N n - 48)%Z else None.

(** Digits of an integer literal: underscores only between digits. *)
Fixpoint int_digits (cs : list ascii) (acc : Z) (after_digit : bool) : option Z :=
  match cs with
  | [] => if after_digit then Some acc else None
  | c :: cs' =>
      match digit_of c with
      | Some d => int_digits cs' (10 * acc + d)%Z true
      | None =>
          if Ascii.eqb c "_" && after_digit then int_digits cs' acc false
          else None
      end
  end.

(** The white space [int] skips around a literal: TAB..CR and the space
    (not FS..US, which [str.strip] removes). *)
Definition is_int_space (c : ascii) : bool :=
  let n := N_of_ascii c in
  ((9 <=? n) && (n <=? 13) || (n =? 32))%N.

(** [sys.get_int_max_str_digits()], by default *)
Definition int_max_str_digits : N := 4300.

Definition digit_count (cs : list ascii) : N :=
  N.of_nat (length (filter (λ c, is_Some (digit_of c)) cs)).

(** [int(s)]: surrounding white space, an optional sign, decimal digits,
    no more of them than the limit allows. *)
Definition int (s : string) : result Z :=
  let body (cs : list ascii) :=
    if (digit_count cs <=? int_max_str_digits)%N then int_digits cs 0%Z false
    else None in
  let r :=
    match list_ascii_of_string (strip_with is_int_space s) with
    | c :: cs =>
        if Ascii.eqb c "-" then Z.opp <$> body cs
        else if Ascii.eqb c "+" then body cs
        else body (c :: cs)
    | [] => None
    end in
  match r with Some z => Ok z | None => Raise ValueError end.

(** [l[i]] *)
Definition index {A} (l : list A) (i : nat) : result A :=
  match l !! i with Some x => Ok x | None => Raise IndexError end.

(** [a / b] on integers (true division) *)
Definition truediv (a b : Z) : result Q :=
  match b with
  | Z0 => Raise ZeroDivisionError
  | Zpos p => Ok (a # p)
  | Zneg p => Ok (Z.opp a # p)
  end.

(** [max(l)] and [max(l, key=f)]: the first maximal element; an empty
    argument raises [ValueError]. *)
Definition Qltb (a b : Q) : bool := negb (Qle_bool b a).

Fixpoint max_from {A} (key : A → Q) (best : A) (l : list A) : A :=
  match l with
  | [] => best
  | x :: l' => max_from key (if Qltb (key best) (key x) then x else best) l'
  end.

Definition max_by {A} (key : A → Q) (l : list A) : result A :=
  match l with
  | [] => Raise ValueError
  | x :: l' => Ok (max_from key x l')
  end.

Definition max (l : list Q) : result Q := max_by id l.

(** [os.path.basename(p)] *)
Definition basename (p : string) : string := default EmptyString (last (split "/" p)).

(** [os.path.splitext(p)[0]] for a [p] without separators: the last dot
    splits, unless only dots come before it. *)
Definition splitext_root (p : string) : string :=
  match split "." p with
  | [] | [_] => p
  | parts =>
      let root := join "." (removelast parts) in
      if forallb (Ascii.eqb ".") (list_ascii_of_string root) then p else root
  end.

(** Dictionaries in insertion order *)
Fixpoint dict_set {V} (k : string) (v : V) (d : dict V) : dict V :=
  match d with
  | [] => [(k, v)]
  | (k', v') :: d' =>
      if decide (k = k') then (k, v) :: d' else (k', v') :: dict_set k v d'
  end.

Fixpoint dict_get {V} (d : dict V) (k : string) : option V :=
  match d with
  | [] => None
  | (k', v) :: d' => if decide (k = k') then Some v else dict_get d' k
  end.

Definition dict_alter {V} (f : V → V) (k : string) (d : dict V) : dict V :=
  match dict_get d k with
  | Some v => dict_set k (f v) d
  | None => d
  end.

Definition keys {V} (d : dict V) : list string := d.*1.
Definition values {V} (d : dict V) : list V := d.*2.

(** A set literal [{a, b, ...}] of integers *)
Definition set_of (l : list Z) : gset Z := list_to_set l.

(** [{k: v for k in ks}] and dictionary literals *)
Definition dict_of_items {V} (items : list (string * V)) : dict V :=
  foldl (λ d kv, dict_set kv.1 kv.2 d) [] items.

End Py.

(** ** Decimal rendering of scores: [f"{x:.2f}"] and [float(s)] *)

Module Fmt.

Definition show_N (n : N) : string := NilEmpty.string_of_uint (N.to_uint n).

Definition read_N (s : string) : option N :=
  match s with
  | EmptyString => None
  | _ => N.of_uint <$> NilEmpty.uint_of_string s
  end.

(** Nearest integer to [n / d], ties to the even neighbour. *)
Definition round_half_even (n : Z) (d : positive) : Z :=
  let fl := (n / Zpos d)%Z in
  let r := (n mod Zpos d)%Z in
  match (2 * r ?= Zpos d)%Z with
  | Lt => fl
  | Gt => (fl + 1)%Z
  | Eq => if Z.even fl then fl else (fl + 1)%Z
  end.

(** The value in hundredths that [.2f] prints. *)
Definition hundredths (q : Q) : Z := round_half_even (Qnum q * 100) (Qden q).

Definition two_digits (n : N) : string :=
  show_N (n / 10) +:+ show_N (n mod 10).

Definition show_hundredths (h : N) : string :=
  show_N (h / 100) +:+ "." +:+ two_digits (h mod 100).

(** [f"{q:.2f}"] *)
Definition format_2f (q : Q) : string :=
  (if (Qnum q <? 0)%Z then "-" else EmptyString) +:+
  show_hundredths (Z.abs_N (hundredths q)).

(** [float(s)] on the plain decimal notation [digits.digits] with an
    optional minus sign, which is all that [format_2f] produces. *)
Definition float_unsigned (s : string) : option Q :=
  match Py.split "." s with
  | [i; f] =>
      ip ← read_N i; fp ← read_N f;
      let scale := (10 ^ N.of_nat (String.length f))%N in
      Some (Z.of_N (ip * scale + fp) # N.succ_pos (N.pred scale))
  | _ => None
  end.

Definition float (s : string) : result Q :=
  let r :=
    match s with
    | String "-" s' => Qopp <$> float_unsigned s'
    | _ => float_unsigned s
    end in
  match r with Some q => Ok q | None => Raise ValueError end.

(** [f"{q:.2f}%"], the form in which V1 and V4 store a score. *)
Definition percent (q : Q) : string := format_2f q +:+ "%".

(** [float(prob.strip('%'))] *)
Definition of_percent (prob : string) : result Q := float (Py.strip_char "%" prob).

End Fmt.

(** ** The world of a run: text files, console, written tables *)

(** A printed line; the line that reports a caught exception keeps the
    exception itself instead of its rendering. *)
Inductive out_line : Type :=
| Line (s : string)
| ErrorLine (vcf_file : string) (e : exn).

Record world : Type := World {
  files : gmap string string;              (* text files, by path *)
  stdout : list out_line;                  (* console, oldest line first *)
  tables : list (string * list (dict string)) (* [DataFrame.to_csv] writes *)
}.

Definition io (A : Type) : Type := world → world * result A.

#[export] Instance io_ret : MRet io := λ A a w, (w, Ok a).
#[export] Instance io_bind : MBind io := λ A B f m w,
  match m w with
  | (w', Ok a) => f a w'
  | (w', Raise e) => (w', Raise e)
  end.

Module IO.

Definition lift {A} (r : result A) : io A := λ w, (w, r).

Definition emit (l : out_line) : io unit := λ w,
  (World (files w) (stdout w ++ [l]) (tables w), Ok tt).

Definition print (s : string) : io unit := emit (Line s).

(** [try: m  except Exception as e: ...] hands the outcome to the caller. *)
Definition try_except {A} (m : io A) : io (result A) := λ w,
  let (w', r) := m w in (w', Ok r).

Definition tab : ascii := "009".
Definition newline : ascii := "010".
Definition nl : string := String newline EmptyString.

Definition carriage_return : ascii := "013".

(** What [open(p, 'r')] makes of the line ends: CR LF and a lone CR are
    read as LF. *)
Fixpoint universal_newlines (content : string) : string :=
  match content with
  | EmptyString => EmptyString
  | String c rest =>
      if Ascii.eqb c carriage_return then
        String newline
          match rest with
          | String c' rest' =>
              if Ascii.eqb c' newline then universal_newlines rest'
              else universal_newlines rest
          | EmptyString => EmptyString
          end
      else String c (universal_newlines rest)
  end.

(** Lines of a text file as [for line in f] yields them, without their
    terminators (the scripts only apply [startswith] and [strip] to them). *)
Definition lines_of (content : string) : list string :=
  match universal_newlines content with
  | EmptyString => []
  | text =>
      let l := Py.split newline text in
      match last l with
      | Some EmptyString => removelast l
      | _ => l
      end
  end.

(** [os.path.exists] for the paths of text files *)
Definition path_exists (p : string) : io bool := λ w,
  (w, Ok (bool_decide (is_Some (files w !! p)))).

(** [open(p, 'r')], read as lines *)
Definition read_lines (p : string) : io (list string) := λ w,
  (w, Ok (lines_of (default EmptyString (files w !! p)))).

(** [open(p, 'r').read()] *)
Definition read_text (p : string) : io string := λ w,
  (w, Ok (default EmptyString (files w !! p))).

(** [open(p, 'w').write(s)] *)
Definition write_text (p s : string) : io unit := λ w,
  (World (<[p := s]> (files w)) (stdout w) (tables w), Ok tt).

(** [df.to_csv(p, sep='\t', ...)] for the frame built from [rows].  The
    table is kept apart from the text files, as rows: the text that a
    file under the same path held stays in [files], although [to_csv]
    replaces it.  No script reads a path after it wrote a table there. *)
Definition write_table (p : string) (rows : list (dict string)) : io unit := λ w,
  (World (files w) (stdout w) (tables w ++ [(p, rows)]), Ok tt).

(** [os.path.join(dir, name)] for a relative [name] *)
Definition path_join (dir name : string) : string :=
  match last (list_ascii_of_string dir) with
  | None => name
  | Some c => if Ascii.eqb c "/" then dir +:+ name else dir +:+ "/" +:+ name
  end.

End IO.

Import IO.

(** ** lineage_predictor_v4.py *)

Module V4.

(** Lines 48-52: position of the genotype in the FORMAT column. *)
Definition gt_index (format_fields : list string) : nat :=
  match list_find (λ f, f = "GT") format_fields with
  | Some (i, _) => i
  | None => 0
  end.

(** Lines 56-63, one sample column of one row. *)
Definition genotype_step (pos : Z) (gt_index : nat) (field : string)
    (snps : gset Z) : gset Z :=
  let genotype_info := Py.split ":" field in
  if decide (length genotype_info ≤ gt_index) then snps
  else
    match genotype_info !! gt_index with
    | Some genotype =>
        if decide (genotype ≠ "0" ∧ genotype ≠ ".") then {[pos]} ∪ snps else snps
    | None => snps
    end.

(** Lines 55-63: [for i, sample in enumerate(sample_names, start=9)]. *)
Fixpoint sample_columns (fields : list string) (pos : Z) (gt_index : nat)
    (i : nat) (sample_names : list string) (sample_snps : dict (gset Z))
    : result (dict (gset Z)) :=
  match sample_names with
  | [] => Ok sample_snps
  | sample :: rest =>
      field ← Py.index fields i;
      sample_columns fields pos gt_index (S i) rest
        (Py.dict_alter (genotype_step pos gt_index field) sample sample_snps)
  end.

Definition skip_message (field vcf_file : string) : string :=
  "Skipping invalid position: " +:+ field +:+ " in " +:+ vcf_file.

(** Lines 37-63: the body of the loop over the lines of the file. *)
Definition row_fields (line : string) : list string :=
  Py.split tab (Py.strip line).

Definition variant_row (vcf_file : string) (sample_names : list string)
    (line : string) (sample_snps : dict (gset Z)) : io (dict (gset Z)) :=
  if Py.startswith line "#" then mret sample_snps
  else
    let fields := row_fields line in
    p ← lift (Py.index fields 1);
    match Py.int p with
    | Raise ValueError => print (skip_message p vcf_file);; mret sample_snps
    | Raise e => lift (Raise e)
    | Ok pos =>
        fmt ← lift (Py.index fields 8);
        lift (sample_columns fields pos (gt_index (Py.split ":" fmt)) 9
                sample_names sample_snps)
    end.

Fixpoint variant_rows (vcf_file : string) (sample_names : list string)
    (lines : list string) (sample_snps : dict (gset Z)) : io (dict (gset Z)) :=
  match lines with
  | [] => mret sample_snps
  | line :: rest =>
      sample_snps' ← variant_row vcf_file sample_names line sample_snps;
      variant_rows vcf_file sample_names rest sample_snps'
  end.

(** Lines 19-24: the fields of the first line that starts with [#CHROM]. *)
Fixpoint find_header (lines : list string) : list string :=
  match lines with
  | [] => []
  | line :: rest =>
      if Py.startswith line "#CHROM" then Py.split tab (Py.strip line)
      else find_header rest
  end.

(** Lines 70-74: the score of one lineage. *)
Definition probability (snp_set snps : gset Z) : result Q :=
  if decide (size snp_set = 0) then Ok 0%Q
  else
    let matching_count := size (snp_set ∩ snps) in
    r ← Py.truediv (Z.of_nat matching_count) (Z.of_nat (size snp_set));
    Ok (r * 100)%Q.

(** Lines 68-75: the loop over the catalog. *)
Fixpoint score_loop (items : dict (gset Z)) (snps : gset Z)
    (lineage_probabilities : dict string) : result (dict string) :=
  match items with
  | [] => Ok lineage_probabilities
  | (lineage, snp_set) :: rest =>
      p ← probability snp_set snps;
      score_loop rest snps (Py.dict_set lineage (Fmt.percent p) lineage_probabilities)
  end.

Definition threshold : Q := 0.

(** Lines 80-83: the list comprehension over the items of the mapping. *)
Fixpoint matching_lineages (items : dict string) : result (list string) :=
  match items with
  | [] => Ok []
  | (lineage, prob) :: rest =>
      x ← Fmt.of_percent prob;
      ms ← matching_lineages rest;
      Ok (if Py.Qltb threshold x then lineage :: ms else ms)
  end.

(** Lines 79-90: the threshold policy. *)
Definition predicted_lineage (lineage_probabilities : dict string) : result string :=
  ms ← matching_lineages lineage_probabilities;
  match ms with
  | [] => Ok "unknown_lineage"
  | [lineage] => Ok lineage
  | _ => Ok ("mixed isolate: " +:+ Py.join ", " (Py.sorted ms))
  end.

(** Lines 68-95: the record of one sample. *)
Definition sample_record (lineage_references : dict (gset Z)) (sample : string)
    (snps : gset Z) : result (dict string) :=
  lineage_probabilities ← score_loop lineage_references snps [];
  predicted ← predicted_lineage lineage_probabilities;
  Ok (Py.dict_set "Predicted_lineage" predicted
        (Py.dict_set "Sample_Name" sample lineage_probabilities)).

Fixpoint sample_records (lineage_references : dict (gset Z))
    (items : dict (gset Z)) : result (list (dict string)) :=
  match items with
  | [] => Ok []
  | (sample, snps) :: rest =>
      r ← sample_record lineage_references sample snps;
      rs ← sample_records lineage_references rest;
      Ok (r :: rs)
  end.

Definition process_joint_vcf (vcf_file : string)
    (lineage_references : dict (gset Z)) : io (list (dict string)) :=
  found ← path_exists vcf_file;
  if negb found then print ("File not found: " +:+ vcf_file);; mret []
  else
    lines ← read_lines vcf_file;
    let header := find_header lines in
    match header with
    | [] => print ("VCF header not found in " +:+ vcf_file);; mret []
    | _ =>
        let sample_names := drop 9 header in
        let sample_snps := Py.dict_of_items ((λ s, (s, (∅ : gset Z))) <$> sample_names) in
        sample_snps' ← variant_rows vcf_file sample_names lines sample_snps;
        lift (sample_records lineage_references sample_snps')
    end.

(** Lines 119-137: the catalog. *)
Definition lineage_references : dict (gset Z) :=
  Py.dict_of_items [
    ("lineage1", Py.set_of
      [615938; 646531; 4398732; 272678; 3830566; 4081987; 3233605;
       244550; 4081996; 1560912; 812502; 3876953; 344288; 811492;
       3647591; 2508395; 763886; 495473; 2897528; 1119739; 4022652]);
    ("lineage2", Py.set_of
      [1834177; 4243460; 811753; 518987; 282892; 4236237; 4308395;
       2298194; 497491; 4290135; 4050811; 4158493; 4254431]);
    ("lineage3", Py.set_of
      [2840999; 633562; 3582694; 24007]);
    ("lineage4", Py.set_of
      [1341624; 3381641; 3482432; 1170404]);
    ("lineage5", Py.set_of
      [1911301; 352646; 1505806; 2304017; 4339610; 1097633; 2744225;
       3840932; 801959; 3882025; 1216822; 4399422; 4387392; 344258;
       3603523; 2485956; 2516804; 910282; 4086604; 1648089; 9566;
       2463455; 1648224; 1145442; 1578212; 1555432; 1256176; 1649265;
       1799921; 1352566]);
    ("lineage6", Py.set_of
      [1372002; 3862148; 3213255; 4086697; 4236891; 334445; 2427828;
       507989; 2847737; 1069146; 1867707; 3155164; 1886077]);
    ("lineage7", Py.set_of
      [3009027; 1125894; 1365895; 349081; 1561245; 4070302; 22303;
       2305184; 1867937; 1513250; 4113054; 2303524; 3667883; 8876;
       3603631; 2406193; 2086202; 2871227; 1297084; 4308411; 2414272;
       2759363; 2833478; 3324231; 3473482; 2385615; 4262608; 2380244;
       3182040; 3860696; 2913373; 1799774; 3225566; 1463776; 3635935;
       2035938; 2414434; 497126; 3360233; 1137518; 1237743; 73456;
       2383599; 2999030; 811642; 3470461; 2842238]);
    ("lineage8", Py.set_of
      [2022784; 1704707; 1665285; 1914246; 1941256; 4410891; 3645324;
       4074512; 343314; 742270; 4227348; 3786517; 1391766; 4034711;
       1505182; 3830815; 3840800; 2862497; 4210592; 4254755; 1594788;
       508454; 3569319; 459561; 2415402; 1505455; 2940079; 17333;
       1922231; 23098; 1446846; 2295359; 2466760; 765772; 2086736;
       442577; 2939600; 3469397; 2450263; 3333720; 3151706; 1391967;
       1805152; 3074400; 2440802; 2306915; 1858921; 595051; 1553399;
       1227518]);
    ("lineage9", Py.set_of
      [3094577; 3225892; 3370805; 3414553]);
    ("bovis", Py.set_of
      [4038403; 354054; 652935; 2716806; 45193; 3371401; 3876953;
       1647117; 2444952; 2643109; 4034981; 62768; 3022532; 1800521;
       1462220; 3623372; 2782927; 437465; 2844761; 648667; 3723227;
       4229470; 602207; 1137632; 3199071; 2767842; 3323617; 1344741;
       1671658; 1813494; 3667193; 905082; 1492605]);
    ("caprae", Py.set_of
      [1673766; 422182; 649585; 2292409; 4398204]);
    ("dassie", Py.set_of
      [557574; 4242313; 1663500; 2871821; 1751197; 4085665; 1226531;
       3155107; 3062450; 2909119; 3635392; 1218256; 1390170; 3392478;
       2846051; 2825199; 271988; 1554550; 2862458]);
    ("microtii", Py.set_of
      [3688579; 5671; 2874797; 1364877; 247252; 1004570]);
    ("mungi", Py.set_of
      [4268672; 2924039; 284041; 2022409; 24974; 437264; 3625360;
       1256212; 270869; 64790; 2747554; 2999330; 2018219; 2437426;
       2686388; 333878; 1216954; 570683; 4409917; 3180094; 73027;
       1567814; 649036; 3326925; 45904; 4224851; 2937949; 2780127;
       352481; 4274530; 3829350; 2993651; 3372917; 2427519]);
    ("orygis", Py.set_of
      [247300; 3337480; 1236745; 53899; 44812; 3061003; 1555342;
       3598221; 3667352; 268953; 3039261; 748320; 3148454; 1344807;
       3058989; 4039853; 2486576; 2298548; 3562936; 2296634; 2309820;
       1579197; 3147196; 3155260; 4067010; 3241414; 3337675; 1449038;
       459600; 587601; 1490258; 498771; 2301395; 3770449; 1918811;
       1125468; 6109; 2429276; 8930; 1216738; 500710; 1652839; 634348;
       1810542; 4069621; 1383800; 1834363; 4409725]);
    ("pinepedii", Py.set_of
      [3337219; 1036936; 2301448; 736140; 2352292; 4161188; 458156;
       1937070; 1648564; 2301749; 28344; 1650257; 1650258; 1924695;
       3090780; 3145957; 1391466; 2942959; 918007; 348280; 458617;
       2908666; 1577723; 3469951]);
    ("surricate", Py.set_of
      [2914435; 1883911; 3343629; 3396110; 4049678; 3060380; 21664;
       2428451; 4396201; 1831339; 2762930; 1366453; 2410438; 344135;
       3233351; 2716491; 765004; 495566; 741841; 3233747; 2746981;
       2872678; 1650665; 2069610; 763375; 3603697; 286579; 351101])
  ]%Z.

Definition combined_name : string := "combined_joint_lineage_results.txt".

(** [df.empty] for the frame built from a list of records *)
Definition frame_empty (rows : list (dict string)) : bool :=
  forallb (λ r, bool_decide (r = [])) rows.

(** Lines 140-148: the loop over the input files. *)
Fixpoint batch (vcf_files : list string) (all_results : list (dict string))
    : io (list (dict string)) :=
  match vcf_files with
  | [] => mret all_results
  | vcf_file :: rest =>
      print ("Processing " +:+ vcf_file +:+ " ...");;
      r ← try_except (process_joint_vcf vcf_file lineage_references);
      match r with
      | Ok [] => batch rest all_results
      | Ok results => batch rest (all_results ++ results)
      | Raise e => emit (ErrorLine vcf_file e);; batch rest all_results
      end
  end.

(** Lines 150-161: saving the combined report. *)
Definition save (output_dir : string) (all_results : list (dict string)) : io unit :=
  match all_results with
  | [] => print "No results to save."
  | _ =>
      if frame_empty all_results then print "No valid data to write to file."
      else
        let combined_file := path_join output_dir combined_name in
        write_table combined_file all_results;;
        print (nl +:+ "Combined results saved to " +:+ combined_file)
  end.

(** [main], after argument parsing.  Only regular files are tracked by
    the world: an output directory that names one is refused (lines
    112-116); any other is taken to exist or to be created
    ([os.makedirs] raising below a regular file is not modelled). *)
Definition main (vcf_files : list string) (output_dir : string) : io unit :=
  is_file ← path_exists output_dir;
  if (is_file : bool) then print ("Error: " +:+ output_dir +:+ " is not a directory.")
  else
    all_results ← batch vcf_files [];
    save output_dir all_results.

End V4.

(** ** What lineage_predictor_v1.py and lineage_predictorV5.py share

    [extract_snp_positions] and [str_conv] are the same text in both
    scripts.  [str_conv] reads the position file back with pandas, which
    is outside the repository: the reader is a parameter [read_column0],
    from the text of the file to the strings of
    [pd.read_csv(file, sep='\t', header=None)[0].astype(str).tolist()],
    the empty list standing for an empty frame. *)

Module Single.
Section Reader.
Variable read_column0 : string → result (list string).

(** The position column of the data lines (v1 lines 13-18). *)
Fixpoint position_fields (lines : list string) : list string :=
  match lines with
  | [] => []
  | line :: rest =>
      if Py.startswith line "#" then position_fields rest
      else
        let columns := Py.split tab (Py.strip line) in
        match columns !! 1 with
        | Some p => p :: position_fields rest
        | None => position_fields rest
        end
  end.

Definition extract_snp_positions (vcf_file output_txt : string) : io (option string) :=
  found ← path_exists vcf_file;
  if negb found then print ("File not found: " +:+ vcf_file);; mret None
  else
    lines ← read_lines vcf_file;
    match position_fields lines with
    | [] => print ("No SNPs found in " +:+ vcf_file);; mret None
    | positions =>
        write_text output_txt (Py.join nl positions);;
        mret (Some output_txt)
    end.

Definition str_conv (file : string) : io (gset string) :=
  found ← path_exists file;
  if negb found then print ("File not found: " +:+ file);; mret ∅
  else
    text ← read_text file;
    column ← lift (read_column0 text);
    match column with
    | [] => print ("File is empty: " +:+ file);; mret ∅
    | _ => mret (list_to_set column)
    end.

(** [set(map(int, sample_snps))] *)
Definition int_set (sample_snps : gset string) : result (gset Z) :=
  list_to_set <$> mapM Py.int (elements sample_snps).

(** The extraction part of [process_vcf] (v1 lines 39-53, V5 lines 43-60):
    [None] is the early [return None]. *)
Definition sample_variants (vcf_file : string) : io (option (gset Z)) :=
  let sample_name := Py.splitext_root (Py.basename vcf_file) in
  let snp_file := sample_name +:+ "_snp.txt" in
  extracted_snp_file ← extract_snp_positions vcf_file snp_file;
  match extracted_snp_file with
  | None =>
      print ("No valid SNP file generated for " +:+ sample_name +:+ ". Skipping.");;
      mret None
  | Some file =>
      sample_snps ← str_conv file;
      match int_set sample_snps with
      | Ok snps => mret (Some snps)
      | Raise ValueError =>
          print ("Error converting SNP positions to integers for "
                 +:+ sample_name +:+ ". Skipping.");;
          mret None
      | Raise e => lift (Raise e)
      end
  end.

(** The score of one lineage (v1 lines 57-58, V5 lines 65-66). *)
Definition probability (snp_set sample_snps : gset Z) : result Q :=
  let matching_count := size (snp_set ∩ sample_snps) in
  r ← Py.truediv (Z.of_nat matching_count) (Z.of_nat (size snp_set));
  Ok (r * 100)%Q.

End Reader.
End Single.

(** ** lineage_predictor_v1.py *)

Module V1.
Section Reader.
Variable read_column0 : string → result (list string).

(** Lines 55-59. *)
Fixpoint score_loop (items : dict (gset Z)) (sample_snps : gset Z)
    (lineage_probabilities : dict string) : result (dict string) :=
  match items with
  | [] => Ok lineage_probabilities
  | (lineage, snp_set) :: rest =>
      p ← Single.probability snp_set sample_snps;
      score_loop rest sample_snps
        (Py.dict_set lineage (Fmt.percent p) lineage_probabilities)
  end.

(** The numbers that lines 61 and 65 read back from the mapping. *)
Definition parsed (lineage_probabilities : dict string) : result (dict Q) :=
  mapM (λ kv, x ← Fmt.of_percent kv.2; Ok (kv.1, x)) lineage_probabilities.

(** Lines 61-65: the best-match policy. *)
Definition predicted_lineage (lineage_probabilities : dict string) : result string :=
  probs ← parsed lineage_probabilities;
  max_probability ← Py.max (Py.values probs);
  if Qeq_bool max_probability 0 then Ok "unknown_lineage"
  else fst <$> Py.max_by snd probs.

(** Lines 55-69. *)
Definition sample_record (lineage_references : dict (gset Z)) (sample_name : string)
    (sample_snps : gset Z) : result (dict string) :=
  lineage_probabilities ← score_loop lineage_references sample_snps [];
  predicted ← predicted_lineage lineage_probabilities;
  Ok (Py.dict_set "Sample_Name" sample_name
        (Py.dict_set "Predicted_lineage" predicted lineage_probabilities)).

Definition process_vcf (vcf_file : string) (lineage_references : dict (gset Z))
    : io (option (dict string)) :=
  let sample_name := Py.splitext_root (Py.basename vcf_file) in
  snps ← Single.sample_variants read_column0 vcf_file;
  match snps with
  | None => mret None
  | Some sample_snps =>
      r ← lift (sample_record lineage_references sample_name sample_snps);
      mret (Some r)
  end.

(** Lines 82-100: the catalog. *)
Definition lineage_references : dict (gset Z) :=
  Py.dict_of_items [
    ("lineage1", Py.set_of
      [615938; 646531; 4398732; 272678; 3830566; 4081987; 3233605;
       244550; 4081996; 1560912; 812502; 3876953; 344288; 811492;
       3647591; 2508395; 763886; 495473; 2897528; 1119739; 4022652]);
    ("lineage2", Py.set_of
      [1834177; 4243460; 811753; 518987; 282892; 4236237; 4308395;
       2298194; 497491; 4290135; 4050811; 4158493; 4254431]);
    ("lineage3", Py.set_of
      [2840999; 633562; 3582694; 24007]);
    ("lineage4", Py.set_of
      [1170404; 1341624; 3381641; 3482432]);
    ("lineage5", Py.set_of
      [1911301; 352646; 1505806; 2304017; 4339610; 1097633; 2744225;
       3840932; 801959; 3882025; 1216822; 4399422; 4387392; 344258;
       3603523; 2485956; 2516804; 910282; 4086604; 1648089; 9566;
       2463455; 1648224; 1145442; 1578212; 1555432; 1256176; 1649265;
       1799921; 1352566]);
    ("lineage6", Py.set_of
      [1372002; 3862148; 3213255; 4086697; 4236891; 334445; 2427828;
       507989; 2847737; 1069146; 1867707; 3155164; 1886077]);
    ("lineage7", Py.set_of
      [3009027; 1125894; 1365895; 349081; 1561245; 4070302; 22303;
       2305184; 1867937; 1513250; 4113054; 2303524; 3667883; 8876;
       3603631; 2406193; 2086202; 2871227; 1297084; 4308411; 2414272;
       2759363; 2833478; 3324231; 3473482; 2385615; 4262608; 2380244;
       3182040; 3860696; 2913373; 1799774; 3225566; 1463776; 3635935;
       2035938; 2414434; 497126; 3360233; 1137518; 1237743; 73456;
       2383599; 2999030; 811642; 3470461; 2842238]);
    ("lineage8", Py.set_of
      [2022784; 1704707; 1665285; 1914246; 1941256; 4410891; 3645324;
       4074512; 343314; 742270; 4227348; 3786517; 1391766; 4034711;
       1505182; 3830815; 3840800; 2862497; 4210592; 4254755; 1594788;
       508454; 3569319; 459561; 2415402; 1505455; 2940079; 17333;
       1922231; 23098; 1446846; 2295359; 2466760; 765772; 2086736;
       442577; 2939600; 3469397; 2450263; 3333720; 3151706; 1391967;
       1805152; 3074400; 2440802; 2306915; 1858921; 595051; 1553399;
       1227518]);
    ("lineage9", Py.set_of
      [3094577; 3225892; 3370805; 3414553]);
    ("bovis", Py.set_of
      [4038403; 354054; 652935; 2716806; 45193; 3371401; 3876953;
       1647117; 2444952; 2643109; 4034981; 62768; 3022532; 1800521;
       1462220; 3623372; 2782927; 437465; 2844761; 648667; 3723227;
       4229470; 602207; 1137632; 3199071; 2767842; 3323617; 1344741;
       1671658; 1813494; 3667193; 905082; 1492605]);
    ("caprae", Py.set_of
      [1673766; 422182; 649585; 2292409; 4398204]);
    ("dassie", Py.set_of
      [2271988; 557574; 1218256; 1226531; 1390170; 1554550; 1663500;
       1751197; 2825199; 2846051; 2862458; 2871821; 2909119; 3062450;
       3155107; 3392478; 3635392; 4085665; 4242313]);
    ("microtii", Py.set_of
      [3688579; 5671; 2874797; 1364877; 247252; 1004570]);
    ("mungi", Py.set_of
      [4268672; 2924039; 284041; 2022409; 24974; 437264; 3625360;
       1256212; 270869; 64790; 2747554; 2999330; 2018219; 2437426;
       2686388; 333878; 1216954; 570683; 4409917; 3180094; 73027;
       1567814; 649036; 3326925; 45904; 4224851; 2937949; 2780127;
       352481; 4274530; 3829350; 2993651; 3372917; 2427519]);
    ("orygis", Py.set_of
      [247300; 3337480; 1236745; 53899; 44812; 3061003; 1555342;
       3598221; 3667352; 268953; 3039261; 748320; 3148454; 1344807;
       3058989; 4039853; 2486576; 2298548; 3562936; 2296634; 2309820;
       1579197; 3147196; 3155260; 4067010; 3241414; 3337675; 1449038;
       459600; 587601; 1490258; 498771; 2301395; 3770449; 1918811;
       1125468; 6109; 2429276; 8930; 1216738; 500710; 1652839; 634348;
       1810542; 4069621; 1383800; 1834363; 4409725]);
    ("pinepedii", Py.set_of
      [3337219; 1036936; 2301448; 736140; 2352292; 4161188; 458156;
       1937070; 1648564; 2301749; 28344; 1650257; 1650258; 1924695;
       3090780; 3145957; 1391466; 2942959; 918007; 348280; 458617;
       2908666; 1577723; 3469951]);
    ("surricate", Py.set_of
      [2914435; 1883911; 3343629; 3396110; 4049678; 3060380; 21664;
       2428451; 4396201; 1831339; 2762930; 1366453; 2410438; 344135;
       3233351; 2716491; 765004; 495566; 741841; 3233747; 2746981;
       2872678; 1650665; 2069610; 763375; 3603697; 286579; 351101])
  ]%Z.

Definition combined_name : string := "combined_lineage_results.txt".

(** Lines 101-106: the loop over the input files. *)
Fixpoint batch (vcf_files : list string) (all_results : list (dict string))
    : io (list (dict string)) :=
  match vcf_files with
  | [] => mret all_results
  | vcf_file :: rest =>
      print ("Processing " +:+ vcf_file +:+ " ...");;
      result ← process_vcf vcf_file lineage_references;
      match result with
      | None | Some [] => batch rest all_results
      | Some r => batch rest (all_results ++ [r])
      end
  end.

(** Lines 107-111. *)
Definition save (output_dir : string) (all_results : list (dict string)) : io unit :=
  match all_results with
  | [] => mret tt
  | _ =>
      let combined_file := path_join output_dir combined_name in
      write_table combined_file all_results;;
      print (nl +:+ "Combined results saved to " +:+ combined_file)
  end.

(** [main], after argument parsing; [os.makedirs(..., exist_ok=True)]
    raises when the path names a regular file. *)
Definition main (vcf_files : list string) (output_dir : string) : io unit :=
  is_file ← path_exists output_dir;
  if (is_file : bool) then lift (Raise FileExistsError)
  else
    all_results ← batch vcf_files [];
    save output_dir all_results.

End Reader.
End V1.

(** ** lineage_predictorV5.py *)

Module V5.
Section Reader.
Variable read_column0 : string → result (list string).

(** Lines 63-67. *)
Fixpoint score_loop (items : dict (gset Z)) (sample_snps : gset Z)
    (lineage_probabilities : dict Q) : result (dict Q) :=
  match items with
  | [] => Ok lineage_probabilities
  | (lineage, snp_set) :: rest =>
      p ← Single.probability snp_set sample_snps;
      score_loop rest sample_snps (Py.dict_set lineage p lineage_probabilities)
  end.

(** [lineage_probabilities.get], as the key of [max] *)
Definition get_score (lineage_probabilities : dict Q) (lineage : string) : Q :=
  default 0%Q (Py.dict_get lineage_probabilities lineage).

(** Lines 70-74: the best-match policy. *)
Definition predicted_lineage (lineage_probabilities : dict Q) : result string :=
  max_probability ← Py.max (Py.values lineage_probabilities);
  if Qeq_bool max_probability 0 then Ok "unknown lineage"
  else Py.max_by (get_score lineage_probabilities) (Py.keys lineage_probabilities).

(** Lines 77-79. *)
Definition prob_str (lineage_probabilities : dict Q) : string :=
  Py.join ", "
    ((λ lineage, lineage +:+ ": " +:+
                 Fmt.percent (get_score lineage_probabilities lineage))
       <$> Py.sorted (Py.keys lineage_probabilities)).

Definition output_text (sample_name predicted_lineage : string)
    (lineage_probabilities : dict Q) : string :=
  sample_name +:+ " is predicted as " +:+ predicted_lineage +:+ nl +:+
  "Probabilities: " +:+ prob_str lineage_probabilities +:+ nl.

(** Lines 62-79: scores, label and report text of one sample. *)
Definition report (lineage_references : dict (gset Z)) (sample_name : string)
    (sample_snps : gset Z) : result string :=
  lineage_probabilities ← score_loop lineage_references sample_snps [];
  predicted ← predicted_lineage lineage_probabilities;
  Ok (output_text sample_name predicted lineage_probabilities).

Definition process_vcf (vcf_file output_dir : string)
    (lineage_references : dict (gset Z)) : io (option string) :=
  let sample_name := Py.splitext_root (Py.basename vcf_file) in
  snps ← Single.sample_variants read_column0 vcf_file;
  match snps with
  | None => mret None
  | Some sample_snps =>
      text ← lift (report lineage_references sample_name sample_snps);
      let output_file := path_join output_dir (sample_name +:+ "_lineage_result.txt") in
      write_text output_file text;;
      print ("Prediction for " +:+ sample_name +:+ " saved to " +:+ output_file);;
      print text;;
      mret (Some text)
  end.

(** Lines 105-137: the catalog. *)
Definition lineage_references : dict (gset Z) :=
  Py.dict_of_items [
    ("lineage1", Py.set_of
      [615938; 646531; 4398732; 272678; 3830566; 4081987; 3233605;
       244550; 4081996; 1560912; 812502; 3876953; 344288; 811492;
       3647591; 2508395; 763886; 495473; 2897528; 1119739; 4022652]);
    ("l1_1", Py.set_of
      [2989683; 4404247]);
    ("l1_2", Py.set_of
      [4244420; 4049254; 2462700; 9260; 3561229; 1136017; 1553855]);
    ("l1_3", Py.set_of
      [2763624; 3470377; 4238120]);
    ("lineage2", Py.set_of
      [1834177; 4243460; 811753; 518987; 282892; 4236237; 4308395;
       2298194; 497491; 4290135; 4050811; 4158493; 4254431]);
    ("l2_2_1", Py.set_of
      [3147511; 1565566; 2640807]);
    ("l2_2_2", Py.set_of
      [3147511; 1565566; 2640807]);
    ("lineage3", Py.set_of
      [2840999; 633562; 3582694; 24007]);
    ("l3_1_1", Py.set_of
      [2467098; 2744388; 3023684]);
    ("l3_1_2", Py.set_of
      [1914217; 3722702]);
    ("lineage4", Py.set_of
      [1170404; 1341624; 3381641; 3482432]);
    ("l4_1", Py.set_of
      [62657; 4340006; 2739174; 284623; 2020144]);
    ("l4_2", Py.set_of
      [3198496; 3469694; 4073918; 1568018; 2441970; 1872211; 3666905;
       1466779; 4291449; 1670814]);
    ("l4_3", Py.set_of
      [2621058; 764995; 1452071; 1389738; 4038287; 3191027]);
    ("l4_4", Py.set_of
      [4238963]);
    ("l4_6", Py.set_of
      [54304; 18091]);
    ("l4_8", Py.set_of
      [1130526]);
    ("l4_9", Py.set_of
      [8978; 1940611; 4165205; 1882573]);
    ("lineage5", Py.set_of
      [1911301; 352646; 1505806; 2304017; 4339610; 1097633; 2744225;
       3840932; 801959; 3882025; 1216822; 4399422; 4387392; 344258;
       3603523; 2485956; 2516804; 910282; 4086604; 1648089; 9566;
       2463455; 1648224; 1145442; 1578212; 1555432; 1256176; 1649265;
       1799921; 1352566]);
    ("lineage6", Py.set_of
      [1372002; 3862148; 3213255; 4086697; 4236891; 334445; 2427828;
       507989; 2847737; 1069146; 1867707; 3155164; 1886077]);
    ("lineage7", Py.set_of
      [3009027; 1125894; 1365895; 349081; 1561245; 4070302; 22303;
       2305184; 1867937; 1513250; 4113054; 2303524; 3667883; 8876;
       3603631; 2406193; 2086202; 2871227; 1297084; 4308411; 2414272;
       2759363; 2833478; 3324231; 3473482; 2385615; 4262608; 2380244;
       3182040; 3860696; 2913373; 1799774; 3225566; 1463776; 3635935;
       2035938; 2414434; 497126; 3360233; 1137518; 1237743; 73456;
       2383599; 2999030; 811642; 3470461; 2842238]);
    ("lineage8", Py.set_of
      [2022784; 1704707; 1665285; 1914246; 1941256; 4410891; 3645324;
       4074512; 343314; 742270; 4227348; 3786517; 1391766; 4034711;
       1505182; 3830815; 3840800; 2862497; 4210592; 4254755; 1594788;
       508454; 3569319; 459561; 2415402; 1505455; 2940079; 17333;
       1922231; 23098; 1446846; 2295359; 2466760; 765772; 2086736;
       442577; 2939600; 3469397; 2450263; 3333720; 3151706; 1391967;
       1805152; 3074400; 2440802; 2306915; 1858921; 595051; 1553399;
       1227518]);
    ("lineage9", Py.set_of
      [3094577; 3225892; 3370805; 3414553]);
    ("bovis", Py.set_of
      [4038403; 354054; 652935; 2716806; 45193; 3371401; 3876953;
       1647117; 2444952; 2643109; 4034981; 62768; 3022532; 1800521;
       1462220; 3623372; 2782927; 437465; 2844761; 648667; 3723227;
       4229470; 602207; 1137632; 3199071; 2767842; 3323617; 1344741;
       1671658; 1813494; 3667193; 905082; 1492605]);
    ("caprae", Py.set_of
      [1673766; 422182; 649585; 2292409; 4398204]);
    ("dassie", Py.set_of
      [2271988; 557574; 1218256; 1226531; 1390170; 1554550; 1663500;
       1751197; 2825199; 2846051; 2862458; 2871821; 2909119; 3062450;
       3155107; 3392478; 3635392; 4085665; 4242313]);
    ("microtii", Py.set_of
      [3688579; 5671; 2874797; 1364877; 247252; 1004570]);
    ("mungi", Py.set_of
      [4268672; 2924039; 284041; 2022409; 24974; 437264; 3625360;
       1256212; 270869; 64790; 2747554; 2999330; 2018219; 2437426;
       2686388; 333878; 1216954; 570683; 4409917; 3180094; 73027;
       1567814; 649036; 3326925; 45904; 4224851; 2937949; 2780127;
       352481; 4274530; 3829350; 2993651; 3372917; 2427519]);
    ("orygis", Py.set_of
      [247300; 3337480; 1236745; 53899; 44812; 3061003; 1555342;
       3598221; 3667352; 268953; 3039261; 748320; 3148454; 1344807;
       3058989; 4039853; 2486576; 2298548; 3562936; 2296634; 2309820;
       1579197; 3147196; 3155260; 4067010; 3241414; 3337675; 1449038;
       459600; 587601; 1490258; 498771; 2301395; 3770449; 1918811;
       1125468; 6109; 2429276; 8930; 1216738; 500710; 1652839; 634348;
       1810542; 4069621; 1383800; 1834363; 4409725]);
    ("pinepedii", Py.set_of
      [3337219; 1036936; 2301448; 736140; 2352292; 4161188; 458156;
       1937070; 1648564; 2301749; 28344; 1650257; 1650258; 1924695;
       3090780; 3145957; 1391466; 2942959; 918007; 348280; 458617;
       2908666; 1577723; 3469951]);
    ("surricate", Py.set_of
      [2914435; 1883911; 3343629; 3396110; 4049678; 3060380; 21664;
       2428451; 4396201; 1831339; 2762930; 1366453; 2410438; 344135;
       3233351; 2716491; 765004; 495566; 741841; 3233747; 2746981;
       2872678; 1650665; 2069610; 763375; 3603697; 286579; 351101])
  ]%Z.

Definition combined_name : string := "combined_lineage_results.txt".

(** Lines 140-145: the loop over the input files. *)
Fixpoint batch (vcf_files : list string) (output_dir : string)
    (all_results : list string) : io (list string) :=
  match vcf_files with
  | [] => mret all_results
  | vcf_file :: rest =>
      print ("Processing " +:+ vcf_file +:+ " ...");;
      result ← process_vcf vcf_file output_dir lineage_references;
      match result with
      | None | Some EmptyString => batch rest output_dir all_results
      | Some text => batch rest output_dir (all_results ++ [text])
      end
  end.

(** [main], after argument parsing (lines 102, 140-151). *)
Definition main (vcf_files : list string) (output_dir : string) : io unit :=
  is_file ← path_exists output_dir;
  if (is_file : bool) then lift (Raise FileExistsError)
  else
    all_results ← batch vcf_files output_dir [];
    let combined_file := path_join output_dir combined_name in
    write_text combined_file (Py.join nl all_results);;
    print (nl +:+ "Combined results saved to " +:+ combined_file).

End Reader.
End V5.

(** * Vocabulary of the statements *)

(** ** Worlds *)

(** The world after some more lines on the console. *)
Definition say (lines : list out_line) (w : world) : world :=
  World (files w) (stdout w ++ lines) (tables w).

(** Computations that write no table. *)
Definition keeps_tables {A} (m : io A) : Prop := ∀ w, tables (m w).1 = tables w.

(** The position file of a single-sample input. *)
Definition snp_file_of (vcf_file : string) : string :=
  Py.splitext_root (Py.basename vcf_file) +:+ "_snp.txt".

Definition conversion_error (vcf_file : string) : out_line :=
  Line ("Error converting SNP positions to integers for "
        +:+ Py.splitext_root (Py.basename vcf_file) +:+ ". Skipping.").

(** The world after a single-sample extraction that failed on a
    malformed position: the position file is there, one line was printed. *)
Definition after_failed_conversion (vcf_file text : string) (w : world) : world :=
  World (<[snp_file_of vcf_file :=
             Py.join nl (Single.position_fields (lines_of text))]> (files w))
        (stdout w ++ [conversion_error vcf_file]) (tables w).

(** ** Stored percentages

    V1 and V4 keep every score as the string [f"{probability:.2f}%"] and
    read it back with [float(prob.strip('%'))].  Such a string is
    determined by a number of hundredths of a percent. *)

Definition is_digit (c : ascii) : bool := bool_decide (is_Some (Py.digit_of c)).

Definition all_digits (s : string) : Prop :=
  Forall (λ c, is_digit c = true) (list_ascii_of_string s).

(** "NN.NN%" for [h] hundredths *)
Definition percent_of_hundredths (h : N) : string := Fmt.show_hundredths h +:+ "%".

(** The mapping the scripts store for scores given in hundredths. *)
Definition render_scores (scores : dict N) : dict string :=
  (λ kv, (kv.1, percent_of_hundredths kv.2)) <$> scores.

(** The numbers the scripts read back from it. *)
Definition as_percentages (scores : dict N) : dict Q :=
  (λ kv, (kv.1, Z.of_N kv.2 # 100)) <$> scores.

(** The lineages whose stored score is above 0, in the order of the mapping. *)
Definition positive_lineages (scores : dict N) : list string :=
  (filter (λ kv, (0 < kv.2)%N) scores).*1.

(** ** Scores *)

(** [100 * |M ∩ S| / |M|] for a non-empty marker set [M]. *)
Definition ratio (M S : gset Z) : Q :=
  ((Z.of_nat (size (M ∩ S)) # Pos.of_nat (size M)) * 100)%Q.

(** The score V4 computes: 0 for an empty marker set. *)
Definition guarded_ratio (M S : gset Z) : Q :=
  if decide (size M = 0) then 0%Q else ratio M S.

(** The stored value, in hundredths of a percent. *)
Definition stored (q : Q) : N := Z.to_N (Fmt.hundredths q).

(** The scores of a catalog under a scoring function: as stored, in
    hundredths, and as computed. *)
Definition score_table (f : gset Z → Q) (C : dict (gset Z)) : dict N :=
  (λ kv, (kv.1, stored (f kv.2))) <$> C.

Definition raw_table (f : gset Z → Q) (C : dict (gset Z)) : dict Q :=
  (λ kv, (kv.1, f kv.2)) <$> C.

(** ** The lineage3 sample *)

Definition lineage3_markers : gset Z := Py.set_of [2840999; 633562; 3582694; 24007]%Z.

(** The scores of the lineage3 sample over the catalog of V5. *)
Definition lineage3_scores : dict Q :=
  raw_table (λ M, ratio M lineage3_markers) V5.lineage_references.

(** "lineage3: 100.00%" and every other lineage of the catalog at "0.00%",
    in the sorted order of the report. *)
Definition lineage3_prob_str : string :=
  Py.join ", "
    ((λ lineage, lineage +:+ ": " +:+
                 (if decide (lineage = "lineage3") then "100.00%" else "0.00%"))
       <$> Py.sorted (Py.keys V5.lineage_references)).

Definition lineage3_report (sample_name : string) : string :=
  sample_name +:+ " is predicted as " +:+ "lineage3" +:+ nl +:+
  "Probabilities: " +:+ lineage3_prob_str +:+ nl.

(** ** The catalogs *)

Definition dassie_of (lineage_references : dict (gset Z)) : gset Z :=
  default ∅ (Py.dict_get lineage_references "dassie").

(** ** Inputs of the examples *)

Definition tabbed (fields : list string) : string := Py.join (String tab EmptyString) fields.

(** A stand-in for the pandas reader: the lines of the position file as
    they are, without the blank ones, which [read_csv] drops; a file with
    nothing else has no column to read. *)
Definition plain_reader (text : string) : result (list string) :=
  match filter (λ line, line ≠ EmptyString) (lines_of text) with
  | [] => Raise (LibraryError "EmptyDataError")
  | column => Ok column
  end.

(** The row of the specification: FORMAT "GT:DP", samples "1:30" and "0:30". *)
Definition example_row : string :=
  tabbed ["chr1"; "633562"; "."; "A"; "G"; "."; "PASS"; "."; "GT:DP"; "1:30"; "0:30"].

Definition malformed_row : string :=
  tabbed ["chr1"; "abc"; "."; "A"; "G"; "."; "PASS"; "."; "GT:DP"; "1:30"; "0:30"].

Definition single_vcf : string :=
  Py.join nl [tabbed ["chr1"; "633562"; "."; "A"; "G"];
              tabbed ["chr1"; "abc"; "."; "A"; "G"]].

(** Three data rows, the second with an empty position field. *)
Definition blank_position_vcf : string :=
  Py.join nl [tabbed ["chr1"; "633562"; "."; "A"; "G"];
              tabbed ["chr1"; EmptyString; "."; "A"; "G"];
              tabbed ["chr1"; "24007"; "."; "A"; "G"]].

(** The scores 0, 50.0 and 25.0 of the specification. *)
Definition example_scores : dict N :=
  [("lineageA", 0%N); ("lineageB", 5000%N); ("lineageC", 2500%N)].

Definition all_zero_V5 : dict Q := [("lineage1", 0%Q); ("lineage2", 0%Q)].
Definition all_zero_V1 : dict N := [("lineage1", 0%N); ("lineage2", 0%N)].
Definition one_best_V5 : dict Q :=
  [("lineage1", 25%Q); ("lineage2", 75%Q); ("lineage3", 50%Q)].

Definition small_sample : gset Z := {[633562%Z]}.
Definition large_sample : gset Z := {[633562%Z; 2840999%Z; 3876953%Z]}.

Definition lineage3_vcf : string :=
  Py.join nl
    ["##fileformat=VCFv4.2";
     tabbed ["#CHROM"; "POS"; "ID"; "REF"; "ALT"; "QUAL"; "FILTER"; "INFO"];
     tabbed ["chr"; "24007"; "."; "A"; "G"; "."; "PASS"; "."];
     tabbed ["chr"; "633562"; "."; "A"; "G"; "."; "PASS"; "."];
     tabbed ["chr"; "2840999"; "."; "C"; "T"; "."; "PASS"; "."];
     tabbed ["chr"; "3582694"; "."; "G"; "A"; "."; "PASS"; "."]] +:+ nl.

Definition lineage3_world : world := World {["isolate7.vcf" := lineage3_vcf]} [] [].

(** A position of V1's dassie markers that V4's do not have. *)
Definition only_in_V1 : gset Z := {[2271988%Z]}.

Definition no_header_vcf : string :=
  tabbed ["chr"; "24007"; "."; "A"; "G"; "."; "PASS"; "."; "GT"; "1"] +:+ nl.

Definition empty_batch_world : world := World {["noheader.vcf" := no_header_vcf]} [] [].

(** ** Joint extraction, file by file *)

(** Whether a sample field has, at the genotype's index, a token other
    than "0" and ".". *)
Definition calls (gt_index : nat) (field : string) : bool :=
  match Py.split ":" field !! gt_index with
  | Some genotype => bool_decide (genotype ≠ "0" ∧ genotype ≠ ".")
  | None => false
  end.

(** Whether one of the columns [i], [i+1], ... of a row, named by
    [sample_names], belongs to [sample] and has such a token. *)
Fixpoint called (fields : list string) (gt_index i : nat)
    (sample_names : list string) (sample : string) : bool :=
  match sample_names with
  | [] => false
  | name :: rest =>
      bool_decide (name = sample) && default false (calls gt_index <$> fields !! i)
      || called fields gt_index (S i) rest sample
  end.

(** The position of a data row, when it has one that [int] accepts. *)
Definition row_position (line : string) : option Z :=
  if Py.startswith line "#" then None
  else
    match V4.row_fields line !! 1 with
    | Some p => match Py.int p with Ok pos => Some pos | Raise _ => None end
    | None => None
    end.

(** The rows that [process_joint_vcf] gets through: comment lines, rows
    whose position [int] refuses, and rows with a position and all of the
    nine fixed columns and the [n_samples] sample columns. *)
Definition row_accepted (n_samples : nat) (line : string) : bool :=
  Py.startswith line "#" ||
  match V4.row_fields line !! 1 with
  | Some p =>
      match Py.int p with
      | Ok _ => 9 + n_samples <=? length (V4.row_fields line)
      | Raise _ => true
      end
  | None => false
  end.

(** What one row, and all the rows, add to the variant set of [sample]. *)
Definition row_variants (sample_names : list string) (line sample : string) : gset Z :=
  match row_position line, V4.row_fields line !! 8 with
  | Some pos, Some fmt =>
      if called (V4.row_fields line) (V4.gt_index (Py.split ":" fmt)) 9
           sample_names sample
      then {[pos]} else ∅
  | _, _ => ∅
  end.

Definition joint_variants (sample_names lines : list string) (sample : string) : gset Z :=
  ⋃ ((λ line, row_variants sample_names line sample) <$> lines).

(** The records a joint file gives on its own, none when it fails. *)
Definition records_of (w : world) (vcf_file : string) : list (dict string) :=
  match (V4.process_joint_vcf vcf_file V4.lineage_references w).2 with
  | Ok records => records
  | Raise _ => []
  end.

(** A joint file of two samples: a header, the row of the specification
    and a row whose position is not a number. *)
Definition joint_vcf : string :=
  Py.join nl
    ["##fileformat=VCFv4.2";
     tabbed ["#CHROM"; "POS"; "ID"; "REF"; "ALT"; "QUAL"; "FILTER"; "INFO"; "FORMAT";
             "s1"; "s2"];
     example_row;
     malformed_row] +:+ nl.

Definition joint_world : world := World {["joint.vcf" := joint_vcf]} [] [].

(** ** Single-sample extraction *)

(** The lines [extract_snp_positions] takes no position from: comment
    lines and lines with a single column. *)
Definition without_position (line : string) : bool :=
  Py.startswith line "#" || (length (Py.split tab (Py.strip line)) <=? 1).

(** The line of [process_vcf] for an input without a position file. *)
Definition skipped (vcf_file : string) : out_line :=
  Line ("No valid SNP file generated for "
        +:+ Py.splitext_root (Py.basename vcf_file) +:+ ". Skipping.").

(** ** Ties and shared markers *)

(** Scores with a tie for the first place. *)
Definition tied_V5 : dict Q := [("lineage1", 50%Q); ("lineage2", 75%Q); ("lineage3", 75%Q)].
Definition tied_V1 : dict N := [("lineage1", 5000%N); ("lineage2", 7500%N); ("lineage3", 7500%N)].

(** The markers that l2_2_1 and l2_2_2 share in the catalog of V5. *)
Definition l2_2_markers : gset Z := Py.set_of [3147511; 1565566; 2640807]%Z.

(** ** Files written by the single-sample scripts *)

(** The report file of a single-sample input (V5). *)
Definition report_file_of (output_dir vcf_file : string) : string :=
  path_join output_dir (Py.splitext_root (Py.basename vcf_file) +:+ "_lineage_result.txt").

(** Computations that leave alone every text file outside [P]. *)
Definition writes_only {A} (P : string → Prop) (m : io A) : Prop :=
  ∀ w p, ¬ P p → files (m w).1 !! p = files w !! p.

(** What the three scripts print for an input file that does not exist. *)
Definition missing_single (vcf_file : string) : list out_line :=
  [Line ("Processing " +:+ vcf_file +:+ " ...");
   Line ("File not found: " +:+ vcf_file);
   skipped vcf_file].

Definition missing_joint (vcf_file : string) : list out_line :=
  [Line ("Processing " +:+ vcf_file +:+ " ...");
   Line ("File not found: " +:+ vcf_file)].

(** The small sample and a position that is no marker of any catalog. *)
Definition noisy_sample : gset Z := {[633562%Z; 1%Z]}.

(** A reader that fails on every position file. *)
Definition failing_reader (text : string) : result (list string) :=
  Raise (LibraryError "EmptyDataError").

(** * Properties *)

(** ** Dictionaries *)

Section DictFacts.
Context {V : Type}.
Implicit Types (d : dict V) (k : string) (v : V).

Lemma dict_get_set_eq d k v : Py.dict_get (Py.dict_set k v d) k = Some v.
Proof.
  induction d as [|[k' v'] d IH]; simpl.
  - by rewrite decide_True.
  - destruct (decide (k = k')) as [->|Hne]; simpl.
    + by rewrite decide_True.
    + by rewrite decide_False.
Qed.

Lemma dict_get_set_ne d k k' v :
  k ≠ k' → Py.dict_get (Py.dict_set k v d) k' = Py.dict_get d k'.
Proof.
  intros Hne. induction d as [|[k0 v0] d IH]; simpl.
  - by rewrite decide_False.
  - destruct (decide (k = k0)) as [->|Hk]; simpl.
    + by rewrite !decide_False.
    + by rewrite IH.
Qed.

Lemma keys_set_in d k v : k ∈ Py.keys d → Py.keys (Py.dict_set k v d) = Py.keys d.
Proof.
  unfold Py.keys. induction d as [|[k0 v0] d IH]; simpl; intros Hin.
  - by apply elem_of_nil in Hin.
  - destruct (decide (k = k0)) as [->|Hk]; simpl; [done|].
    f_equal. apply IH. by apply elem_of_cons in Hin as [?|?].
Qed.

Lemma dict_get_Some_keys d k v : Py.dict_get d k = Some v → k ∈ Py.keys d.
Proof.
  unfold Py.keys. induction d as [|[k0 v0] d IH]; simpl; [done|].
  destruct (decide (k = k0)) as [->|Hk]; [left|right; auto].
Qed.

Lemma dict_get_elem d k v : NoDup (Py.keys d) → (k, v) ∈ d → Py.dict_get d k = Some v.
Proof.
  unfold Py.keys. induction d as [|[k0 v0] d IH]; simpl; intros Hnd Hin.
  - by apply elem_of_nil in Hin.
  - apply NoDup_cons in Hnd as [Hk0 Hnd]. apply elem_of_cons in Hin as [[= -> ->]|Hin].
    + by rewrite decide_True.
    + rewrite decide_False; [by apply IH|].
      intros ->. apply Hk0. apply list_elem_of_fmap. by exists (k0, v).
Qed.

Lemma keys_alter d k (f : V → V) : Py.keys (Py.dict_alter f k d) = Py.keys d.
Proof.
  unfold Py.dict_alter. destruct (Py.dict_get d k) as [v|] eqn:E; [|done].
  apply keys_set_in. by eapply dict_get_Some_keys.
Qed.

Lemma dict_get_alter d k k' (f : V → V) :
  Py.dict_get (Py.dict_alter f k d) k' =
  if decide (k = k') then f <$> Py.dict_get d k' else Py.dict_get d k'.
Proof.
  unfold Py.dict_alter. destruct (decide (k = k')) as [<-|Hne].
  - destruct (Py.dict_get d k) as [v|] eqn:E; simpl; [apply dict_get_set_eq|by rewrite E].
  - destruct (Py.dict_get d k) as [v|] eqn:E; [by apply dict_get_set_ne|done].
Qed.

End DictFacts.

(** ** Rendering and reading back two-decimal percentages *)

Lemma list_ascii_app s1 s2 :
  list_ascii_of_string (s1 +:+ s2) = list_ascii_of_string s1 ++ list_ascii_of_string s2.
Proof. induction s1 as [|c s1 IH]; simpl; [done|by rewrite IH]. Qed.

Lemma all_digits_app s1 s2 : all_digits s1 → all_digits s2 → all_digits (s1 +:+ s2).
Proof. unfold all_digits. rewrite list_ascii_app. apply Forall_app_2. Qed.

Lemma all_digits_uint d : all_digits (NilEmpty.string_of_uint d).
Proof. induction d; simpl; constructor; done. Qed.

Lemma show_N_digits n : all_digits (Fmt.show_N n).
Proof. apply all_digits_uint. Qed.

Lemma show_N_nonempty n : Fmt.show_N n ≠ EmptyString.
Proof.
  unfold Fmt.show_N. intros E.
  pose proof (NilEmpty.usu (N.to_uint n)) as H. rewrite E in H. simpl in H.
  injection H as H. pose proof (DecimalN.Unsigned.of_to n) as H'.
  rewrite <- H in H'. simpl in H'. subst n. discriminate H.
Qed.

Lemma read_show_N n : Fmt.read_N (Fmt.show_N n) = Some n.
Proof.
  unfold Fmt.read_N. pose proof (show_N_nonempty n) as Hne.
  destruct (Fmt.show_N n) as [|c s] eqn:E; [done|]. rewrite <- E. unfold Fmt.show_N.
  by rewrite NilEmpty.usu; simpl; rewrite DecimalN.Unsigned.of_to.
Qed.

Lemma two_digits_spec m :
  (m < 100)%N →
  Fmt.read_N (Fmt.two_digits m) = Some m ∧ String.length (Fmt.two_digits m) = 2.
Proof.
  intros Hm.
  assert (Hall : forallb (λ k, bool_decide
            (Fmt.read_N (Fmt.two_digits k) = Some k ∧
             String.length (Fmt.two_digits k) = 2))
            (N.of_nat <$> seq 0 100) = true) by (vm_compute; reflexivity).
  rewrite forallb_forall in Hall.
  eapply bool_decide_eq_true_1, (Hall m).
  apply list_elem_of_In, list_elem_of_fmap. exists (N.to_nat m). split; [lia|].
  apply list_elem_of_In, in_seq. lia.
Qed.

Lemma two_digits_digits m : all_digits (Fmt.two_digits m).
Proof. apply all_digits_app; apply show_N_digits. Qed.

(** Splitting at a separator that occurs once. *)
Lemma split_no_sep sep s :
  Forall (λ c, c ≠ sep) (list_ascii_of_string s) → Py.split sep s = [s].
Proof.
  induction s as [|c s IH]; simpl; [done|]. intros H.
  apply Forall_cons in H as [Hc H].
  rewrite (proj2 (Ascii.eqb_neq c sep) Hc). by rewrite IH.
Qed.

Lemma split_app_sep sep s1 s2 :
  Forall (λ c, c ≠ sep) (list_ascii_of_string s1) →
  Py.split sep (s1 +:+ String sep s2) = s1 :: Py.split sep s2.
Proof.
  induction s1 as [|c s1 IH]; simpl; intros H.
  - by rewrite Ascii.eqb_refl.
  - apply Forall_cons in H as [Hc H].
    rewrite (proj2 (Ascii.eqb_neq c sep) Hc). by rewrite IH.
Qed.

Lemma digit_not c (x : ascii) : is_digit c = true → is_digit x = false → c ≠ x.
Proof. intros Hc Hx ->. congruence. Qed.

Lemma all_digits_no (x : ascii) s :
  is_digit x = false → all_digits s → Forall (λ c, c ≠ x) (list_ascii_of_string s).
Proof.
  intros Hx Hs. eapply Forall_impl; [exact Hs|]. intros c Hc. by eapply digit_not.
Qed.

Lemma float_unsigned_show h :
  Fmt.float_unsigned (Fmt.show_hundredths h) = Some (Z.of_N h # 100).
Proof.
  unfold Fmt.float_unsigned, Fmt.show_hundredths.
  change ("." +:+ Fmt.two_digits (h `mod` 100))
    with (String "." (Fmt.two_digits (h `mod` 100))).
  rewrite split_app_sep by (apply all_digits_no; [done|apply show_N_digits]).
  rewrite split_no_sep by (apply all_digits_no; [done|apply two_digits_digits]).
  destruct (two_digits_spec (h `mod` 100)) as [Hread Hlen].
  { apply N.mod_lt. done. }
  rewrite read_show_N, Hread, Hlen. simpl. do 2 f_equal.
  change (10 ^ 2)%N with 100%N. pose proof (N.div_mod h 100). lia.
Qed.

Lemma strip_dropped_suffix (p : ascii → bool) s (x c cl : ascii) l' rl :
  list_ascii_of_string s = c :: l' → p c = false →
  rev (list_ascii_of_string s) = cl :: rl → p cl = false →
  p x = true →
  Py.strip_with p (s +:+ String x EmptyString) = s.
Proof.
  intros Hl Hc Hr Hcl Hx. unfold Py.strip_with. rewrite list_ascii_app.
  change (list_ascii_of_string (String x EmptyString)) with [x].
  rewrite Hl. cbn [app Py.drop_while]. rewrite Hc.
  change (c :: l' ++ [x]) with ((c :: l') ++ [x]).
  rewrite <- Hl, rev_app_distr. cbn [rev app Py.drop_while]. rewrite Hx, Hr.
  cbn [Py.drop_while]. rewrite Hcl, <- Hr, rev_involutive.
  apply string_of_list_ascii_of_string.
Qed.

Lemma show_hundredths_digits_dot h :
  Forall (λ c, is_digit c = true ∨ c = "."%char)
    (list_ascii_of_string (Fmt.show_hundredths h)).
Proof.
  unfold Fmt.show_hundredths. rewrite !list_ascii_app. repeat apply Forall_app_2.
  - eapply Forall_impl; [apply show_N_digits|]. intros c ?. by left.
  - simpl. constructor; [by right|constructor].
  - eapply Forall_impl; [apply two_digits_digits|]. intros c ?. by left.
Qed.

Lemma show_hundredths_nonempty h : Fmt.show_hundredths h ≠ EmptyString.
Proof.
  unfold Fmt.show_hundredths. pose proof (show_N_nonempty (h / 100)).
  by destruct (Fmt.show_N (h / 100)).
Qed.

Lemma show_hundredths_head h c s :
  Fmt.show_hundredths h = String c s → is_digit c = true.
Proof.
  unfold Fmt.show_hundredths. pose proof (show_N_nonempty (h / 100)) as Hne.
  pose proof (show_N_digits (h / 100)) as Hd.
  destruct (Fmt.show_N (h / 100)) as [|c0 s0]; [done|]. simpl. intros [= <- _].
  by apply Forall_cons in Hd as [? _].
Qed.

Lemma strip_percent h :
  Py.strip_char "%" (percent_of_hundredths h) = Fmt.show_hundredths h.
Proof.
  unfold Py.strip_char, percent_of_hundredths.
  pose proof (show_hundredths_digits_dot h) as Hall.
  pose proof (show_hundredths_nonempty h) as Hne.
  destruct (list_ascii_of_string (Fmt.show_hundredths h)) as [|c l'] eqn:Hl.
  { destruct (Fmt.show_hundredths h); done. }
  destruct (rev (c :: l')) as [|cl rl] eqn:Hr.
  { apply (f_equal (@rev _)) in Hr. by rewrite rev_involutive in Hr. }
  assert (Hnot : ∀ a, a ∈ c :: l' → Ascii.eqb "%" a = false).
  { intros a Ha. rewrite Forall_forall in Hall. apply Ascii.eqb_neq. intros <-.
    by destruct (Hall _ Ha). }
  eapply strip_dropped_suffix; [exact Hl| |by rewrite Hl| |done].
  - apply Hnot. by left.
  - apply Hnot. apply list_elem_of_In, in_rev. rewrite Hr. by left.
Qed.

Lemma of_percent_hundredths h :
  Fmt.of_percent (percent_of_hundredths h) = Ok (Z.of_N h # 100).
Proof.
  unfold Fmt.of_percent. rewrite strip_percent. unfold Fmt.float.
  pose proof (show_hundredths_head h) as Hhead.
  pose proof (float_unsigned_show h) as Hf.
  destruct (Fmt.show_hundredths h) as [|c s]; [by rewrite Hf|].
  specialize (Hhead c s eq_refl).
  destruct (decide (c = "-"%char)) as [->|Hc]; [done|].
  replace (match c with
           | "-"%char => Qopp <$> Fmt.float_unsigned s
           | _ => Fmt.float_unsigned (String c s)
           end)
    with (Fmt.float_unsigned (String c s)); [by rewrite Hf|].
  destruct c as [[] [] [] [] [] [] [] []]; try reflexivity. done.
Qed.

Lemma round_half_even_nonneg n d : (0 ≤ n)%Z → (0 ≤ Fmt.round_half_even n d)%Z.
Proof.
  intros Hn. unfold Fmt.round_half_even.
  assert (0 ≤ n / Z.pos d)%Z by (apply Z.div_pos; lia).
  destruct (2 * _ ?= _)%Z; [destruct (Z.even _)|..]; lia.
Qed.

Lemma hundredths_nonneg q : (0 ≤ Qnum q)%Z → (0 ≤ Fmt.hundredths q)%Z.
Proof. intros Hq. apply round_half_even_nonneg. lia. Qed.

(** The score mapping stores [percent q]; for the scores the scripts
    compute ([q] is never negative) this is the rendering of
    [hundredths q]. *)
Lemma percent_nonneg q :
  (0 ≤ Qnum q)%Z → Fmt.percent q = percent_of_hundredths (Z.to_N (Fmt.hundredths q)).
Proof.
  intros Hq. unfold Fmt.percent, Fmt.format_2f, percent_of_hundredths.
  rewrite (proj2 (Z.ltb_ge _ _) Hq).
  by rewrite Zabs2N.abs_N_nonneg by by apply hundredths_nonneg.
Qed.

(** ** Scoring *)

Lemma truediv_nat a n :
  n ≠ 0 → Py.truediv (Z.of_nat a) (Z.of_nat n) = Ok (Z.of_nat a # Pos.of_nat n).
Proof.
  destruct n as [|n]; [done|]. intros _. unfold Py.truediv.
  rewrite <- Pos.of_nat_succ. reflexivity.
Qed.

Lemma V4_probability_eq M S : V4.probability M S = Ok (guarded_ratio M S).
Proof.
  unfold V4.probability, guarded_ratio. destruct (decide (size M = 0)); [done|].
  by rewrite truediv_nat.
Qed.

Lemma Single_probability_eq M S :
  Single.probability M S =
  if decide (size M = 0) then Raise ZeroDivisionError else Ok (ratio M S).
Proof.
  unfold Single.probability. destruct (decide (size M = 0)) as [->|Hne]; [done|].
  by rewrite truediv_nat.
Qed.

Lemma size_inter_le (M S : gset Z) : size (M ∩ S) ≤ size M.
Proof. apply subseteq_size. by intros x [? ?]%elem_of_intersection. Qed.

Lemma size_inter_mono (M S S' : gset Z) : S ⊆ S' → size (M ∩ S) ≤ size (M ∩ S').
Proof.
  intros Hsub. apply subseteq_size. intros x [? ?]%elem_of_intersection.
  apply elem_of_intersection. split; [done|by apply Hsub].
Qed.

Lemma Zpos_of_nat n : n ≠ 0 → Z.pos (Pos.of_nat n) = Z.of_nat n.
Proof. intros Hn. rewrite <- (Nat2Pos.id n) at 2 by done. by rewrite positive_nat_Z. Qed.

Lemma ratio_num M S : Qnum (ratio M S) = (Z.of_nat (size (M ∩ S)) * 100)%Z.
Proof. reflexivity. Qed.

Lemma ratio_den M S : size M ≠ 0 → Z.pos (Qden (ratio M S)) = Z.of_nat (size M).
Proof.
  intros Hn. unfold ratio. cbn [Qden Qmult]. rewrite Pos.mul_1_r. by apply Zpos_of_nat.
Qed.

Lemma ratio_range M S : size M ≠ 0 → (0 <= ratio M S <= 100)%Q.
Proof.
  intros Hn. pose proof (size_inter_le M S). unfold Qle.
  rewrite ratio_num, (ratio_den M S Hn). cbn [Qnum Qden]. lia.
Qed.

Lemma ratio_mono M S S' : size M ≠ 0 → S ⊆ S' → (ratio M S <= ratio M S')%Q.
Proof.
  intros Hn Hsub. pose proof (size_inter_mono M S S' Hsub). unfold Qle.
  rewrite !ratio_num, !(ratio_den _ _ Hn). nia.
Qed.

Lemma guarded_ratio_range M S : (0 <= guarded_ratio M S <= 100)%Q.
Proof.
  unfold guarded_ratio. destruct (decide (size M = 0)); [|by apply ratio_range].
  split; [apply Qle_refl|done].
Qed.

Lemma guarded_ratio_mono M S S' : S ⊆ S' → (guarded_ratio M S <= guarded_ratio M S')%Q.
Proof.
  unfold guarded_ratio. destruct (decide (size M = 0)); [intros _; apply Qle_refl|].
  by apply ratio_mono.
Qed.

Lemma guarded_ratio_num M S : (0 ≤ Qnum (guarded_ratio M S))%Z.
Proof.
  unfold guarded_ratio. destruct (decide (size M = 0)); [done|]. rewrite ratio_num. lia.
Qed.

(** Rounding to hundredths keeps the order and the range. *)
Lemma round_half_even_bounds n d :
  (n / Z.pos d ≤ Fmt.round_half_even n d ≤ n / Z.pos d + 1)%Z.
Proof.
  unfold Fmt.round_half_even.
  destruct (2 * _ ?= _)%Z; [destruct (Z.even _)|..]; lia.
Qed.

Lemma round_half_even_mono n n' d :
  (n ≤ n')%Z → (Fmt.round_half_even n d ≤ Fmt.round_half_even n' d)%Z.
Proof.
  intros Hle.
  pose proof (Z.div_le_mono n n' (Z.pos d) eq_refl Hle) as Hfl.
  destruct (Z.eq_dec (n / Z.pos d)%Z (n' / Z.pos d)%Z) as [Heq|Hne].
  - pose proof (Z.div_mod n (Z.pos d)) as Hn. pose proof (Z.div_mod n' (Z.pos d)) as Hn'.
    assert (n mod Z.pos d ≤ n' mod Z.pos d)%Z as Hr by (rewrite Heq in Hn; lia).
    unfold Fmt.round_half_even. rewrite <- Heq.
    destruct (Z.compare_spec (2 * (n mod Z.pos d)) (Z.pos d));
      destruct (Z.compare_spec (2 * (n' mod Z.pos d)) (Z.pos d));
      destruct (Z.even (n / Z.pos d)%Z); lia.
  - pose proof (round_half_even_bounds n d). pose proof (round_half_even_bounds n' d). lia.
Qed.

Lemma round_half_even_top n d k :
  (0 ≤ n ≤ k * Z.pos d)%Z → (Fmt.round_half_even n d ≤ k)%Z.
Proof.
  intros [Hn Hk].
  assert (n / Z.pos d ≤ k)%Z as Hfl by (apply Z.div_le_upper_bound; lia).
  destruct (Z.eq_dec (n / Z.pos d)%Z k) as [Heq|Hne].
  - pose proof (Z.div_mod n (Z.pos d)) as Hdm.
    pose proof (Z.mod_pos_bound n (Z.pos d) eq_refl) as Hb.
    assert (n mod Z.pos d = 0)%Z as Hr by (rewrite Heq in Hdm; lia).
    unfold Fmt.round_half_even. rewrite Hr, Heq. simpl. done.
  - pose proof (round_half_even_bounds n d). lia.
Qed.

Lemma stored_guarded_range M S : (stored (guarded_ratio M S) ≤ 10000)%N.
Proof.
  unfold stored. pose proof (hundredths_nonneg _ (guarded_ratio_num M S)).
  enough (Fmt.hundredths (guarded_ratio M S) ≤ 10000)%Z by lia.
  unfold Fmt.hundredths. apply round_half_even_top.
  destruct (guarded_ratio_range M S) as [_ Hle]. unfold Qle in Hle. cbn [Qnum Qden] in Hle.
  pose proof (guarded_ratio_num M S). lia.
Qed.

Lemma stored_ratio_range M S : size M ≠ 0 → (stored (ratio M S) ≤ 10000)%N.
Proof.
  intros Hn. pose proof (stored_guarded_range M S) as H. unfold guarded_ratio in H.
  by rewrite decide_False in H.
Qed.

Lemma stored_ratio_mono M S S' :
  size M ≠ 0 → S ⊆ S' → (stored (ratio M S) ≤ stored (ratio M S'))%N.
Proof.
  intros Hn Hsub. unfold stored, Fmt.hundredths.
  assert (Qden (ratio M S) = Qden (ratio M S')) as Hden by reflexivity.
  rewrite Hden. apply Z2N.inj_le.
  - apply round_half_even_nonneg. rewrite ratio_num. lia.
  - apply round_half_even_nonneg. rewrite ratio_num. lia.
  - apply round_half_even_mono. rewrite !ratio_num.
    pose proof (size_inter_mono M S S' Hsub). lia.
Qed.

Lemma stored_guarded_mono M S S' :
  S ⊆ S' → (stored (guarded_ratio M S) ≤ stored (guarded_ratio M S'))%N.
Proof.
  intros Hsub. unfold guarded_ratio. destruct (decide (size M = 0)); [done|].
  by apply stored_ratio_mono.
Qed.

Lemma percent_guarded M S :
  Fmt.percent (guarded_ratio M S) = percent_of_hundredths (stored (guarded_ratio M S)).
Proof. apply percent_nonneg, guarded_ratio_num. Qed.

Lemma percent_ratio M S :
  Fmt.percent (ratio M S) = percent_of_hundredths (stored (ratio M S)).
Proof. apply percent_nonneg. rewrite ratio_num. lia. Qed.

Lemma size_zero_empty (M : gset Z) : size M = 0 ↔ M = ∅.
Proof.
  split; [by intros ?%size_empty_inv%leibniz_equiv|intros ->; apply size_empty].
Qed.

(** Below 20000 markers a match is never rounded away: the stored
    percentage is above 0 exactly when the marker set meets the sample. *)
Lemma stored_ratio_positive M S :
  size M ≠ 0 → (Z.of_nat (size M) < 20000)%Z →
  (0 < stored (ratio M S))%N ↔ M ∩ S ≠ ∅.
Proof.
  intros Hn Hsmall. unfold stored, Fmt.hundredths. rewrite ratio_num.
  pose proof (ratio_den M S Hn) as Hden.
  rewrite <- size_zero_empty.
  set (a := Z.of_nat (size (M ∩ S))) in *.
  assert (a = 0%Z ↔ size (M ∩ S) = 0) as Ha by lia.
  assert (0 ≤ a)%Z as Ha0 by lia.
  set (d := Qden (ratio M S)) in *.
  assert (Z.pos d < 20000)%Z as Hd by lia.
  clearbody a d. split.
  - intros Hpos Hz. apply Ha in Hz. subst a. by vm_compute in Hpos.
  - intros Hnz. assert (1 ≤ a)%Z by lia.
    enough (1 ≤ Fmt.round_half_even (a * 100 * 100) d)%Z by lia.
    pose proof (round_half_even_bounds (a * 100 * 100) d) as [Hlo _].
    destruct (Z.eq_dec (a * 100 * 100 / Z.pos d)%Z 0%Z) as [Hfl|Hfl].
    + unfold Fmt.round_half_even. rewrite Hfl.
      assert ((a * 100 * 100) mod Z.pos d = a * 100 * 100)%Z as ->.
      { pose proof (Z.div_mod (a * 100 * 100) (Z.pos d)). lia. }
      destruct (Z.compare_spec (2 * (a * 100 * 100)) (Z.pos d)); simpl; lia.
    + assert (0 ≤ a * 100 * 100 / Z.pos d)%Z by (apply Z.div_pos; lia). lia.
Qed.

Lemma guarded_ratio_positive M S :
  (Z.of_nat (size M) < 20000)%Z → (0 < stored (guarded_ratio M S))%N ↔ M ∩ S ≠ ∅.
Proof.
  intros Hsmall. unfold guarded_ratio. destruct (decide (size M = 0)) as [Hz|Hn].
  - apply size_zero_empty in Hz as ->. split; [by intros ?%N.lt_irrefl|].
    intros Hne. destruct Hne. apply (left_absorb_L ∅ (∩)).
  - by apply stored_ratio_positive.
Qed.

Lemma dict_set_fresh {V} (d : dict V) k v :
  k ∉ Py.keys d → Py.dict_set k v d = d ++ [(k, v)].
Proof.
  unfold Py.keys. induction d as [|[k' v'] d IH]; intros Hk; simpl; [done|].
  apply not_elem_of_cons in Hk as [Hne Hk]. rewrite decide_False by done.
  by rewrite IH.
Qed.

Lemma keys_app {V} (d1 d2 : dict V) : Py.keys (d1 ++ d2) = Py.keys d1 ++ Py.keys d2.
Proof. unfold Py.keys. apply fmap_app. Qed.

Lemma NoDup_keys_step {V W} (acc : dict V) (l : string) (v : V) (M : W) (rest : dict W) :
  NoDup (Py.keys acc ++ Py.keys ((l, M) :: rest)) →
  (l ∉ Py.keys acc) ∧ NoDup (Py.keys (acc ++ [(l, v)]) ++ Py.keys rest).
Proof.
  intros Hnd. rewrite keys_app. cbn [Py.keys fmap list_fmap fst] in *.
  rewrite <- app_assoc. cbn [app]. split; [|done].
  apply NoDup_app in Hnd as (_ & Hdisj & _). intros Hin. apply (Hdisj l Hin). by left.
Qed.

Lemma V4_score_loop_acc items S : ∀ acc,
  NoDup (Py.keys acc ++ Py.keys items) →
  V4.score_loop items S acc =
    Ok (acc ++ render_scores (score_table (λ M, guarded_ratio M S) items)).
Proof.
  induction items as [|[l M] rest IH]; intros acc Hnd; cbn [V4.score_loop].
  - by rewrite app_nil_r.
  - rewrite V4_probability_eq. unfold mbind, result_bind.
    destruct (NoDup_keys_step acc l (Fmt.percent (guarded_ratio M S)) M rest Hnd)
      as [Hfresh Hnd'].
    rewrite dict_set_fresh, IH by done. rewrite <- app_assoc. cbn [app].
    by rewrite percent_guarded.
Qed.

Lemma V4_score_loop_eq C S :
  NoDup (Py.keys C) →
  V4.score_loop C S [] = Ok (render_scores (score_table (λ M, guarded_ratio M S) C)).
Proof. intros Hnd. by rewrite V4_score_loop_acc. Qed.

Lemma V1_score_loop_acc items S : ∀ acc,
  NoDup (Py.keys acc ++ Py.keys items) →
  (∀ l M, (l, M) ∈ items → size M ≠ 0) →
  V1.score_loop items S acc =
    Ok (acc ++ render_scores (score_table (λ M, ratio M S) items)).
Proof.
  induction items as [|[l M] rest IH]; intros acc Hnd Hne; cbn [V1.score_loop].
  - by rewrite app_nil_r.
  - rewrite Single_probability_eq, decide_False by (eapply Hne; by left).
    unfold mbind, result_bind.
    destruct (NoDup_keys_step acc l (Fmt.percent (ratio M S)) M rest Hnd)
      as [Hfresh Hnd'].
    rewrite dict_set_fresh, IH; [|done|intros; eapply Hne; by right|done].
    rewrite <- app_assoc. cbn [app]. by rewrite percent_ratio.
Qed.

Lemma V5_score_loop_acc items S : ∀ acc,
  NoDup (Py.keys acc ++ Py.keys items) →
  (∀ l M, (l, M) ∈ items → size M ≠ 0) →
  V5.score_loop items S acc = Ok (acc ++ raw_table (λ M, ratio M S) items).
Proof.
  induction items as [|[l M] rest IH]; intros acc Hnd Hne; cbn [V5.score_loop].
  - by rewrite app_nil_r.
  - rewrite Single_probability_eq, decide_False by (eapply Hne; by left).
    unfold mbind, result_bind.
    destruct (NoDup_keys_step acc l (ratio M S) M rest Hnd) as [Hfresh Hnd'].
    rewrite dict_set_fresh, IH; [|done|intros; eapply Hne; by right|done].
    by rewrite <- app_assoc.
Qed.

(** An empty marker set anywhere in the catalog stops the single-sample
    scorers. *)
Lemma V1_score_loop_raises items S : ∀ acc l,
  (l, ∅) ∈ items → V1.score_loop items S acc = Raise ZeroDivisionError.
Proof.
  induction items as [|[l0 M] rest IH]; intros acc l Hin; [by apply elem_of_nil in Hin|].
  cbn [V1.score_loop]. rewrite Single_probability_eq.
  destruct (decide (size M = 0)) as [|Hne]; [done|]. unfold mbind, result_bind.
  apply elem_of_cons in Hin as [[= _ <-]|Hin]; [by rewrite size_empty in Hne|].
  by eapply IH.
Qed.

Lemma V5_score_loop_raises items S : ∀ acc l,
  (l, ∅) ∈ items → V5.score_loop items S acc = Raise ZeroDivisionError.
Proof.
  induction items as [|[l0 M] rest IH]; intros acc l Hin; [by apply elem_of_nil in Hin|].
  cbn [V5.score_loop]. rewrite Single_probability_eq.
  destruct (decide (size M = 0)) as [|Hne]; [done|]. unfold mbind, result_bind.
  apply elem_of_cons in Hin as [[= _ <-]|Hin]; [by rewrite size_empty in Hne|].
  by eapply IH.
Qed.

Lemma keys_render scores : Py.keys (render_scores scores) = Py.keys scores.
Proof. unfold Py.keys, render_scores. rewrite <- list_fmap_compose. done. Qed.

Lemma keys_score_table f C : Py.keys (score_table f C) = Py.keys C.
Proof. unfold Py.keys, score_table. rewrite <- list_fmap_compose. done. Qed.

Lemma stored_zero_of_empty_sample M : stored (ratio M ∅) = 0%N.
Proof.
  unfold stored, Fmt.hundredths. rewrite ratio_num.
  replace (M ∩ ∅) with (∅ : gset Z) by (symmetry; apply (right_absorb_L ∅ (∩))).
  rewrite size_empty. reflexivity.
Qed.

Lemma stored_guarded_zero_of_empty_sample M : stored (guarded_ratio M ∅) = 0%N.
Proof.
  unfold guarded_ratio. destruct (decide _); [done|apply stored_zero_of_empty_sample].
Qed.

(** C3. Scoring a lineage whose marker set is empty.  V4 tests the size
    first and gives 0, stored as "0.00%"; V1 and V5 divide by the size and
    raise ZeroDivisionError, for every sample. *)
Theorem C3_empty_marker_set (sample_snps : gset Z) (sample : string) :
  V4.probability ∅ sample_snps = Ok 0%Q ∧
  V4.sample_record [("lineageX", ∅)] sample sample_snps =
    Ok [("lineageX", "0.00%"); ("Sample_Name", sample);
        ("Predicted_lineage", "unknown_lineage")] ∧
  Single.probability ∅ sample_snps = Raise ZeroDivisionError ∧
  V1.sample_record [("lineageX", ∅)] sample sample_snps = Raise ZeroDivisionError ∧
  V5.report [("lineageX", ∅)] sample sample_snps = Raise ZeroDivisionError.
Proof.
  assert (H4 : V4.probability ∅ sample_snps = Ok 0%Q) by reflexivity.
  assert (H1 : Single.probability ∅ sample_snps = Raise ZeroDivisionError) by reflexivity.
  split; [done|]. split; [|split; [done|split]].
  - unfold V4.sample_record. cbn [V4.score_loop]. rewrite H4. reflexivity.
  - unfold V1.sample_record. cbn [V1.score_loop]. by rewrite H1.
  - unfold V5.report. cbn [V5.score_loop]. by rewrite H1.
Qed.

Lemma catalog_functional {V} (C : dict V) l M M' :
  NoDup (Py.keys C) → (l, M) ∈ C → (l, M') ∈ C → M = M'.
Proof.
  intros Hnd H1 H2. apply (dict_get_elem C l M Hnd) in H1.
  apply (dict_get_elem C l M' Hnd) in H2. congruence.
Qed.

Lemma catalog_empty_or_not (C : dict (gset Z)) :
  (∀ l M, (l, M) ∈ C → size M ≠ 0) ∨ (∃ l, (l, ∅) ∈ C).
Proof.
  destruct (decide (Forall (λ kv : string * gset Z, size kv.2 ≠ 0) C)) as [Hall|Hex].
  - left. intros l M Hin. rewrite Forall_forall in Hall. apply (Hall (l, M) Hin).
  - right. apply not_Forall_Exists in Hex; [|apply _].
    apply Exists_exists in Hex as ([l M] & Hin & Hz). exists l.
    simpl in Hz. destruct (decide (size M = 0)) as [E|E]; [|by destruct Hz].
    by apply size_zero_empty in E as ->.
Qed.

(** C7. Range and coverage of the scorer.  V4: every score is in [0,100],
    the mapping has one entry per lineage of the catalog, in the catalog's
    order, each a two-decimal percentage of at most 100.00, and all of
    them 0.00 for an empty sample.  V1: the same when no marker set of the
    catalog is empty; with an empty marker set it raises
    ZeroDivisionError and produces no mapping. *)
Theorem C7_score_range_and_coverage :
  (∀ snp_set snps, ∃ q, V4.probability snp_set snps = Ok q ∧ (0 <= q <= 100)%Q) ∧
  (∀ C snps, NoDup (Py.keys C) →
     ∃ scores,
       V4.score_loop C snps [] = Ok (render_scores scores) ∧
       Py.keys (render_scores scores) = Py.keys C ∧
       ∀ l h, (l, h) ∈ scores → (h ≤ 10000)%N ∧ (snps = ∅ → h = 0%N)) ∧
  (∀ C snps, NoDup (Py.keys C) → (∀ l M, (l, M) ∈ C → M ≠ ∅) →
     ∃ scores,
       V1.score_loop C snps [] = Ok (render_scores scores) ∧
       Py.keys (render_scores scores) = Py.keys C ∧
       ∀ l h, (l, h) ∈ scores → (h ≤ 10000)%N ∧ (snps = ∅ → h = 0%N)) ∧
  (∀ snps, V1.score_loop [("lineageX", ∅)] snps [] = Raise ZeroDivisionError).
Proof.
  split; [|split; [|split]].
  - intros M S. exists (guarded_ratio M S). split; [apply V4_probability_eq|].
    apply guarded_ratio_range.
  - intros C S Hnd. exists (score_table (λ M, guarded_ratio M S) C).
    split; [by apply V4_score_loop_eq|]. split; [by rewrite keys_render, keys_score_table|].
    intros l h Hin. apply list_elem_of_fmap in Hin as ([l' M] & [= -> ->] & _). split.
    + apply stored_guarded_range.
    + intros ->. apply stored_guarded_zero_of_empty_sample.
  - intros C S Hnd Hne. exists (score_table (λ M, ratio M S) C).
    assert (Hsz : ∀ l M, (l, M) ∈ C → size M ≠ 0).
    { intros l M Hin Hz. apply size_zero_empty in Hz. by eapply Hne. }
    split; [by rewrite V1_score_loop_acc|].
    split; [by rewrite keys_render, keys_score_table|].
    intros l h Hin. apply list_elem_of_fmap in Hin as ([l' M] & [= -> ->] & Hin). split.
    + eapply stored_ratio_range, Hsz, Hin.
    + intros ->. apply stored_zero_of_empty_sample.
  - intros S. apply (V1_score_loop_raises _ _ [] "lineageX"). by left.
Qed.

(** The catalogs of V4 and V1 with an empty sample: every lineage is
    there, at "0.00%". *)
Lemma C7_score_range_and_coverage_witness :
  NoDup (Py.keys V4.lineage_references) ∧
  NoDup (Py.keys V1.lineage_references) ∧
  (∀ l M, (l, M) ∈ V1.lineage_references → M ≠ ∅) ∧
  (∃ scores,
     V4.score_loop V4.lineage_references ∅ [] = Ok (render_scores scores) ∧
     Py.keys (render_scores scores) = Py.keys V4.lineage_references ∧
     ∀ l h, (l, h) ∈ scores → h = 0%N) ∧
  (∃ scores,
     V1.score_loop V1.lineage_references ∅ [] = Ok (render_scores scores) ∧
     Py.keys (render_scores scores) = Py.keys V1.lineage_references ∧
     ∀ l h, (l, h) ∈ scores → h = 0%N).
Proof.
  destruct C7_score_range_and_coverage as (_ & H4 & H1 & _).
  assert (Hnd4 : NoDup (Py.keys V4.lineage_references))
    by (apply (bool_decide_unpack _); vm_compute; exact I).
  assert (Hnd1 : NoDup (Py.keys V1.lineage_references))
    by (apply (bool_decide_unpack _); vm_compute; exact I).
  assert (Hne : ∀ l M, (l, M) ∈ V1.lineage_references → M ≠ ∅).
  { assert (Hall : Forall (λ kv : string * gset Z, kv.2 ≠ ∅) V1.lineage_references)
      by (apply (bool_decide_unpack _); vm_compute; exact I).
    intros l M Hin. rewrite Forall_forall in Hall. apply (Hall _ Hin). }
  split; [exact Hnd4|]. split; [exact Hnd1|]. split; [exact Hne|]. split.
  - destruct (H4 V4.lineage_references ∅ Hnd4) as (scores & Hrun & Hkeys & Hall).
    exists scores. split; [exact Hrun|]. split; [exact Hkeys|].
    intros l h Hin. exact (proj2 (Hall l h Hin) eq_refl).
  - destruct (H1 V1.lineage_references ∅ Hnd1 Hne) as (scores & Hrun & Hkeys & Hall).
    exists scores. split; [exact Hrun|]. split; [exact Hkeys|].
    intros l h Hin. exact (proj2 (Hall l h Hin) eq_refl).
Defined.

Lemma table_pointwise f f' (C : dict (gset Z)) l h h' :
  NoDup (Py.keys C) →
  (∀ M, (stored (f M) ≤ stored (f' M))%N) →
  (l, h) ∈ score_table f C → (l, h') ∈ score_table f' C → (h ≤ h')%N.
Proof.
  intros Hnd Hf Hin Hin'.
  apply list_elem_of_fmap in Hin as ([l1 M] & [= -> ->] & Hin).
  apply list_elem_of_fmap in Hin' as ([l2 M'] & [= <- ->] & Hin'). cbn [fst snd] in *.
  rewrite (catalog_functional C l1 M' M Hnd Hin' Hin). apply Hf.
Qed.

(** C9. Adding positions to the sample never lowers a score: the raw score
    of every lineage, and the two-decimal percentage stored for it, grow
    (weakly) with the sample.  V4 returns a mapping for every catalog; V1
    and V5 return one for both samples or raise the same exception for
    both. *)
Theorem C9_scoring_monotone (C : dict (gset Z)) (S S' : gset Z) :
  NoDup (Py.keys C) → S ⊆ S' →
  (∀ l M, (l, M) ∈ C →
     ∃ q q', V4.probability M S = Ok q ∧ V4.probability M S' = Ok q' ∧ (q <= q')%Q) ∧
  (∃ scores scores',
     V4.score_loop C S [] = Ok (render_scores scores) ∧
     V4.score_loop C S' [] = Ok (render_scores scores') ∧
     Py.keys scores = Py.keys C ∧ Py.keys scores' = Py.keys C ∧
     ∀ l h h', (l, h) ∈ scores → (l, h') ∈ scores' → (h ≤ h')%N) ∧
  match V1.score_loop C S [], V1.score_loop C S' [] with
  | Ok lp, Ok lp' =>
      ∃ scores scores',
        lp = render_scores scores ∧ lp' = render_scores scores' ∧
        Py.keys scores = Py.keys C ∧ Py.keys scores' = Py.keys C ∧
        ∀ l h h', (l, h) ∈ scores → (l, h') ∈ scores' → (h ≤ h')%N
  | Raise e, Raise e' => e = e'
  | _, _ => False
  end ∧
  match V5.score_loop C S [], V5.score_loop C S' [] with
  | Ok lp, Ok lp' =>
      Py.keys lp = Py.keys C ∧ Py.keys lp' = Py.keys C ∧
      ∀ l q q', (l, q) ∈ lp → (l, q') ∈ lp' → (q <= q')%Q
  | Raise e, Raise e' => e = e'
  | _, _ => False
  end.
Proof.
  intros Hnd Hsub. split; [|split; [|split]].
  - intros l M _. exists (guarded_ratio M S), (guarded_ratio M S').
    rewrite !V4_probability_eq. by split; [|split; [|apply guarded_ratio_mono]].
  - exists (score_table (λ M, guarded_ratio M S) C), (score_table (λ M, guarded_ratio M S') C).
    rewrite !V4_score_loop_eq, !keys_score_table by done. do 4 (split; [done|]).
    intros l h h'. apply table_pointwise; [done|]. intros M. by apply stored_guarded_mono.
  - destruct (catalog_empty_or_not C) as [Hne|[l0 Hempty]].
    + rewrite !V1_score_loop_acc by done. cbn [app].
      exists (score_table (λ M, ratio M S) C), (score_table (λ M, ratio M S') C).
      rewrite !keys_score_table. do 4 (split; [done|]).
      intros l h h' Hin Hin'.
      apply list_elem_of_fmap in Hin as ([l1 M] & [= -> ->] & Hin).
      apply list_elem_of_fmap in Hin' as ([l2 M'] & [= <- ->] & Hin'). cbn [fst snd] in *.
      rewrite (catalog_functional C l1 M' M Hnd Hin' Hin).
      apply stored_ratio_mono; [by eapply Hne|done].
    + by rewrite !(V1_score_loop_raises C _ [] l0 Hempty).
  - destruct (catalog_empty_or_not C) as [Hne|[l0 Hempty]].
    + rewrite !V5_score_loop_acc by done. cbn [app]. unfold raw_table, Py.keys.
      rewrite <- !list_fmap_compose. do 2 (split; [done|]).
      intros l q q' Hin Hin'.
      apply list_elem_of_fmap in Hin as ([l1 M] & [= -> ->] & Hin).
      apply list_elem_of_fmap in Hin' as ([l2 M'] & [= <- ->] & Hin'). cbn [fst snd] in *.
      rewrite (catalog_functional C l1 M' M Hnd Hin' Hin).
      apply ratio_mono; [by eapply Hne|done].
    + by rewrite !(V5_score_loop_raises C _ [] l0 Hempty).
Qed.

Lemma C9_scoring_monotone_witness :
  NoDup (Py.keys V4.lineage_references) ∧ small_sample ⊆ large_sample ∧
  ∃ scores scores',
    V4.score_loop V4.lineage_references small_sample [] = Ok (render_scores scores) ∧
    V4.score_loop V4.lineage_references large_sample [] = Ok (render_scores scores') ∧
    ∀ l h h', (l, h) ∈ scores → (l, h') ∈ scores' → (h ≤ h')%N.
Proof.
  assert (Hnd : NoDup (Py.keys V4.lineage_references))
    by (apply (bool_decide_unpack _); vm_compute; exact I).
  assert (Hsub : small_sample ⊆ large_sample)
    by (apply (bool_decide_unpack _); vm_compute; exact I).
  split; [exact Hnd|]. split; [exact Hsub|].
  destruct (C9_scoring_monotone V4.lineage_references small_sample large_sample Hnd Hsub)
    as (_ & (scores & scores' & H1 & H2 & _ & _ & Hle) & _).
  exists scores, scores'. split; [exact H1|]. split; [exact H2|exact Hle].
Defined.

(** ** The threshold policy *)

Lemma Qltb_0_hundredths h : Py.Qltb 0 (Z.of_N h # 100) = bool_decide (0 < h)%N.
Proof.
  unfold Py.Qltb, Qle_bool. cbn [Qnum Qden].
  destruct (Z.leb_spec (Z.of_N h * 1) (0 * 100)); cbn [negb]; symmetry.
  - apply bool_decide_eq_false_2. lia.
  - apply bool_decide_eq_true_2. lia.
Qed.

Lemma matching_lineages_render scores :
  V4.matching_lineages (render_scores scores) = Ok (positive_lineages scores).
Proof.
  unfold positive_lineages. induction scores as [|[l h] scores IH]; [done|].
  change (render_scores ((l, h) :: scores))
    with ((l, percent_of_hundredths h) :: render_scores scores).
  cbn [V4.matching_lineages]. rewrite of_percent_hundredths, IH.
  unfold mbind, result_bind.
  unfold V4.threshold. rewrite Qltb_0_hundredths, filter_cons. cbn [snd].
  case_bool_decide; by rewrite ?decide_True, ?decide_False by done.
Qed.

Lemma elem_of_positive_lineages scores l :
  l ∈ positive_lineages scores ↔ ∃ h, (l, h) ∈ scores ∧ (0 < h)%N.
Proof.
  unfold positive_lineages. rewrite list_elem_of_fmap. split.
  - intros ([l' h] & -> & Hin). apply list_elem_of_filter in Hin as [Hpos Hin]. eauto.
  - intros (h & Hin & Hpos). exists (l, h). split; [done|].
    by apply list_elem_of_filter.
Qed.

Lemma NoDup_positive_lineages scores :
  NoDup (Py.keys scores) → NoDup (positive_lineages scores).
Proof.
  unfold Py.keys, positive_lineages. intros Hnd.
  eapply sublist_NoDup; [exact Hnd|apply fmap_sublist, sublist_filter].
Qed.

(** C1. Threshold policy of the joint pipeline, on any mapping from
    lineages to two-decimal percentages (scores are given in hundredths
    of a percent and stored as the strings "NN.NN%", as the script stores
    them): no score above 0 gives "unknown_lineage"; exactly one lineage
    above 0 gives that lineage; several give "mixed isolate: " followed by
    those lineages in lexicographic order, joined with ", ".  For a
    catalog whose marker sets have fewer than 20000 positions, as all
    those of the scripts have, the lineages above 0 are those with a
    marker among the sample's variants. *)
Theorem C1_threshold_policy :
  (∀ scores : dict N,
     NoDup (Py.keys scores) →
     ∃ label,
       V4.predicted_lineage (render_scores scores) = Ok label ∧
       ((∀ l h, (l, h) ∈ scores → ¬ (0 < h)%N) → label = "unknown_lineage") ∧
       (∀ l, (∀ l', (∃ h, (l', h) ∈ scores ∧ (0 < h)%N) ↔ l' = l) → label = l) ∧
       ((∃ l1 l2, l1 ≠ l2 ∧ (∃ h, (l1, h) ∈ scores ∧ (0 < h)%N) ∧
                             (∃ h, (l2, h) ∈ scores ∧ (0 < h)%N)) →
        ∃ ls, label = "mixed isolate: " +:+ Py.join ", " ls ∧
              StronglySorted String.le ls ∧ NoDup ls ∧
              ∀ l, l ∈ ls ↔ ∃ h, (l, h) ∈ scores ∧ (0 < h)%N)) ∧
  (∀ (lineage_references : dict (gset Z)) (snps : gset Z),
     NoDup (Py.keys lineage_references) →
     (∀ l M, (l, M) ∈ lineage_references → (Z.of_nat (size M) < 20000)%Z) →
     ∃ scores,
       V4.score_loop lineage_references snps [] = Ok (render_scores scores) ∧
       NoDup (Py.keys scores) ∧
       ∀ l, (∃ h, (l, h) ∈ scores ∧ (0 < h)%N) ↔
            (∃ M, (l, M) ∈ lineage_references ∧ M ∩ snps ≠ ∅)).
Proof.
  split.
  - intros scores Hnd. unfold V4.predicted_lineage. rewrite matching_lineages_render.
    pose proof (NoDup_positive_lineages scores Hnd) as Hnd'.
    pose proof (elem_of_positive_lineages scores) as Hmem.
    unfold mbind, result_bind.
    destruct (positive_lineages scores) as [|a [|b cands]] eqn:E.
    + exists "unknown_lineage". split; [done|]. split; [done|]. split.
      * intros l Hl. assert (l ∈ []) as Hin by (apply Hmem, Hl; done).
        by apply elem_of_nil in Hin.
      * intros (l1 & _ & _ & H1 & _). apply Hmem in H1. by apply elem_of_nil in H1.
    + exists a. split; [done|]. split; [|split].
      * intros Hnone. destruct (proj1 (Hmem a)) as (h & Hin & Hpos); [by left|].
        by destruct (Hnone a h).
      * intros l Hl. apply (proj1 (Hl a)), Hmem. by left.
      * intros (l1 & l2 & Hne & H1 & H2). apply Hmem, list_elem_of_singleton in H1.
        apply Hmem, list_elem_of_singleton in H2. congruence.
    + eexists. split; [done|]. split; [|split].
      * intros Hnone. destruct (proj1 (Hmem a)) as (h & Hin & Hpos); [by left|].
        by destruct (Hnone a h).
      * intros l Hl. assert (a = l) as -> by (apply (proj1 (Hl a)), Hmem; by left).
        assert (b = l) as -> by (apply (proj1 (Hl b)), Hmem; right; by left).
        apply NoDup_cons in Hnd' as [Hx _]. destruct Hx. by left.
      * intros _. exists (Py.sorted (a :: b :: cands)). split; [done|].
        unfold Py.sorted. split; [apply StronglySorted_merge_sort; apply _|].
        split.
        -- by rewrite merge_sort_Permutation.
        -- intros l. by rewrite merge_sort_Permutation.
  - intros C S Hnd Hsmall. exists (score_table (λ M, guarded_ratio M S) C).
    split; [by apply V4_score_loop_eq|]. split; [by rewrite keys_score_table|].
    intros l. split.
    + intros (h & Hin & Hpos).
      apply list_elem_of_fmap in Hin as ([l' M] & [= -> ->] & Hin). exists M.
      split; [done|]. eapply guarded_ratio_positive; [by eapply Hsmall|done].
    + intros (M & Hin & Hmeet). exists (stored (guarded_ratio M S)). split.
      * apply list_elem_of_fmap. by exists (l, M).
      * eapply guarded_ratio_positive; [by eapply Hsmall|done].
Qed.

(** The example of the specification (scores 0, 50.0 and 25.0), and the
    catalog of V4 with a sample that has markers of lineage1, lineage3 and
    bovis. *)
Lemma C1_threshold_policy_witness :
  NoDup (Py.keys example_scores) ∧
  render_scores example_scores =
    [("lineageA", "0.00%"); ("lineageB", "50.00%"); ("lineageC", "25.00%")] ∧
  V4.predicted_lineage (render_scores example_scores) =
    Ok "mixed isolate: lineageB, lineageC" ∧
  ∃ scores,
    V4.score_loop V4.lineage_references large_sample [] = Ok (render_scores scores) ∧
    V4.predicted_lineage (render_scores scores) =
      Ok "mixed isolate: bovis, lineage1, lineage3".
Proof.
  destruct C1_threshold_policy as [Hpolicy Hscores].
  assert (Hnd : NoDup (Py.keys example_scores))
    by (apply (bool_decide_unpack _); vm_compute; exact I).
  split; [exact Hnd|]. split; [reflexivity|]. split.
  - destruct (Hpolicy example_scores Hnd) as (label & Hrun & _).
    rewrite Hrun. vm_compute in Hrun. by injection Hrun as <-.
  - destruct (Hscores V4.lineage_references large_sample) as (scores & Hrun & _).
    + apply (bool_decide_unpack _). vm_compute. exact I.
    + assert (Hall : Forall (λ kv : string * gset Z, (Z.of_nat (size kv.2) < 20000)%Z)
                       V4.lineage_references)
        by (apply (bool_decide_unpack _); vm_compute; exact I).
      intros l M Hin. rewrite Forall_forall in Hall. apply (Hall _ Hin).
    + exists scores. split; [exact Hrun|].
      assert (Hstored : V4.score_loop V4.lineage_references large_sample [] =
                Ok (render_scores
                      (score_table (λ M, guarded_ratio M large_sample) V4.lineage_references)))
        by (vm_compute; reflexivity).
      rewrite Hstored in Hrun. injection Hrun as <-. vm_compute. reflexivity.
Defined.

(** ** The best-match policy *)

Lemma Qltb_true a b : Py.Qltb a b = true ↔ (a < b)%Q.
Proof.
  unfold Py.Qltb. rewrite negb_true_iff, <- not_true_iff_false, Qle_bool_iff.
  split; [apply Qnot_le_lt|apply Qlt_not_le].
Qed.

Lemma Qltb_false a b : Py.Qltb a b = false ↔ (b <= a)%Q.
Proof. unfold Py.Qltb. by rewrite negb_false_iff, Qle_bool_iff. Qed.

Section MaxBy.
Context {A : Type} (key : A → Q).

Lemma max_from_spec l : ∀ best,
  Py.max_from key best l ∈ best :: l ∧
  ∀ y, y ∈ best :: l → (key y <= key (Py.max_from key best l))%Q.
Proof.
  induction l as [|x l IH]; intros best; cbn [Py.max_from].
  - split; [by left|]. intros y ->%list_elem_of_singleton. apply Qle_refl.
  - destruct (IH (if Py.Qltb (key best) (key x) then x else best)) as [Hin Hmax].
    split.
    + apply elem_of_cons in Hin as [->|Hin]; [|by do 2 right].
      destruct (Py.Qltb _ _); [right|]; by left.
    + intros y Hy.
      assert (Hstep : (key y <= key (if Py.Qltb (key best) (key x) then x else best))%Q
                      ∨ y ∈ l).
      { apply elem_of_cons in Hy as [->|Hy].
        - left. destruct (Py.Qltb _ _) eqn:E; [|apply Qle_refl].
          apply Qlt_le_weak. by apply Qltb_true.
        - apply elem_of_cons in Hy as [->|Hy]; [|by right].
          left. destruct (Py.Qltb _ _) eqn:E; [apply Qle_refl|].
          by apply Qltb_false. }
      destruct Hstep as [Hle|Hy'].
      * eapply Qle_trans; [exact Hle|]. apply Hmax. by left.
      * apply Hmax. by right.
Qed.

Lemma max_by_spec l x :
  Py.max_by key l = Ok x → x ∈ l ∧ ∀ y, y ∈ l → (key y <= key x)%Q.
Proof.
  destruct l as [|a l]; [done|]. intros [= <-]. apply max_from_spec.
Qed.

Lemma max_by_nonempty l : l ≠ [] → ∃ x, Py.max_by key l = Ok x.
Proof. destruct l; [done|]. intros _. by eexists. Qed.

End MaxBy.

Lemma get_score_elem (lp : dict Q) l q :
  NoDup (Py.keys lp) → (l, q) ∈ lp → V5.get_score lp l = q.
Proof. intros Hnd Hin. unfold V5.get_score. by rewrite (dict_get_elem lp l q). Qed.

Lemma V5_best_match (lp : dict Q) (m : Q) :
  NoDup (Py.keys lp) → Py.max (Py.values lp) = Ok m →
  ∃ label,
    V5.predicted_lineage lp = Ok label ∧
    (m == 0 → label = "unknown lineage")%Q ∧
    (¬ (m == 0)%Q →
       (∃ q, (label, q) ∈ lp ∧ ∀ l' q', (l', q') ∈ lp → (q' <= q)%Q) ∧
       ∀ l q, (l, q) ∈ lp →
              (∀ l' q', (l', q') ∈ lp → l' ≠ l → (q' < q)%Q) → label = l).
Proof.
  intros Hnd Hm.
  destruct (max_by_nonempty (V5.get_score lp) (Py.keys lp)) as [label Hlabel].
  { by destruct lp. }
  unfold V5.predicted_lineage. rewrite Hm. unfold mbind, result_bind.
  destruct (Qeq_bool m 0) eqn:E.
  - exists "unknown lineage". split; [done|]. split; [done|].
    intros Hm0. destruct Hm0. by apply Qeq_bool_iff.
  - exists label. split; [done|]. split.
    { intros Hm0. apply Qeq_bool_iff in Hm0. congruence. }
    intros _. apply max_by_spec in Hlabel as [Hin Hmax].
    apply list_elem_of_fmap in Hin as ([l0 q0] & -> & Hin0). cbn [fst] in *.
    assert (Hq0 : ∀ l' q', (l', q') ∈ lp → (q' <= q0)%Q).
    { intros l' q' Hin'. rewrite <- (get_score_elem lp l' q' Hnd Hin'),
        <- (get_score_elem lp l0 q0 Hnd Hin0).
      apply Hmax. apply list_elem_of_fmap. by exists (l', q'). }
    split; [by exists q0|].
    intros l q Hin Hstrict. destruct (decide (l0 = l)) as [|Hneq]; [done|].
    pose proof (Hstrict l0 q0 Hin0 Hneq) as Hlt. pose proof (Hq0 l q Hin) as Hle.
    destruct (Qlt_not_le _ _ Hlt Hle).
Qed.

Lemma parsed_render scores :
  V1.parsed (render_scores scores) = Ok (as_percentages scores).
Proof.
  unfold V1.parsed. induction scores as [|[l h] scores IH]; [done|].
  change (render_scores ((l, h) :: scores))
    with ((l, percent_of_hundredths h) :: render_scores scores).
  cbn [mapM]. cbn [fst snd]. rewrite of_percent_hundredths.
  unfold mbind, result_bind in *. by rewrite IH.
Qed.

Lemma hundredths_le (h h' : N) : (Z.of_N h # 100 <= Z.of_N h' # 100)%Q ↔ (h ≤ h')%N.
Proof. unfold Qle. cbn [Qnum Qden]. lia. Qed.

Lemma V1_best_match (scores : dict N) (m : Q) :
  Py.max (Py.values (as_percentages scores)) = Ok m →
  ∃ label,
    V1.predicted_lineage (render_scores scores) = Ok label ∧
    (m == 0 → label = "unknown_lineage")%Q ∧
    (¬ (m == 0)%Q →
       (∃ h, (label, h) ∈ scores ∧ ∀ l' h', (l', h') ∈ scores → (h' ≤ h)%N) ∧
       ∀ l h, (l, h) ∈ scores →
              (∀ l' h', (l', h') ∈ scores → l' ≠ l → (h' < h)%N) → label = l).
Proof.
  intros Hm. unfold V1.predicted_lineage. rewrite parsed_render.
  unfold mbind at 1, result_bind at 1.
  destruct (max_by_nonempty snd (as_percentages scores)) as [[l0 q0] Hbest].
  { by destruct scores. }
  rewrite Hm, Hbest. unfold mbind, result_bind. unfold Py.max in Hm.
  apply max_by_spec in Hm as [Hmin Hmmax].
  apply list_elem_of_fmap in Hmin as ([lm qm] & -> & Hmin).
  apply list_elem_of_fmap in Hmin as ([lm' hm] & [= -> ->] & Hmin). cbn [id snd fst] in *.
  assert (Hall : ∀ l h, (l, h) ∈ scores → (h ≤ hm)%N).
  { intros l h Hin. apply hundredths_le. apply (Hmmax (Z.of_N h # 100)).
    apply list_elem_of_fmap. exists (l, Z.of_N h # 100). split; [done|].
    apply list_elem_of_fmap. by exists (l, h). }
  apply max_by_spec in Hbest as [Hbin Hbmax].
  apply list_elem_of_fmap in Hbin as ([l0' h0] & [= -> ->] & Hbin). cbn [snd fst] in *.
  assert (Hall0 : ∀ l h, (l, h) ∈ scores → (h ≤ h0)%N).
  { intros l h Hin. apply hundredths_le. apply (Hbmax (l, Z.of_N h # 100)).
    apply list_elem_of_fmap. by exists (l, h). }
  destruct (Qeq_bool (Z.of_N hm # 100) 0) eqn:E.
  - exists "unknown_lineage". split; [done|]. split; [done|].
    intros Hm0. destruct Hm0. by apply Qeq_bool_iff.
  - exists l0'. split; [done|]. split.
    + intros Hzero. apply Qeq_bool_iff in Hzero. congruence.
    + intros _. split; [by exists h0|].
      intros l h Hin Hstrict. destruct (decide (l0' = l)) as [|Hneq]; [done|].
      pose proof (Hstrict l0' h0 Hbin Hneq). pose proof (Hall0 l h Hin). lia.
Qed.

(** C2. Best-match policy of the single-sample pipelines, on any score
    mapping that has a maximum [m].  V5 (scores are numbers): when [m] is
    exactly 0 the label is "unknown lineage"; otherwise the label is a
    lineage of maximal score, and it is the lineage whose score is strictly
    above all others when there is one.  V1 (scores are the stored
    two-decimal percentages, given in hundredths): the same, except that
    the label for a maximum of 0 is "unknown_lineage". *)
Theorem C2_best_match_policy :
  (∀ (lineage_probabilities : dict Q) (m : Q),
     NoDup (Py.keys lineage_probabilities) →
     Py.max (Py.values lineage_probabilities) = Ok m →
     ∃ label,
       V5.predicted_lineage lineage_probabilities = Ok label ∧
       (m == 0 → label = "unknown lineage")%Q ∧
       (¬ (m == 0)%Q →
          (∃ q, (label, q) ∈ lineage_probabilities ∧
                ∀ l' q', (l', q') ∈ lineage_probabilities → (q' <= q)%Q) ∧
          ∀ l q, (l, q) ∈ lineage_probabilities →
                 (∀ l' q', (l', q') ∈ lineage_probabilities → l' ≠ l → (q' < q)%Q) →
                 label = l)) ∧
  (∀ (scores : dict N) (m : Q),
     Py.max (Py.values (as_percentages scores)) = Ok m →
     ∃ label,
       V1.predicted_lineage (render_scores scores) = Ok label ∧
       (m == 0 → label = "unknown_lineage")%Q ∧
       (¬ (m == 0)%Q →
          (∃ h, (label, h) ∈ scores ∧ ∀ l' h', (l', h') ∈ scores → (h' ≤ h)%N) ∧
          ∀ l h, (l, h) ∈ scores →
                 (∀ l' h', (l', h') ∈ scores → l' ≠ l → (h' < h)%N) → label = l)).
Proof. split; [apply V5_best_match|apply V1_best_match]. Qed.

Lemma C2_best_match_policy_witness :
  V5.predicted_lineage all_zero_V5 = Ok "unknown lineage" ∧
  V5.predicted_lineage one_best_V5 = Ok "lineage2" ∧
  V1.predicted_lineage (render_scores all_zero_V1) = Ok "unknown_lineage".
Proof.
  destruct C2_best_match_policy as [H5 H1]. split; [|split].
  - destruct (H5 all_zero_V5 0%Q) as (label & Hrun & Hzero & _).
    + apply (bool_decide_unpack _). vm_compute. exact I.
    + reflexivity.
    + rewrite Hrun. f_equal. apply Hzero. reflexivity.
  - destruct (H5 one_best_V5 75%Q) as (label & Hrun & _ & Hbest).
    + apply (bool_decide_unpack _). vm_compute. exact I.
    + reflexivity.
    + rewrite Hrun. f_equal. destruct Hbest as [_ Hstrict]; [discriminate|].
      apply (Hstrict "lineage2" 75%Q); [right; left|].
      intros l' q' Hin Hne. apply list_elem_of_In in Hin. simpl in Hin.
      destruct Hin as [[= <- <-]|[[= <- <-]|[[= <- <-]|[]]]]; done.
  - destruct (H1 all_zero_V1 (0 # 100)%Q) as (label & Hrun & Hzero & _).
    + reflexivity.
    + rewrite Hrun. f_equal. apply Hzero. reflexivity.
Defined.

(** A sample whose only variant is at position 1 matches no marker of
    V1's catalog: every score is "0.00%", the maximum is exactly 0, and
    V1 labels the sample "unknown_lineage", not "unknown lineage". *)
Lemma C2_counterexample :
  V1.score_loop V1.lineage_references {[1%Z]} [] =
    Ok ((λ l, (l, "0.00%")) <$> Py.keys V1.lineage_references) ∧
  (lp ← V1.parsed ((λ l, (l, "0.00%")) <$> Py.keys V1.lineage_references);
   Py.max (Py.values lp)) = Ok (0 # 100)%Q ∧
  V1.predicted_lineage ((λ l, (l, "0.00%")) <$> Py.keys V1.lineage_references) =
    Ok "unknown_lineage" ∧
  V1.predicted_lineage ((λ l, (l, "0.00%")) <$> Py.keys V1.lineage_references) ≠
    Ok "unknown lineage".
Proof.
  split; [vm_compute; reflexivity|]. split; [vm_compute; reflexivity|].
  split; [vm_compute; reflexivity|]. vm_compute. discriminate.
Qed.

(** ** Joint extraction, row by row *)

Lemma gt_index_found ff i :
  ff !! i = Some "GT" → (∀ j, j < i → ff !! j ≠ Some "GT") → V4.gt_index ff = i.
Proof.
  intros Hi Hfirst. unfold V4.gt_index.
  destruct (list_find (λ f, f = "GT") ff) as [[j x]|] eqn:E.
  - apply list_find_Some in E as (Hj & -> & Hbefore).
    destruct (Nat.lt_trichotomy i j) as [Hlt|[->|Hgt]]; [|done|].
    + by destruct (Hbefore i "GT" Hi Hlt).
    + by destruct (Hfirst j Hgt).
  - apply list_find_None in E. rewrite Forall_forall in E.
    destruct (E "GT"); [|done]. by eapply list_elem_of_lookup_2.
Qed.

Lemma gt_index_absent ff : "GT" ∉ ff → V4.gt_index ff = 0.
Proof.
  intros Hno. unfold V4.gt_index.
  destruct (list_find (λ f, f = "GT") ff) as [[j x]|] eqn:E; [|done].
  apply list_find_Some in E as (Hj & -> & _).
  destruct Hno. by eapply list_elem_of_lookup_2.
Qed.

Lemma gt_index_present ff :
  "GT" ∈ ff →
  ff !! V4.gt_index ff = Some "GT" ∧ ∀ j, j < V4.gt_index ff → ff !! j ≠ Some "GT".
Proof.
  intros Hin. unfold V4.gt_index.
  destruct (list_find (λ f, f = "GT") ff) as [[j x]|] eqn:E.
  - apply list_find_Some in E as (Hj & -> & Hbefore). split; [done|].
    intros j' Hlt Hj'. by destruct (Hbefore j' "GT" Hj' Hlt).
  - apply list_find_None in E. rewrite Forall_forall in E.
    by destruct (E "GT").
Qed.

Lemma genotype_step_short pos gt field snps :
  length (Py.split ":" field) ≤ gt → V4.genotype_step pos gt field snps = snps.
Proof. intros H. unfold V4.genotype_step. by rewrite decide_True. Qed.

Lemma genotype_step_token pos gt field snps tok :
  Py.split ":" field !! gt = Some tok →
  V4.genotype_step pos gt field snps =
  if decide (tok ≠ "0" ∧ tok ≠ ".") then {[pos]} ∪ snps else snps.
Proof.
  intros H. unfold V4.genotype_step.
  rewrite decide_False; [by rewrite H|].
  apply lookup_lt_Some in H. lia.
Qed.

Lemma sample_columns_spec fields pos gt names : ∀ i d,
  NoDup names →
  (∀ k, k < length names → is_Some (fields !! (i + k))) →
  ∃ d', V4.sample_columns fields pos gt i names d = Ok d' ∧
        Py.keys d' = Py.keys d ∧
        (∀ s, s ∉ names → Py.dict_get d' s = Py.dict_get d s) ∧
        (∀ k s f, names !! k = Some s → fields !! (i + k) = Some f →
                  Py.dict_get d' s = V4.genotype_step pos gt f <$> Py.dict_get d s).
Proof.
  induction names as [|s0 names IH]; intros i d Hnd Hcols; simpl.
  - exists d. do 3 (split; [done|]). intros k s f Hk. by rewrite lookup_nil in Hk.
  - apply NoDup_cons in Hnd as [Hs0 Hnd].
    destruct (Hcols 0) as [f0 Hf0]; [simpl; lia|]. rewrite Nat.add_0_r in Hf0.
    unfold Py.index at 1. rewrite Hf0. simpl.
    destruct (IH (S i) (Py.dict_alter (V4.genotype_step pos gt f0) s0 d) Hnd)
      as (d' & Hrun & Hkeys & Hother & Hcol).
    { intros k Hk. replace (S i + k) with (i + S k) by lia. apply Hcols. simpl. lia. }
    exists d'. split; [done|]. split; [by rewrite Hkeys, keys_alter|]. split.
    + intros s Hs. apply not_elem_of_cons in Hs as [Hne Hs].
      rewrite Hother by done. by rewrite dict_get_alter, decide_False.
    + intros [|k] s f Hk Hf; simpl in Hk.
      * injection Hk as <-. rewrite Nat.add_0_r in Hf. rewrite Hf0 in Hf. injection Hf as <-.
        rewrite Hother by done. by rewrite dict_get_alter, decide_True.
      * replace (i + S k) with (S i + k) in Hf by lia.
        rewrite (Hcol k s f Hk Hf), dict_get_alter, decide_False; [done|].
        intros <-. apply Hs0. by eapply list_elem_of_lookup_2.
Qed.

(** C4. Joint extraction of one data row: the genotype index is the first
    position of "GT" in the colon-split FORMAT column, or 0 when "GT" is
    absent; a sample whose colon-split field has no entry at that index is
    left as it was; otherwise the row's position is added to the sample's
    variant set exactly when the genotype token is neither "0" nor ".". *)
Theorem C4_joint_genotype_extraction
    (vcf_file line p fmt : string) (pos : Z) (sample_names : list string)
    (sample_snps : dict (gset Z)) (w : world) :
  Py.startswith line "#" = false →
  V4.row_fields line !! 1 = Some p →
  Py.int p = Ok pos →
  V4.row_fields line !! 8 = Some fmt →
  9 + length sample_names ≤ length (V4.row_fields line) →
  NoDup sample_names →
  ("GT" ∈ Py.split ":" fmt →
     Py.split ":" fmt !! V4.gt_index (Py.split ":" fmt) = Some "GT" ∧
     ∀ j, j < V4.gt_index (Py.split ":" fmt) → Py.split ":" fmt !! j ≠ Some "GT") ∧
  ("GT" ∉ Py.split ":" fmt → V4.gt_index (Py.split ":" fmt) = 0) ∧
  ∃ sample_snps',
    V4.variant_row vcf_file sample_names line sample_snps w = (w, Ok sample_snps') ∧
    Py.keys sample_snps' = Py.keys sample_snps ∧
    ∀ k sample field snps,
      sample_names !! k = Some sample →
      V4.row_fields line !! (9 + k) = Some field →
      Py.dict_get sample_snps sample = Some snps →
      ∃ snps',
        Py.dict_get sample_snps' sample = Some snps' ∧
        (length (Py.split ":" field) ≤ V4.gt_index (Py.split ":" fmt) → snps' = snps) ∧
        (∀ genotype,
           Py.split ":" field !! V4.gt_index (Py.split ":" fmt) = Some genotype →
           (genotype ≠ "0" ∧ genotype ≠ "." → snps' = {[pos]} ∪ snps) ∧
           (genotype = "0" ∨ genotype = "." → snps' = snps)).
Proof.
  intros Hdata Hp Hint Hfmt Hlen Hnd.
  split; [apply gt_index_present|]. split; [apply gt_index_absent|].
  destruct (sample_columns_spec (V4.row_fields line) pos
              (V4.gt_index (Py.split ":" fmt)) sample_names 9 sample_snps Hnd)
    as (d' & Hrun & Hkeys & _ & Hcol).
  { intros k Hk. apply lookup_lt_is_Some. lia. }
  exists d'. split; [|split; [done|]].
  - unfold V4.variant_row. rewrite Hdata.
    unfold mbind, io_bind, lift, Py.index. rewrite Hp, Hint, Hfmt. by rewrite Hrun.
  - intros k sample field snps Hk Hfield Hget.
    exists (V4.genotype_step pos (V4.gt_index (Py.split ":" fmt)) field snps).
    split; [by rewrite (Hcol k sample field Hk Hfield), Hget|]. split.
    + apply genotype_step_short.
    + intros genotype Htok. rewrite (genotype_step_token _ _ _ _ _ Htok). split.
      * intros Hvar. by rewrite decide_True.
      * intros Href. rewrite decide_False; [done|]. intros [? ?]. by destruct Href.
Qed.

(** The row of the specification: FORMAT "GT:DP", first sample "1:30",
    second sample "0:30". *)
Lemma C4_joint_genotype_extraction_witness :
  ∃ sample_snps',
    V4.variant_row "joint.vcf" ["s1"; "s2"] example_row
      [("s1", ∅); ("s2", ∅)] (World ∅ [] []) = (World ∅ [] [], Ok sample_snps') ∧
    Py.dict_get sample_snps' "s1" = Some {[633562%Z]} ∧
    Py.dict_get sample_snps' "s2" = Some ∅.
Proof.
  destruct (C4_joint_genotype_extraction "joint.vcf" example_row "633562" "GT:DP"
              633562 ["s1"; "s2"] [("s1", ∅); ("s2", ∅)] (World ∅ [] []))
    as (_ & _ & d' & Hrun & _ & Hcols).
  - reflexivity.
  - reflexivity.
  - reflexivity.
  - reflexivity.
  - vm_compute. lia.
  - apply (bool_decide_unpack _). vm_compute. exact I.
  - exists d'. split; [exact Hrun|]. split.
    + destruct (Hcols 0 "s1" "1:30" ∅) as (s & Hs & _ & Htok); [reflexivity..|].
      destruct (Htok "1") as [Hadd _]; [reflexivity|].
      rewrite Hs, Hadd by (split; discriminate). reflexivity.
    + destruct (Hcols 1 "s2" "0:30" ∅) as (s & Hs & _ & Htok); [reflexivity..|].
      destruct (Htok "0") as [_ Hkeep]; [reflexivity|].
      rewrite Hs, Hkeep by (by left). reflexivity.
Defined.

(** ** Malformed positions *)

Lemma say_nil w : say [] w = w.
Proof. destruct w. unfold say. simpl. by rewrite app_nil_r. Qed.

Lemma say_say l1 l2 w : say l2 (say l1 w) = say (l1 ++ l2) w.
Proof. unfold say. simpl. by rewrite app_assoc. Qed.

Lemma variant_row_skips vcf_file names line d w p :
  Py.startswith line "#" = false →
  V4.row_fields line !! 1 = Some p →
  Py.int p = Raise ValueError →
  V4.variant_row vcf_file names line d w =
    (say [Line (V4.skip_message p vcf_file)] w, Ok d).
Proof.
  intros Hdata Hp Hint. unfold V4.variant_row. rewrite Hdata.
  unfold mbind, io_bind, lift, Py.index. by rewrite Hp, Hint.
Qed.

(** The outcome of a row does not depend on the console. *)
Lemma variant_row_shape vcf_file names line d :
  ∃ msgs r, ∀ w, V4.variant_row vcf_file names line d w = (say msgs w, r).
Proof.
  unfold V4.variant_row. destruct (Py.startswith line "#").
  { exists [], (Ok d). intros w. by rewrite say_nil. }
  unfold mbind, io_bind, lift, Py.index.
  destruct (V4.row_fields line !! 1) as [p|].
  2:{ exists [], (Raise IndexError). intros w. by rewrite say_nil. }
  destruct (Py.int p) as [pos|e].
  - destruct (V4.row_fields line !! 8) as [fmt|].
    + eexists [], _. intros w. by rewrite say_nil.
    + exists [], (Raise IndexError). intros w. by rewrite say_nil.
  - destruct e; try (eexists [], _; intros w; by rewrite say_nil).
    by eexists [_], _.
Qed.

Lemma variant_rows_shape vcf_file names lines : ∀ d,
  ∃ msgs r, ∀ w, V4.variant_rows vcf_file names lines d w = (say msgs w, r).
Proof.
  induction lines as [|line lines IH]; intros d; simpl.
  - exists [], (Ok d). intros w. by rewrite say_nil.
  - destruct (variant_row_shape vcf_file names line d) as (m1 & r1 & H1).
    destruct r1 as [d1|e].
    + destruct (IH d1) as (m2 & r2 & H2). exists (m1 ++ m2), r2. intros w.
      unfold mbind, io_bind. by rewrite H1, H2, say_say.
    + exists m1, (Raise e). intros w. unfold mbind, io_bind. by rewrite H1.
Qed.

Lemma variant_rows_app vcf_file names l1 l2 d w :
  V4.variant_rows vcf_file names (l1 ++ l2) d w =
  match V4.variant_rows vcf_file names l1 d w with
  | (w1, Ok d1) => V4.variant_rows vcf_file names l2 d1 w1
  | (w1, Raise e) => (w1, Raise e)
  end.
Proof.
  revert d w. induction l1 as [|line l1 IH]; intros d w; simpl; [done|].
  unfold mbind, io_bind.
  destruct (V4.variant_row vcf_file names line d w) as [w1 [d1|e]]; [apply IH|done].
Qed.

(** Removing a row with a malformed position changes what is printed and
    nothing else. *)
Lemma variant_rows_drop_malformed vcf_file names l1 bad l2 d w w' p :
  Py.startswith bad "#" = false →
  V4.row_fields bad !! 1 = Some p →
  Py.int p = Raise ValueError →
  (V4.variant_rows vcf_file names (l1 ++ bad :: l2) d w).2 =
  (V4.variant_rows vcf_file names (l1 ++ l2) d w').2.
Proof.
  intros Hdata Hp Hint. rewrite !variant_rows_app.
  destruct (variant_rows_shape vcf_file names l1 d) as (m1 & r1 & H1).
  rewrite !H1. destruct r1 as [d1|e]; [|done]. simpl.
  unfold mbind, io_bind. rewrite (variant_row_skips _ _ _ _ _ p) by done.
  destruct (variant_rows_shape vcf_file names l2 d1) as (m2 & r2 & H2).
  by rewrite !H2.
Qed.

Lemma prefix_app_false p q s :
  String.prefix p s = false → String.prefix (p +:+ q) s = false.
Proof.
  revert s. induction p as [|a p IH]; intros s; [by destruct s|].
  destruct s as [|b s]; [done|].
  change (String a p +:+ q) with (String a (p +:+ q)). cbn [String.prefix].
  destruct (ascii_dec a b); [apply IH|done].
Qed.

Lemma find_header_drop l1 bad l2 :
  Py.startswith bad "#" = false →
  V4.find_header (l1 ++ bad :: l2) = V4.find_header (l1 ++ l2).
Proof.
  intros Hdata. induction l1 as [|l l1 IH]; simpl.
  - by rewrite (prefix_app_false "#" "CHROM" bad Hdata : Py.startswith bad "#CHROM" = false).
  - by rewrite IH.
Qed.

Lemma process_joint_vcf_found vcf_file cat w t :
  files w !! vcf_file = Some t →
  V4.process_joint_vcf vcf_file cat w =
  match V4.find_header (lines_of t) with
  | [] => (say [Line ("VCF header not found in " +:+ vcf_file)] w, Ok [])
  | header =>
      let sample_names := drop 9 header in
      match V4.variant_rows vcf_file sample_names (lines_of t)
              (Py.dict_of_items ((λ s, (s, ∅)) <$> sample_names)) w with
      | (w1, Ok d) => (w1, V4.sample_records cat d)
      | (w1, Raise e) => (w1, Raise e)
      end
  end.
Proof.
  intros Ht. unfold V4.process_joint_vcf, mbind, io_bind, path_exists, read_lines.
  rewrite Ht, bool_decide_eq_true_2 by eauto. simpl. rewrite Ht. simpl.
  destruct (V4.find_header (lines_of t)) as [|h hs]; [done|]. simpl.
  by destruct (V4.variant_rows _ _ _ _ w) as [w1 [d|e]].
Qed.

Lemma process_joint_vcf_drop_malformed vcf_file cat w w' l1 bad l2 p :
  lines_of <$> files w !! vcf_file = Some (l1 ++ bad :: l2) →
  lines_of <$> files w' !! vcf_file = Some (l1 ++ l2) →
  Py.startswith bad "#" = false →
  V4.row_fields bad !! 1 = Some p →
  Py.int p = Raise ValueError →
  (V4.process_joint_vcf vcf_file cat w).2 = (V4.process_joint_vcf vcf_file cat w').2.
Proof.
  intros Hw Hw' Hdata Hp Hint.
  destruct (files w !! vcf_file) as [t|] eqn:Et; [|done].
  destruct (files w' !! vcf_file) as [t'|] eqn:Et'; [|done].
  simpl in Hw, Hw'. injection Hw as Hw. injection Hw' as Hw'.
  rewrite (process_joint_vcf_found _ _ _ _ Et), (process_joint_vcf_found _ _ _ _ Et').
  rewrite Hw, Hw', find_header_drop by done.
  destruct (V4.find_header (l1 ++ l2)) as [|h hs]; [done|]. cbv zeta.
  pose proof (variant_rows_drop_malformed vcf_file (drop 9 (h :: hs)) l1 bad l2
    (Py.dict_of_items ((λ s, (s, ∅)) <$> drop 9 (h :: hs))) w w' p Hdata Hp Hint) as Heq.
  destruct (V4.variant_rows _ _ (l1 ++ bad :: l2) _ w) as [w1 r1].
  destruct (V4.variant_rows _ _ (l1 ++ l2) _ w') as [w2 r2].
  simpl in Heq. subst r2. by destruct r1.
Qed.

Lemma int_outcome s : (∃ z, Py.int s = Ok z) ∨ Py.int s = Raise ValueError.
Proof.
  unfold Py.int.
  destruct (match list_ascii_of_string (Py.strip_with Py.is_int_space s)
            return option Z with [] => _ | _ => _ end);
    [left; eauto|by right].
Qed.

Lemma mapM_int_fails (l : list string) p :
  p ∈ l → Py.int p = Raise ValueError → mapM Py.int l = Raise ValueError.
Proof.
  intros Hin Hp. induction l as [|x l IH]; [by apply elem_of_nil in Hin|].
  change (mapM Py.int (x :: l))
    with (y ← Py.int x; k ← mapM Py.int l; mret (y :: k)).
  destruct (int_outcome x) as [[z Hz]|Hx]; [|by rewrite Hx].
  rewrite Hz. apply elem_of_cons in Hin as [->|Hin]; [congruence|]. by rewrite IH.
Qed.

Lemma int_set_fails (strs : gset string) p :
  p ∈ strs → Py.int p = Raise ValueError → Single.int_set strs = Raise ValueError.
Proof.
  intros Hin Hp. unfold Single.int_set.
  rewrite (mapM_int_fails (elements strs) p); [done| |done]. by apply elem_of_elements.
Qed.

Lemma extract_snp_positions_found vcf_file output_txt text w :
  files w !! vcf_file = Some text →
  Single.position_fields (lines_of text) ≠ [] →
  Single.extract_snp_positions vcf_file output_txt w =
    (World (<[output_txt := Py.join nl (Single.position_fields (lines_of text))]> (files w))
           (stdout w) (tables w),
     Ok (Some output_txt)).
Proof.
  intros Hfile Hpos.
  unfold Single.extract_snp_positions, mbind, io_bind, path_exists, read_lines.
  rewrite Hfile, bool_decide_eq_true_2 by eauto. cbn [negb]. rewrite Hfile.
  cbn [default from_option id].
  destruct (Single.position_fields (lines_of text)); [done|reflexivity].
Qed.

Lemma str_conv_found read_column0 file text column w :
  files w !! file = Some text →
  read_column0 text = Ok column →
  column ≠ [] →
  Single.str_conv read_column0 file w = (w, Ok (list_to_set column)).
Proof.
  intros Hfile Hread Hcol.
  unfold Single.str_conv, mbind, io_bind, path_exists, read_text, lift.
  rewrite Hfile, bool_decide_eq_true_2 by eauto. cbn [negb]. rewrite Hfile.
  cbn [default from_option id].
  rewrite Hread. destruct column; [done|reflexivity].
Qed.

Lemma sample_variants_malformed read_column0 vcf_file text p column w :
  files w !! vcf_file = Some text →
  p ∈ Single.position_fields (lines_of text) →
  Py.int p = Raise ValueError →
  read_column0 (Py.join nl (Single.position_fields (lines_of text))) = Ok column →
  p ∈ column →
  Single.sample_variants read_column0 vcf_file w =
    (after_failed_conversion vcf_file text w, Ok None).
Proof.
  intros Hfile Hpos Hint Hread Hcol.
  unfold Single.sample_variants, mbind at 1, io_bind at 1.
  rewrite (extract_snp_positions_found _ _ text)
    by (done || by intros E; rewrite E in Hpos; apply elem_of_nil in Hpos).
  unfold mbind, io_bind.
  rewrite (str_conv_found _ _ (Py.join nl (Single.position_fields (lines_of text))) column);
    [|apply lookup_insert_eq|done|by intros ->; apply elem_of_nil in Hcol].
  by rewrite (int_set_fails (list_to_set column) p); [|by apply elem_of_list_to_set|done].
Qed.

(** A file whose extraction stops on a malformed position contributes
    nothing to the batch, and the batch goes on. *)
Lemma V1_batch_malformed read_column0 vcf_file text p column rest acc w :
  files w !! vcf_file = Some text →
  p ∈ Single.position_fields (lines_of text) →
  Py.int p = Raise ValueError →
  read_column0 (Py.join nl (Single.position_fields (lines_of text))) = Ok column →
  p ∈ column →
  V1.batch read_column0 (vcf_file :: rest) acc w =
  V1.batch read_column0 rest acc
    (after_failed_conversion vcf_file text
       (say [Line ("Processing " +:+ vcf_file +:+ " ...")] w)).
Proof.
  intros Hfile Hpos Hint Hread Hcol.
  cbn [V1.batch]. unfold V1.process_vcf, mbind, io_bind, print, emit.
  by rewrite (sample_variants_malformed _ _ text p column).
Qed.

Lemma V5_batch_malformed read_column0 vcf_file output_dir text p column rest acc w :
  files w !! vcf_file = Some text →
  p ∈ Single.position_fields (lines_of text) →
  Py.int p = Raise ValueError →
  read_column0 (Py.join nl (Single.position_fields (lines_of text))) = Ok column →
  p ∈ column →
  V5.batch read_column0 (vcf_file :: rest) output_dir acc w =
  V5.batch read_column0 rest output_dir acc
    (after_failed_conversion vcf_file text
       (say [Line ("Processing " +:+ vcf_file +:+ " ...")] w)).
Proof.
  intros Hfile Hpos Hint Hread Hcol.
  cbn [V5.batch]. unfold V5.process_vcf, mbind, io_bind, print, emit.
  by rewrite (sample_variants_malformed _ _ text p column).
Qed.

(** The file is read as the rows before the malformed one, the message,
    and the rows after it, which start from the variant sets the rows
    before left. *)
Lemma process_joint_vcf_skips vcf_file cat w before bad rest p :
  lines_of <$> files w !! vcf_file = Some (before ++ bad :: rest) →
  Py.startswith bad "#" = false →
  V4.row_fields bad !! 1 = Some p →
  Py.int p = Raise ValueError →
  V4.process_joint_vcf vcf_file cat w =
  match V4.find_header (before ++ rest) with
  | [] => (say [Line ("VCF header not found in " +:+ vcf_file)] w, Ok [])
  | header =>
      let sample_names := drop 9 header in
      match V4.variant_rows vcf_file sample_names before
              (Py.dict_of_items ((λ s, (s, ∅)) <$> sample_names)) w with
      | (w1, Ok d1) =>
          match V4.variant_rows vcf_file sample_names rest d1
                  (say [Line (V4.skip_message p vcf_file)] w1) with
          | (w2, Ok d2) => (w2, V4.sample_records cat d2)
          | (w2, Raise e) => (w2, Raise e)
          end
      | (w1, Raise e) => (w1, Raise e)
      end
  end.
Proof.
  intros Hw Hdata Hp Hint.
  destruct (files w !! vcf_file) as [t|] eqn:Et; [|done].
  simpl in Hw. injection Hw as Hw.
  rewrite (process_joint_vcf_found _ _ _ _ Et), Hw, find_header_drop by done.
  destruct (V4.find_header (before ++ rest)) as [|h hs]; [done|]. cbv zeta.
  rewrite variant_rows_app.
  destruct (V4.variant_rows vcf_file (drop 9 (h :: hs)) before _ w) as [w1 [d1|e]];
    [|done].
  cbn [V4.variant_rows]. unfold mbind at 1, io_bind at 1.
  by rewrite (variant_row_skips _ _ _ _ _ p).
Qed.

Lemma mapM_Ok_Forall2 {A B} (f : A → result B) l k :
  mapM f l = Ok k ↔ Forall2 (λ x y, f x = Ok y) l k.
Proof.
  revert k. induction l as [|x l IH]; intros k.
  - change (mapM f []) with (Ok (@nil B)). split.
    + intros [= <-]. constructor.
    + intros H. by inversion H.
  - change (mapM f (x :: l)) with (y ← f x; k ← mapM f l; mret (y :: k)). split.
    + destruct (f x) as [y|e] eqn:Hy; [|done]. cbn [mbind result_bind].
      destruct (mapM f l) as [k'|e] eqn:Hk; [|done]. cbn [mbind result_bind].
      intros [= <-]. constructor; [done|]. by apply IH.
    + intros H. inversion H as [|? y ? k' Hy Hk]; subst.
      rewrite Hy. cbn [mbind result_bind]. apply IH in Hk. rewrite Hk. done.
Qed.

Lemma Forall2_Ok_elem {A B} (f : A → result B) l k z :
  Forall2 (λ x y, f x = Ok y) l k → z ∈ k ↔ ∃ x, x ∈ l ∧ f x = Ok z.
Proof.
  intros H. induction H as [|x y l k Hxy _ IH].
  - split; [by intros ?%elem_of_nil|]. by intros (x & ?%elem_of_nil & _).
  - rewrite elem_of_cons, IH. split.
    + intros [->|(x' & Hx' & Hz)]; [exists x; split; [by left|done]|].
      exists x'. split; [by right|done].
    + intros (x' & [->|Hx']%elem_of_cons & Hz); [left; congruence|right; eauto].
Qed.

Lemma Forall2_Ok_dom {A B} (f : A → result B) l k x :
  Forall2 (λ x y, f x = Ok y) l k → x ∈ l → ∃ y, f x = Ok y.
Proof.
  intros H. induction H as [|x' y l k Hxy _ IH]; [by intros ?%elem_of_nil|].
  intros [->|Hin]%elem_of_cons; eauto.
Qed.

Lemma mapM_Ok_total {A B} (f : A → result B) l :
  (∀ x, x ∈ l → ∃ y, f x = Ok y) → ∃ k, mapM f l = Ok k.
Proof.
  induction l as [|x l IH]; intros Hall; [by exists []|].
  destruct (Hall x) as [y Hy]; [by left|].
  destruct IH as [k Hk]; [intros x' Hx'; apply Hall; by right|].
  exists (y :: k). apply mapM_Ok_Forall2. constructor; [done|]. by apply mapM_Ok_Forall2.
Qed.

Lemma int_set_ok column zs :
  mapM Py.int column = Ok zs →
  Single.int_set (list_to_set column) = Ok (list_to_set zs).
Proof.
  intros Hzs%mapM_Ok_Forall2. unfold Single.int_set.
  destruct (mapM_Ok_total Py.int (elements (list_to_set (C:=gset string) column)))
    as (k & Hk).
  { intros x Hx%elem_of_elements%elem_of_list_to_set.
    exact (Forall2_Ok_dom _ _ _ _ Hzs Hx). }
  rewrite Hk. cbn [fmap result_fmap]. f_equal. apply set_eq. intros z.
  apply mapM_Ok_Forall2 in Hk.
  rewrite !elem_of_list_to_set, (Forall2_Ok_elem _ _ _ _ Hk), (Forall2_Ok_elem _ _ _ _ Hzs).
  split; intros (x & Hx & Hz); exists x; (split; [|done]).
  - by apply elem_of_elements, elem_of_list_to_set in Hx.
  - by apply elem_of_elements, elem_of_list_to_set.
Qed.

Lemma sample_variants_found rc vcf_file text column zs w :
  files w !! vcf_file = Some text →
  Single.position_fields (lines_of text) ≠ [] →
  rc (Py.join nl (Single.position_fields (lines_of text))) = Ok column →
  column ≠ [] →
  mapM Py.int column = Ok zs →
  Single.sample_variants rc vcf_file w =
    (World (<[snp_file_of vcf_file :=
                Py.join nl (Single.position_fields (lines_of text))]> (files w))
           (stdout w) (tables w),
     Ok (Some (list_to_set zs))).
Proof.
  intros Hfile Hpos Hread Hcol Hint.
  unfold Single.sample_variants, mbind at 1, io_bind at 1.
  rewrite (extract_snp_positions_found _ _ text) by done.
  unfold mbind, io_bind.
  rewrite (str_conv_found _ _ (Py.join nl (Single.position_fields (lines_of text))) column);
    [|apply lookup_insert_eq|done|done].
  by rewrite (int_set_ok column zs).
Qed.

(** C5. A data row whose position field is not an integer.  Joint mode:
    the row is skipped with a console message, the sample sets are
    unchanged and the loop goes on with the following rows; the file is
    processed as the rows before it, the message, and the rows after it,
    and gives the records it would give without that row.  Single-sample
    mode (V1 and V5) depends on what comes back from the position file,
    which the pandas reader reads.  When the malformed field is among the
    strings the reader returns, the integer conversion fails as a whole,
    [process_vcf] returns [None], nothing is added to the results and the
    batch goes on with the next file.  When the reader does not return it
    (an empty position is written as a blank line, which the reader
    drops) and the strings it returns are all integers, the conversion
    succeeds: the file is scored from the other rows, the malformed row
    is passed over without a word. *)
Theorem C5_malformed_position :
  (∀ vcf_file sample_names bad rest sample_snps w p,
     Py.startswith bad "#" = false →
     V4.row_fields bad !! 1 = Some p →
     Py.int p = Raise ValueError →
     V4.variant_rows vcf_file sample_names (bad :: rest) sample_snps w =
     V4.variant_rows vcf_file sample_names rest sample_snps
       (say [Line (V4.skip_message p vcf_file)] w)) ∧
  (∀ vcf_file lineage_references w before bad rest p,
     lines_of <$> files w !! vcf_file = Some (before ++ bad :: rest) →
     Py.startswith bad "#" = false →
     V4.row_fields bad !! 1 = Some p →
     Py.int p = Raise ValueError →
     V4.process_joint_vcf vcf_file lineage_references w =
     match V4.find_header (before ++ rest) with
     | [] => (say [Line ("VCF header not found in " +:+ vcf_file)] w, Ok [])
     | header =>
         let sample_names := drop 9 header in
         match V4.variant_rows vcf_file sample_names before
                 (Py.dict_of_items ((λ s, (s, ∅)) <$> sample_names)) w with
         | (w1, Ok sample_snps) =>
             match V4.variant_rows vcf_file sample_names rest sample_snps
                     (say [Line (V4.skip_message p vcf_file)] w1) with
             | (w2, Ok sample_snps') =>
                 (w2, V4.sample_records lineage_references sample_snps')
             | (w2, Raise e) => (w2, Raise e)
             end
         | (w1, Raise e) => (w1, Raise e)
         end
     end) ∧
  (∀ vcf_file lineage_references w w' before bad rest p,
     lines_of <$> files w !! vcf_file = Some (before ++ bad :: rest) →
     lines_of <$> files w' !! vcf_file = Some (before ++ rest) →
     Py.startswith bad "#" = false →
     V4.row_fields bad !! 1 = Some p →
     Py.int p = Raise ValueError →
     (V4.process_joint_vcf vcf_file lineage_references w).2 =
     (V4.process_joint_vcf vcf_file lineage_references w').2) ∧
  (∀ read_column0 vcf_file text p column w,
     files w !! vcf_file = Some text →
     p ∈ Single.position_fields (lines_of text) →
     Py.int p = Raise ValueError →
     read_column0 (Py.join nl (Single.position_fields (lines_of text))) = Ok column →
     p ∈ column →
     (∀ lineage_references,
        V1.process_vcf read_column0 vcf_file lineage_references w =
          (after_failed_conversion vcf_file text w, Ok None)) ∧
     (∀ output_dir lineage_references,
        V5.process_vcf read_column0 vcf_file output_dir lineage_references w =
          (after_failed_conversion vcf_file text w, Ok None)) ∧
     (∀ rest all_results,
        V1.batch read_column0 (vcf_file :: rest) all_results w =
        V1.batch read_column0 rest all_results
          (after_failed_conversion vcf_file text
             (say [Line ("Processing " +:+ vcf_file +:+ " ...")] w))) ∧
     (∀ rest output_dir all_results,
        V5.batch read_column0 (vcf_file :: rest) output_dir all_results w =
        V5.batch read_column0 rest output_dir all_results
          (after_failed_conversion vcf_file text
             (say [Line ("Processing " +:+ vcf_file +:+ " ...")] w)))) ∧
  (∀ read_column0 vcf_file text p column zs w,
     files w !! vcf_file = Some text →
     p ∈ Single.position_fields (lines_of text) →
     Py.int p = Raise ValueError →
     read_column0 (Py.join nl (Single.position_fields (lines_of text))) = Ok column →
     column ≠ [] →
     mapM Py.int column = Ok zs →
     let sample_name := Py.splitext_root (Py.basename vcf_file) in
     let w1 :=
       World (<[snp_file_of vcf_file :=
                  Py.join nl (Single.position_fields (lines_of text))]> (files w))
             (stdout w) (tables w) in
     (p ∉ column) ∧
     Single.sample_variants read_column0 vcf_file w = (w1, Ok (Some (list_to_set zs))) ∧
     (∀ lineage_references,
        V1.process_vcf read_column0 vcf_file lineage_references w =
          (w1, Some <$> V1.sample_record lineage_references sample_name
                          (list_to_set zs))) ∧
     (∀ output_dir lineage_references,
        let output_file :=
          path_join output_dir (sample_name +:+ "_lineage_result.txt") in
        V5.process_vcf read_column0 vcf_file output_dir lineage_references w =
          match V5.report lineage_references sample_name (list_to_set zs) with
          | Ok text =>
              (World (<[output_file := text]> (files w1))
                 (stdout w ++
                    [Line ("Prediction for " +:+ sample_name +:+ " saved to "
                             +:+ output_file);
                     Line text])
                 (tables w),
               Ok (Some text))
          | Raise e => (w1, Raise e)
          end)).
Proof.
  split; [|split; [|split; [|split]]].
  - intros vcf_file names bad rest d w p Hdata Hp Hint. cbn [V4.variant_rows].
    unfold mbind, io_bind. by rewrite (variant_row_skips _ _ _ _ _ p).
  - intros. by eapply process_joint_vcf_skips.
  - intros. by eapply process_joint_vcf_drop_malformed.
  - intros rc vcf_file text p column w Hfile Hpos Hint Hread Hcol. repeat split.
    + intros cat. unfold V1.process_vcf, mbind, io_bind.
      by rewrite (sample_variants_malformed _ _ text p column).
    + intros out cat. unfold V5.process_vcf, mbind, io_bind.
      by rewrite (sample_variants_malformed _ _ text p column).
    + intros. by eapply V1_batch_malformed.
    + intros. by eapply V5_batch_malformed.
  - intros rc vcf_file text p column zs w Hfile Hpos Hint Hread Hcol Hzs. cbv zeta.
    assert (Single.position_fields (lines_of text) ≠ []) as Hne.
    { intros E. rewrite E in Hpos. by apply elem_of_nil in Hpos. }
    pose proof (sample_variants_found rc vcf_file text column zs w
                  Hfile Hne Hread Hcol Hzs) as Hv.
    split; [|split; [exact Hv|split]].
    + intros Hin. apply mapM_Ok_Forall2 in Hzs.
      destruct (Forall2_Ok_dom _ _ _ _ Hzs Hin) as [z Hz]. congruence.
    + intros C. unfold V1.process_vcf, mbind, io_bind. rewrite Hv.
      unfold lift. by destruct (V1.sample_record C _ _).
    + intros out C. cbv zeta. unfold V5.process_vcf.
      unfold mbind at 1, io_bind at 1. rewrite Hv.
      unfold mbind at 1, io_bind at 1, lift.
      destruct (V5.report C _ _) as [report_text|e]; [|done].
      unfold mbind, io_bind, write_text, print, emit. cbn [files stdout tables].
      by rewrite <- app_assoc.
Qed.

(** A joint row with the letters "abc" for a position is skipped; a
    single-sample file with such a row is dropped and the batch goes on;
    a single-sample file with a row whose position is empty is scored
    from its other two rows, which give half of the markers of lineage3. *)
Lemma C5_malformed_position_witness :
  V4.variant_rows "joint.vcf" ["s1"; "s2"] [malformed_row; example_row]
    [("s1", ∅); ("s2", ∅)] (World ∅ [] []) =
  (World ∅ [Line "Skipping invalid position: abc in joint.vcf"] [],
   Ok [("s1", {[633562%Z]}); ("s2", ∅)]) ∧
  V1.batch plain_reader ["a.vcf"] [] (World {["a.vcf" := single_vcf]} [] []) =
  (World {["a.vcf" := single_vcf; "a_snp.txt" := Py.join nl ["633562"; "abc"]]}
     [Line "Processing a.vcf ...";
      Line "Error converting SNP positions to integers for a. Skipping."] [],
   Ok []) ∧
  Single.position_fields (lines_of blank_position_vcf) = ["633562"; EmptyString; "24007"] ∧
  Py.int EmptyString = Raise ValueError ∧
  V1.process_vcf plain_reader "b.vcf" V1.lineage_references
    (World {["b.vcf" := blank_position_vcf]} [] []) =
  (World {["b.vcf" := blank_position_vcf;
           "b_snp.txt" := Py.join nl ["633562"; EmptyString; "24007"]]} [] [],
   Some <$> V1.sample_record V1.lineage_references "b"
              (list_to_set [633562; 24007]%Z)) ∧
  ((λ r, (Py.dict_get r "lineage3", Py.dict_get r "Predicted_lineage")) <$>
     V1.sample_record V1.lineage_references "b" (list_to_set [633562; 24007]%Z)) =
  Ok (Some "50.00%", Some "lineage3").
Proof.
  destruct C5_malformed_position as (Hjoint & _ & _ & Hsingle & Hblank).
  split; [|split; [|split; [reflexivity|split; [reflexivity|split]]]].
  - rewrite (Hjoint "joint.vcf" ["s1"; "s2"] malformed_row [example_row]
               [("s1", ∅); ("s2", ∅)] (World ∅ [] []) "abc");
      [|reflexivity|reflexivity|reflexivity].
    vm_compute. reflexivity.
  - destruct (Hsingle plain_reader "a.vcf" single_vcf "abc" ["633562"; "abc"]
                (World {["a.vcf" := single_vcf]} [] [])) as (_ & _ & Hbatch & _).
    + reflexivity.
    + vm_compute. apply list_elem_of_In. simpl. tauto.
    + reflexivity.
    + reflexivity.
    + apply list_elem_of_In. simpl. tauto.
    + rewrite Hbatch. vm_compute. reflexivity.
  - destruct (Hblank plain_reader "b.vcf" blank_position_vcf EmptyString
                ["633562"; "24007"] [633562; 24007]%Z
                (World {["b.vcf" := blank_position_vcf]} [] [])) as (_ & _ & Hrun & _).
    + reflexivity.
    + vm_compute. apply list_elem_of_In. simpl. tauto.
    + reflexivity.
    + reflexivity.
    + discriminate.
    + reflexivity.
    + rewrite Hrun. vm_compute. reflexivity.
  - vm_compute. reflexivity.
Defined.

(** ** The lineage3 sample, end to end (V5) *)

Lemma V5_lineage3_scores :
  V5.score_loop V5.lineage_references lineage3_markers [] = Ok lineage3_scores.
Proof. vm_compute. reflexivity. Qed.

Lemma lineage3_scores_values l q :
  (l, q) ∈ lineage3_scores →
  (l = "lineage3" → q == 100)%Q ∧ (l ≠ "lineage3" → q == 0)%Q.
Proof.
  assert (Hall : forallb (λ kv : string * Q,
            Qeq_bool kv.2 (if String.eqb kv.1 "lineage3" then 100 else 0))
            lineage3_scores = true) by (vm_compute; reflexivity).
  rewrite forallb_forall in Hall. intros Hin%list_elem_of_In.
  specialize (Hall _ Hin). cbn [fst snd] in Hall. apply Qeq_bool_iff in Hall.
  destruct (String.eqb_spec l "lineage3"); split; intros; done.
Qed.

Lemma V5_lineage3_label : V5.predicted_lineage lineage3_scores = Ok "lineage3".
Proof. vm_compute. reflexivity. Qed.

Lemma V5_lineage3_prob_str : V5.prob_str lineage3_scores = lineage3_prob_str.
Proof. vm_compute. reflexivity. Qed.

Lemma V5_report_eq C sample_name S lp label s :
  V5.score_loop C S [] = Ok lp → V5.predicted_lineage lp = Ok label →
  V5.prob_str lp = s →
  V5.report C sample_name S =
    Ok (sample_name +:+ " is predicted as " +:+ label +:+ nl +:+
        "Probabilities: " +:+ s +:+ nl).
Proof. intros Hs Hl <-. unfold V5.report. rewrite Hs. cbn. by rewrite Hl. Qed.

Lemma V5_lineage3_report sample_name :
  V5.report V5.lineage_references sample_name lineage3_markers =
    Ok (lineage3_report sample_name).
Proof.
  exact (V5_report_eq _ sample_name _ _ _ _
           V5_lineage3_scores V5_lineage3_label V5_lineage3_prob_str).
Qed.

(** C6. A single-sample input whose extracted variant set is exactly the
    lineage3 marker set: V5 scores lineage3 at 100 and every other lineage
    of its catalog at 0, predicts lineage3, and reports
    "lineage3: 100.00%" with "0.00%" for all the others. *)
Theorem C6_lineage3_end_to_end
    (read_column0 : string → result (list string))
    (vcf_file output_dir : string) (w w1 : world) :
  Single.sample_variants read_column0 vcf_file w = (w1, Ok (Some lineage3_markers)) →
  let sample_name := Py.splitext_root (Py.basename vcf_file) in
  let output_file := path_join output_dir (sample_name +:+ "_lineage_result.txt") in
  (∃ lineage_probabilities,
     V5.score_loop V5.lineage_references lineage3_markers [] = Ok lineage_probabilities ∧
     Py.keys lineage_probabilities = Py.keys V5.lineage_references ∧
     (∀ l q, (l, q) ∈ lineage_probabilities →
        (l = "lineage3" → q == 100 ∧ Fmt.percent q = "100.00%")%Q ∧
        (l ≠ "lineage3" → q == 0 ∧ Fmt.percent q = "0.00%")%Q) ∧
     V5.predicted_lineage lineage_probabilities = Ok "lineage3") ∧
  V5.process_vcf read_column0 vcf_file output_dir V5.lineage_references w =
    (World (<[output_file := lineage3_report sample_name]> (files w1))
           (stdout w1 ++
              [Line ("Prediction for " +:+ sample_name +:+ " saved to " +:+ output_file);
               Line (lineage3_report sample_name)])
           (tables w1),
     Ok (Some (lineage3_report sample_name))).
Proof.
  intros Hextract sample_name output_file. split.
  - exists lineage3_scores. split; [apply V5_lineage3_scores|].
    split; [vm_compute; reflexivity|]. split; [|vm_compute; reflexivity].
    intros l q Hin.
    assert (Hfmt : forallb (λ kv : string * Q,
              String.eqb (Fmt.percent kv.2)
                (if String.eqb kv.1 "lineage3" then "100.00%" else "0.00%"))
              lineage3_scores = true) by (vm_compute; reflexivity).
    rewrite forallb_forall in Hfmt. pose proof (Hfmt _ (proj1 (list_elem_of_In _ _) Hin)) as Hp.
    cbn [fst snd] in Hp. apply String.eqb_eq in Hp.
    destruct (lineage3_scores_values l q Hin) as [H3 Hother].
    destruct (String.eqb_spec l "lineage3") as [->|Hne].
    + split; [intros _; split; [by apply H3|exact Hp]|intros Hn; by destruct Hn].
    + split; [intros He; by destruct Hne|intros _; split; [by apply Hother|exact Hp]].
  - unfold V5.process_vcf. unfold mbind at 1, io_bind at 1. rewrite Hextract.
    unfold mbind at 1, io_bind at 1, lift. fold sample_name.
    rewrite V5_lineage3_report. fold output_file.
    unfold mbind, io_bind, write_text, print, emit. cbn [files stdout tables].
    rewrite <- app_assoc. reflexivity.
Qed.

Lemma C6_lineage3_end_to_end_witness :
  ∃ w1 w2,
    Single.sample_variants plain_reader "isolate7.vcf" lineage3_world =
      (w1, Ok (Some lineage3_markers)) ∧
    V5.process_vcf plain_reader "isolate7.vcf" "out" V5.lineage_references lineage3_world =
      (w2, Ok (Some (lineage3_report "isolate7"))) ∧
    files w2 !! "out/isolate7_lineage_result.txt" = Some (lineage3_report "isolate7").
Proof.
  assert (Hex : Single.sample_variants plain_reader "isolate7.vcf" lineage3_world =
                (World {["isolate7.vcf" := lineage3_vcf;
                         "isolate7_snp.txt" :=
                           Py.join nl ["24007"; "633562"; "2840999"; "3582694"]]}
                   [] [], Ok (Some lineage3_markers)))
    by (vm_compute; reflexivity).
  destruct (C6_lineage3_end_to_end plain_reader "isolate7.vcf" "out" lineage3_world _ Hex)
    as [_ Hrun].
  eexists _, _. split; [exact Hex|]. split; [exact Hrun|].
  apply lookup_insert_eq.
Defined.

(** ** The batch and the combined report *)

Lemma keeps_bind {A B} (m : io A) (k : A → io B) :
  keeps_tables m → (∀ a, keeps_tables (k a)) → keeps_tables (m ≫= k).
Proof.
  intros Hm Hk w. unfold mbind, io_bind. specialize (Hm w).
  destruct (m w) as [w1 [a|e]]; [|done]. rewrite <- Hm. apply Hk.
Qed.

Lemma keeps_ret {A} (a : A) : keeps_tables (mret a).
Proof. done. Qed.
Lemma keeps_lift {A} (r : result A) : keeps_tables (lift r).
Proof. done. Qed.
Lemma keeps_emit l : keeps_tables (emit l).
Proof. done. Qed.
Lemma keeps_print s : keeps_tables (print s).
Proof. done. Qed.
Lemma keeps_path_exists p : keeps_tables (path_exists p).
Proof. done. Qed.
Lemma keeps_read_lines p : keeps_tables (read_lines p).
Proof. done. Qed.
Lemma keeps_read_text p : keeps_tables (read_text p).
Proof. done. Qed.
Lemma keeps_write_text p s : keeps_tables (write_text p s).
Proof. done. Qed.
Lemma keeps_try_except {A} (m : io A) :
  keeps_tables m → keeps_tables (try_except m).
Proof. intros Hm w. unfold try_except. specialize (Hm w). by destruct (m w). Qed.

Create HintDb keeps.
#[export] Hint Resolve keeps_ret keeps_lift keeps_emit keeps_print keeps_path_exists
  keeps_read_lines keeps_read_text keeps_write_text : keeps.

Ltac keeps_step :=
  lazymatch goal with
  | |- keeps_tables (_ ≫= _) => apply keeps_bind; [|intros ?]
  | |- keeps_tables (if ?b then _ else _) => destruct b
  | |- keeps_tables (match ?x with _ => _ end) => destruct x
  | |- keeps_tables _ => solve [auto with keeps]
  end.

Lemma keeps_variant_rows vcf_file names lines : ∀ d,
  keeps_tables (V4.variant_rows vcf_file names lines d).
Proof.
  induction lines as [|line lines IH]; intros d; cbn [V4.variant_rows]; [apply keeps_ret|].
  apply keeps_bind; [|apply IH]. unfold V4.variant_row. repeat keeps_step.
Qed.

Lemma keeps_process_joint_vcf vcf_file cat :
  keeps_tables (V4.process_joint_vcf vcf_file cat).
Proof.
  unfold V4.process_joint_vcf. repeat keeps_step. apply keeps_variant_rows.
Qed.

Lemma keeps_V4_batch vcf_files : ∀ acc, keeps_tables (V4.batch vcf_files acc).
Proof.
  induction vcf_files as [|f rest IH]; intros acc; cbn [V4.batch]; [apply keeps_ret|].
  apply keeps_bind; [apply keeps_print|intros _].
  apply keeps_bind; [apply keeps_try_except, keeps_process_joint_vcf|intros r].
  destruct r as [[|r rs]|e]; [apply IH|apply IH|].
  apply keeps_bind; [apply keeps_emit|intros _; apply IH].
Qed.

Lemma keeps_sample_variants rc vcf_file :
  keeps_tables (Single.sample_variants rc vcf_file).
Proof.
  unfold Single.sample_variants, Single.extract_snp_positions, Single.str_conv.
  repeat keeps_step.
Qed.

Lemma keeps_V1_batch rc vcf_files : ∀ acc, keeps_tables (V1.batch rc vcf_files acc).
Proof.
  induction vcf_files as [|f rest IH]; intros acc; cbn [V1.batch]; [apply keeps_ret|].
  apply keeps_bind; [apply keeps_print|intros _].
  apply keeps_bind.
  - unfold V1.process_vcf. apply keeps_bind; [apply keeps_sample_variants|intros s].
    repeat keeps_step.
  - intros [[|kv r]|]; apply IH.
Qed.

(** V5 writes its combined file whatever the batch gave: with no record
    the file is empty and nothing says so. *)
Lemma V5_main_without_records read_column0 vcf_files output_dir w w' :
  files w !! output_dir = None →
  V5.batch read_column0 vcf_files output_dir [] w = (w', Ok []) →
  V5.main read_column0 vcf_files output_dir w =
    (World (<[path_join output_dir V5.combined_name := EmptyString]> (files w'))
           (stdout w' ++
              [Line (nl +:+ "Combined results saved to "
                     +:+ path_join output_dir V5.combined_name)])
           (tables w'),
     Ok tt).
Proof.
  intros Hout Hrun. unfold V5.main, mbind, io_bind, path_exists. rewrite Hout.
  rewrite bool_decide_eq_false_2 by (by intros [? ?]). by rewrite Hrun.
Qed.

(** C8. Files that give no record are passed over and the loop goes on
    with the remaining files.  When the whole batch gave no record, no
    combined report is written: V4 prints "No results to save." on the
    console, V1 prints nothing; in both the tables written are those
    written before the run. *)
Theorem C8_aggregator_without_records :
  (∀ vcf_file rest all_results w w',
     V4.process_joint_vcf vcf_file V4.lineage_references
       (say [Line ("Processing " +:+ vcf_file +:+ " ...")] w) = (w', Ok []) →
     V4.batch (vcf_file :: rest) all_results w = V4.batch rest all_results w') ∧
  (∀ read_column0 vcf_file rest all_results w w',
     V1.process_vcf read_column0 vcf_file V1.lineage_references
       (say [Line ("Processing " +:+ vcf_file +:+ " ...")] w) = (w', Ok None) →
     V1.batch read_column0 (vcf_file :: rest) all_results w =
     V1.batch read_column0 rest all_results w') ∧
  (∀ vcf_files output_dir w w',
     files w !! output_dir = None →
     V4.batch vcf_files [] w = (w', Ok []) →
     V4.main vcf_files output_dir w = (say [Line "No results to save."] w', Ok tt) ∧
     tables w' = tables w) ∧
  (∀ read_column0 vcf_files output_dir w w',
     files w !! output_dir = None →
     V1.batch read_column0 vcf_files [] w = (w', Ok []) →
     V1.main read_column0 vcf_files output_dir w = (w', Ok tt) ∧
     tables w' = tables w).
Proof.
  split; [|split; [|split]].
  - intros f rest acc w w' Hrun. cbn [V4.batch].
    unfold mbind, io_bind, print, emit, try_except.
    fold (say [Line ("Processing " +:+ f +:+ " ...")] w).
    by rewrite Hrun.
  - intros rc f rest acc w w' Hrun. cbn [V1.batch].
    unfold mbind, io_bind, print, emit.
    fold (say [Line ("Processing " +:+ f +:+ " ...")] w).
    by rewrite Hrun.
  - intros fs out w w' Hout Hrun. split.
    + unfold V4.main, mbind, io_bind, path_exists. rewrite Hout.
      rewrite bool_decide_eq_false_2 by (by intros [? ?]). by rewrite Hrun.
    + pose proof (keeps_V4_batch fs [] w) as Hk. by rewrite Hrun in Hk.
  - intros rc fs out w w' Hout Hrun. split.
    + unfold V1.main, mbind, io_bind, path_exists. rewrite Hout.
      rewrite bool_decide_eq_false_2 by (by intros [? ?]). by rewrite Hrun.
    + pose proof (keeps_V1_batch rc fs [] w) as Hk. by rewrite Hrun in Hk.
Qed.

(** A batch of a missing file and a file without header line. *)
Lemma C8_aggregator_without_records_witness :
  V4.main ["missing.vcf"; "noheader.vcf"] "out" empty_batch_world =
    (World {["noheader.vcf" := no_header_vcf]}
       [Line "Processing missing.vcf ..."; Line "File not found: missing.vcf";
        Line "Processing noheader.vcf ..."; Line "VCF header not found in noheader.vcf";
        Line "No results to save."] [],
     Ok tt) ∧
  V1.main plain_reader ["missing.vcf"] "out" empty_batch_world =
    (World {["noheader.vcf" := no_header_vcf]}
       [Line "Processing missing.vcf ..."; Line "File not found: missing.vcf";
        Line "No valid SNP file generated for missing. Skipping."] [],
     Ok tt).
Proof.
  destruct C8_aggregator_without_records as (_ & _ & H4 & H1). split.
  - destruct (H4 ["missing.vcf"; "noheader.vcf"] "out" empty_batch_world
      (World {["noheader.vcf" := no_header_vcf]}
       [Line "Processing missing.vcf ..."; Line "File not found: missing.vcf";
        Line "Processing noheader.vcf ..."; Line "VCF header not found in noheader.vcf"] []))
      as [Hmain _]; [reflexivity|vm_compute; reflexivity|exact Hmain].
  - destruct (H1 plain_reader ["missing.vcf"] "out" empty_batch_world
      (World {["noheader.vcf" := no_header_vcf]}
       [Line "Processing missing.vcf ..."; Line "File not found: missing.vcf";
        Line "No valid SNP file generated for missing. Skipping."] []))
      as [Hmain _]; [reflexivity|vm_compute; reflexivity|exact Hmain].
Defined.

(** With no record in the whole batch, neither script writes a combined
    report, and V1 prints no notice either. *)
Lemma C8_counterexample :
  tables (V4.main ["missing.vcf"; "noheader.vcf"] "out" empty_batch_world).1 = [] ∧
  files (V4.main ["missing.vcf"; "noheader.vcf"] "out" empty_batch_world).1
    !! "out/combined_joint_lineage_results.txt" = None ∧
  tables (V1.main plain_reader ["missing.vcf"] "out" empty_batch_world).1 = [] ∧
  files (V1.main plain_reader ["missing.vcf"] "out" empty_batch_world).1
    !! "out/combined_lineage_results.txt" = None ∧
  stdout (V1.main plain_reader ["missing.vcf"] "out" empty_batch_world).1 =
    [Line "Processing missing.vcf ..."; Line "File not found: missing.vcf";
     Line "No valid SNP file generated for missing. Skipping."].
Proof. repeat split; vm_compute; reflexivity. Qed.

(** ** The catalogs of V1 and V4 *)

(** C10. The catalogs of V1 and V4 have the same lineages in the same
    order and the same marker sets for all of them except "dassie": V1
    lists position 2271988 where V4 lists 271988.  A sample whose only
    variant is 2271988 scores 5.26% for dassie in V1 and is labelled
    "dassie", and scores 0.00% in V4 and is labelled "unknown_lineage". *)
Theorem C10_catalogs_differ_at_dassie :
  Py.keys V1.lineage_references = Py.keys V4.lineage_references ∧
  filter (λ kv, kv.1 ≠ "dassie") V1.lineage_references =
    filter (λ kv, kv.1 ≠ "dassie") V4.lineage_references ∧
  V1.lineage_references ≠ V4.lineage_references ∧
  elements (dassie_of V1.lineage_references ∖ dassie_of V4.lineage_references)
    = [2271988%Z] ∧
  elements (dassie_of V4.lineage_references ∖ dassie_of V1.lineage_references)
    = [271988%Z] ∧
  (∃ r1 r4,
     V1.sample_record V1.lineage_references "s" only_in_V1 = Ok r1 ∧
     V4.sample_record V4.lineage_references "s" only_in_V1 = Ok r4 ∧
     Py.dict_get r1 "dassie" = Some "5.26%" ∧
     Py.dict_get r4 "dassie" = Some "0.00%" ∧
     Py.dict_get r1 "Predicted_lineage" = Some "dassie" ∧
     Py.dict_get r4 "Predicted_lineage" = Some "unknown_lineage").
Proof.
  split; [vm_compute; reflexivity|].
  split; [apply (bool_decide_unpack _); vm_compute; exact I|].
  split; [apply (bool_decide_unpack _); vm_compute; exact I|].
  split; [vm_compute; reflexivity|]. split; [vm_compute; reflexivity|].
  eexists _, _. split; [vm_compute; reflexivity|]. split; [vm_compute; reflexivity|].
  repeat split; vm_compute; reflexivity.
Qed.

(** * Further properties *)
(** ** Joint extraction, file by file *)

Lemma genotype_step_calls pos gt field snps :
  V4.genotype_step pos gt field snps = if calls gt field then {[pos]} ∪ snps else snps.
Proof.
  unfold V4.genotype_step, calls.
  destruct (decide (length (Py.split ":" field) ≤ gt)) as [Hle|Hgt].
  - by rewrite (lookup_ge_None_2 _ _ Hle).
  - destruct (Py.split ":" field !! gt) as [tok|]; [|done].
    destruct (decide (tok ≠ "0" ∧ tok ≠ ".")) as [H|H].
    + by rewrite bool_decide_eq_true_2.
    + by rewrite bool_decide_eq_false_2.
Qed.

Lemma called_spec fields gt names sample : ∀ i,
  called fields gt i names sample = true ↔
  ∃ k field, names !! k = Some sample ∧ fields !! (i + k) = Some field ∧
             calls gt field = true.
Proof.
  induction names as [|name rest IH]; intros i; simpl.
  - split; [done|]. by intros (k & field & Hk & _).
  - rewrite orb_true_iff, andb_true_iff, bool_decide_eq_true, IH. split.
    + intros [[-> Hc]|(k & field & Hk & Hf & Hc)].
      * destruct (fields !! i) as [field|] eqn:E; [|done].
        exists 0, field. by rewrite Nat.add_0_r.
      * exists (S k), field. by rewrite Nat.add_succ_r.
    + intros ([|k] & field & Hk & Hf & Hc).
      * left. injection Hk as ->. rewrite Nat.add_0_r in Hf. by rewrite Hf.
      * right. exists k, field. by rewrite Nat.add_succ_r in Hf.
Qed.

Lemma sample_columns_ok fields pos gt names : ∀ i d,
  i + length names ≤ length fields →
  ∃ d', V4.sample_columns fields pos gt i names d = Ok d' ∧
        Py.keys d' = Py.keys d ∧
        ∀ s, Py.dict_get d' s =
             (λ S, if called fields gt i names s then {[pos]} ∪ S else S)
               <$> Py.dict_get d s.
Proof.
  induction names as [|name rest IH]; intros i d Hlen; simpl in *.
  - exists d. split; [done|]. split; [done|]. intros s. by destruct (Py.dict_get d s).
  - destruct (lookup_lt_is_Some_2 fields i ltac:(lia)) as [field Hfield].
    unfold Py.index. rewrite Hfield. simpl.
    destruct (IH (S i) (Py.dict_alter (V4.genotype_step pos gt field) name d) ltac:(lia))
      as (d' & Hrun & Hkeys & Hget).
    exists d'. split; [exact Hrun|]. split; [by rewrite Hkeys, keys_alter|].
    intros s. rewrite Hget, dict_get_alter.
    destruct (decide (name = s)) as [->|Hne].
    + rewrite bool_decide_eq_true_2 by done. simpl.
      destruct (Py.dict_get d s) as [S0|]; [simpl|done]. f_equal.
      rewrite genotype_step_calls.
      destruct (calls gt field), (called fields gt (S i) rest s); simpl; try done.
      by rewrite (assoc_L (∪)), (idemp_L (∪)).
    + rewrite bool_decide_eq_false_2 by done. done.
Qed.

Lemma sample_columns_short fields pos gt names : ∀ i d,
  i ≤ length fields → length fields < i + length names →
  V4.sample_columns fields pos gt i names d = Raise IndexError.
Proof.
  induction names as [|name rest IH]; intros i d Hi Hlen; simpl in *; [lia|].
  unfold Py.index. destruct (fields !! i) as [field|] eqn:E; [simpl|done].
  apply lookup_lt_Some in E. apply IH; lia.
Qed.

Lemma variant_rows_cons f names line rest d w :
  V4.variant_rows f names (line :: rest) d w =
  match V4.variant_row f names line d w with
  | (w1, Ok d1) => V4.variant_rows f names rest d1 w1
  | (w1, Raise e) => (w1, Raise e)
  end.
Proof. reflexivity. Qed.

Lemma fmap_union_empty (o : option (gset Z)) : (λ S, S ∪ ∅) <$> o = o.
Proof. destruct o as [S|]; [simpl|done]. f_equal. apply (right_id_L ∅ (∪)). Qed.

Lemma variant_row_accepted f names line d :
  row_accepted (length names) line = true →
  ∃ msgs d',
    (∀ w, V4.variant_row f names line d w = (say msgs w, Ok d')) ∧
    Py.keys d' = Py.keys d ∧
    ∀ s, Py.dict_get d' s = (λ S, S ∪ row_variants names line s) <$> Py.dict_get d s.
Proof.
  unfold row_accepted, V4.variant_row, row_variants, row_position.
  destruct (Py.startswith line "#") eqn:Hc; cbn [orb].
  { intros _. exists [], d. split; [intros w; by rewrite say_nil|]. split; [done|].
    intros s. by rewrite fmap_union_empty. }
  destruct (V4.row_fields line !! 1) as [p|] eqn:Hp; [|done].
  destruct (int_outcome p) as [[pos Hpos]|Hbad].
  - rewrite Hpos. intros Hlen. apply Nat.leb_le in Hlen.
    destruct (lookup_lt_is_Some_2 (V4.row_fields line) 8 ltac:(lia)) as [fmt Hfmt].
    destruct (sample_columns_ok (V4.row_fields line) pos
                (V4.gt_index (Py.split ":" fmt)) names 9 d Hlen)
      as (d' & Hrun & Hkeys & Hget).
    exists [], d'. split; [|split; [done|]].
    + intros w. rewrite say_nil. unfold mbind, io_bind, lift, Py.index.
      rewrite Hp, Hpos, Hfmt, Hrun. done.
    + intros s. rewrite Hget, Hfmt. destruct (Py.dict_get d s) as [S0|]; [simpl|done].
      f_equal. destruct (called _ _ _ _ _);
        [apply (comm_L (∪))|symmetry; apply (right_id_L ∅ (∪))].
  - rewrite Hbad. intros _. exists [Line (V4.skip_message p f)], d.
    split; [|split; [done|]].
    + intros w. unfold mbind, io_bind, lift, Py.index. rewrite Hp, Hbad. done.
    + intros s. by rewrite fmap_union_empty.
Qed.

Lemma variant_row_rejected f names line d w :
  row_accepted (length names) line = false →
  V4.variant_row f names line d w = (w, Raise IndexError).
Proof.
  unfold row_accepted, V4.variant_row.
  destruct (Py.startswith line "#") eqn:Hc; cbn [orb]; [done|].
  unfold mbind, io_bind, lift, Py.index.
  destruct (V4.row_fields line !! 1) as [p|] eqn:Hp; [|done].
  destruct (int_outcome p) as [[pos Hpos]|Hbad]; [|by rewrite Hbad].
  rewrite Hpos. intros Hlen. apply Nat.leb_gt in Hlen.
  destruct (V4.row_fields line !! 8) as [fmt|] eqn:Hfmt; [|done].
  apply lookup_lt_Some in Hfmt. rewrite sample_columns_short; [done|lia|lia].
Qed.

Lemma joint_variants_cons names line rest s :
  joint_variants names (line :: rest) s =
  row_variants names line s ∪ joint_variants names rest s.
Proof. reflexivity. Qed.

Lemma variant_rows_accepted f names lines : ∀ d,
  forallb (row_accepted (length names)) lines = true →
  ∃ msgs d',
    (∀ w, V4.variant_rows f names lines d w = (say msgs w, Ok d')) ∧
    Py.keys d' = Py.keys d ∧
    ∀ s, Py.dict_get d' s = (λ S, S ∪ joint_variants names lines s) <$> Py.dict_get d s.
Proof.
  induction lines as [|line rest IH]; intros d Hall.
  - exists [], d. split; [intros w; by rewrite say_nil|]. split; [done|].
    intros s. unfold joint_variants. simpl. by rewrite fmap_union_empty.
  - simpl in Hall. apply andb_true_iff in Hall as [Hrow Hrest].
    destruct (variant_row_accepted f names line d Hrow) as (m1 & d1 & Hrun1 & Hk1 & Hg1).
    destruct (IH d1 Hrest) as (m2 & d2 & Hrun2 & Hk2 & Hg2).
    exists (m1 ++ m2), d2. split; [|split; [congruence|]].
    + intros w. rewrite variant_rows_cons, Hrun1, Hrun2, say_say. done.
    + intros s. rewrite Hg2, Hg1, joint_variants_cons.
      destruct (Py.dict_get d s) as [S0|]; [simpl|done]. f_equal.
      by rewrite (assoc_L (∪)).
Qed.

Lemma variant_rows_rejected f names lines : ∀ d w,
  forallb (row_accepted (length names)) lines = false →
  (V4.variant_rows f names lines d w).2 = Raise IndexError.
Proof.
  induction lines as [|line rest IH]; intros d w Hall; [done|].
  simpl in Hall. rewrite variant_rows_cons.
  destruct (row_accepted (length names) line) eqn:Hrow.
  - destruct (variant_row_accepted f names line d Hrow) as (m1 & d1 & Hrun1 & _).
    rewrite Hrun1. by apply IH.
  - by rewrite variant_row_rejected.
Qed.

Lemma split_nonempty sep s : Py.split sep s ≠ [].
Proof.
  destruct s as [|c s]; simpl; [done|].
  destruct (Ascii.eqb c sep); [done|]. by destruct (Py.split sep s).
Qed.

Lemma find_header_nil lines :
  V4.find_header lines = [] ↔
  forallb (λ line, negb (Py.startswith line "#CHROM")) lines = true.
Proof.
  induction lines as [|line rest IH]; simpl; [done|].
  destruct (Py.startswith line "#CHROM"); simpl; [|exact IH].
  split; [|done]. intros H. by apply split_nonempty in H.
Qed.

Lemma process_joint_vcf_missing vcf_file cat w :
  files w !! vcf_file = None →
  V4.process_joint_vcf vcf_file cat w =
    (say [Line ("File not found: " +:+ vcf_file)] w, Ok []).
Proof.
  intros Hfile. unfold V4.process_joint_vcf, mbind, io_bind, path_exists.
  rewrite Hfile. rewrite bool_decide_eq_false_2 by (by intros [? ?]). reflexivity.
Qed.

Lemma render_dict_set scores l h :
  render_scores (Py.dict_set l h scores) =
  Py.dict_set l (percent_of_hundredths h) (render_scores scores).
Proof.
  induction scores as [|[k v] d IH]; simpl; [done|].
  destruct (decide (l = k)); simpl; [done|]. by rewrite <- IH.
Qed.

Lemma V4_score_loop_total items S : ∀ acc,
  ∃ scores, V4.score_loop items S (render_scores acc) = Ok (render_scores scores).
Proof.
  induction items as [|[l M] rest IH]; intros acc; cbn [V4.score_loop].
  - by exists acc.
  - rewrite V4_probability_eq. cbn [mbind result_bind].
    rewrite percent_guarded, <- render_dict_set. apply IH.
Qed.

Lemma V4_predicted_total scores :
  ∃ label, V4.predicted_lineage (render_scores scores) = Ok label.
Proof.
  unfold V4.predicted_lineage. rewrite matching_lineages_render. cbn [mbind result_bind].
  destruct (positive_lineages scores) as [|l [|l' ls]]; by eexists.
Qed.

Lemma V4_sample_record_total C s S :
  ∃ r, V4.sample_record C s S = Ok r ∧
       Py.dict_get r "Sample_Name" = Some s ∧
       is_Some (Py.dict_get r "Predicted_lineage").
Proof.
  unfold V4.sample_record.
  destruct (V4_score_loop_total C S []) as (scores & Hrun).
  change (render_scores []) with (@nil (string * string)) in Hrun. rewrite Hrun.
  cbn [mbind result_bind].
  destruct (V4_predicted_total scores) as (label & Hlabel). rewrite Hlabel.
  eexists. split; [reflexivity|]. split.
  - rewrite dict_get_set_ne by done. apply dict_get_set_eq.
  - rewrite dict_get_set_eq. by eexists.
Qed.

Lemma V4_sample_records_total C : ∀ d,
  ∃ rs, V4.sample_records C d = Ok rs ∧
        Forall2 (λ kv r, V4.sample_record C kv.1 kv.2 = Ok r) d rs.
Proof.
  induction d as [|[s S] d IH]; cbn [V4.sample_records].
  - exists []. by split.
  - destruct (V4_sample_record_total C s S) as (r & Hr & _).
    destruct IH as (rs & Hrs & Hall). rewrite Hr, Hrs. cbn [mbind result_bind].
    exists (r :: rs). split; [done|]. by constructor.
Qed.

(** X1. What [process_joint_vcf] does with a file, case by case.  A
    missing file and a file without a line starting with "#CHROM" give no
    record and one line on the console.  Otherwise the rows decide: when
    every line is a comment, has a position that [int] refuses, or has
    its position and at least 9 + (number of sample names) columns, the
    function returns its records; when one line is not of that kind it
    raises IndexError, whatever the other lines are. *)
Theorem X1_joint_file_outcome
    (vcf_file : string) (lineage_references : dict (gset Z)) (w : world) :
  match files w !! vcf_file with
  | None =>
      V4.process_joint_vcf vcf_file lineage_references w =
        (say [Line ("File not found: " +:+ vcf_file)] w, Ok [])
  | Some text =>
      let lines := lines_of text in
      if forallb (λ line, negb (Py.startswith line "#CHROM")) lines then
        V4.process_joint_vcf vcf_file lineage_references w =
          (say [Line ("VCF header not found in " +:+ vcf_file)] w, Ok [])
      else
        let n_samples := length (drop 9 (V4.find_header lines)) in
        if forallb (row_accepted n_samples) lines then
          ∃ records,
            (V4.process_joint_vcf vcf_file lineage_references w).2 = Ok records
        else
          (V4.process_joint_vcf vcf_file lineage_references w).2 = Raise IndexError
  end.
Proof.
  destruct (files w !! vcf_file) as [text|] eqn:Hfile;
    [|by apply process_joint_vcf_missing].
  cbv zeta. rewrite (process_joint_vcf_found _ _ _ _ Hfile).
  destruct (forallb _ (lines_of text)) eqn:Hhead.
  - apply find_header_nil in Hhead. by rewrite Hhead.
  - destruct (V4.find_header (lines_of text)) as [|h header] eqn:Hh.
    { apply find_header_nil in Hh. congruence. }
    cbv zeta.
    destruct (forallb (row_accepted _) (lines_of text)) eqn:Hrows.
    + destruct (variant_rows_accepted vcf_file (drop 9 (h :: header)) (lines_of text)
                  (Py.dict_of_items ((λ s, (s, ∅)) <$> drop 9 (h :: header))) Hrows)
        as (msgs & d' & Hrun & _).
      rewrite Hrun.
      destruct (V4_sample_records_total lineage_references d') as (rs & Hrs & _).
      by exists rs.
    + pose proof (variant_rows_rejected vcf_file (drop 9 (h :: header)) (lines_of text)
                    (Py.dict_of_items ((λ s, (s, ∅)) <$> drop 9 (h :: header))) w Hrows)
        as Hrun.
      destruct (V4.variant_rows _ _ _ _ w) as [w1 [d1|e]]; simpl in Hrun; [done|].
      simpl. congruence.
Qed.

Lemma elem_of_row_variants names line s z :
  z ∈ row_variants names line s ↔
  ∃ p fmt k field genotype,
    Py.startswith line "#" = false ∧
    V4.row_fields line !! 1 = Some p ∧ Py.int p = Ok z ∧
    V4.row_fields line !! 8 = Some fmt ∧
    names !! k = Some s ∧ V4.row_fields line !! (9 + k) = Some field ∧
    Py.split ":" field !! V4.gt_index (Py.split ":" fmt) = Some genotype ∧
    genotype ≠ "0" ∧ genotype ≠ ".".
Proof.
  unfold row_variants, row_position. split.
  - destruct (Py.startswith line "#"); [by intros ?%elem_of_empty|].
    destruct (V4.row_fields line !! 1) as [p|]; [|by intros ?%elem_of_empty].
    destruct (Py.int p) as [pos|e] eqn:Hpos; [|by intros ?%elem_of_empty].
    destruct (V4.row_fields line !! 8) as [fmt|]; [|by intros ?%elem_of_empty].
    destruct (called _ _ _ _ _) eqn:Hc; [|by intros ?%elem_of_empty].
    intros ->%elem_of_singleton.
    apply called_spec in Hc as (k & field & Hk & Hf & Hcalls). unfold calls in Hcalls.
    destruct (Py.split ":" field !! _) as [genotype|] eqn:Hg; [|done].
    apply bool_decide_eq_true in Hcalls as [H0 Hdot].
    by exists p, fmt, k, field, genotype.
  - intros (p & fmt & k & field & genotype & -> & -> & -> & -> & Hk & Hf & Hg & H0 & Hdot).
    assert (called (V4.row_fields line) (V4.gt_index (Py.split ":" fmt)) 9 names s = true)
      as ->.
    { apply called_spec. exists k, field. split; [done|]. split; [done|].
      unfold calls. rewrite Hg. by apply bool_decide_eq_true. }
    by apply elem_of_singleton.
Qed.

Lemma elem_of_joint_variants names lines s z :
  z ∈ joint_variants names lines s ↔
  ∃ line, line ∈ lines ∧ z ∈ row_variants names line s.
Proof.
  unfold joint_variants. rewrite elem_of_union_list. split.
  - intros (X & HX & Hz). apply list_elem_of_fmap in HX as (line & -> & Hin). eauto.
  - intros (line & Hin & Hz). exists (row_variants names line s). split; [|done].
    apply list_elem_of_fmap. eauto.
Qed.

Lemma variant_rows_outcome f names lines d w :
  if forallb (row_accepted (length names)) lines then
    ∃ d', (V4.variant_rows f names lines d w).2 = Ok d' ∧
          Py.keys d' = Py.keys d ∧
          ∀ s, Py.dict_get d' s =
               (λ S, S ∪ joint_variants names lines s) <$> Py.dict_get d s
  else (V4.variant_rows f names lines d w).2 = Raise IndexError.
Proof.
  destruct (forallb _ lines) eqn:Hall.
  - destruct (variant_rows_accepted f names lines d Hall) as (msgs & d' & Hrun & Hk & Hg).
    exists d'. by rewrite Hrun.
  - by apply variant_rows_rejected.
Qed.

(** X2. The variant sets after the loop over the lines of a joint file.
    When no row raises, the samples are the same as before, and a
    position is in the set of a sample exactly when it was there before
    or some data row has that position, and, in a column whose header
    names the sample, a genotype token other than "0" and ".".  Columns
    with the same sample name feed the same set. *)
Theorem X2_joint_variant_sets
    (vcf_file : string) (sample_names lines : list string)
    (sample_snps sample_snps' : dict (gset Z)) (w : world) :
  (V4.variant_rows vcf_file sample_names lines sample_snps w).2 = Ok sample_snps' →
  Py.keys sample_snps' = Py.keys sample_snps ∧
  ∀ sample snps,
    Py.dict_get sample_snps sample = Some snps →
    ∃ snps',
      Py.dict_get sample_snps' sample = Some snps' ∧
      ∀ pos, pos ∈ snps' ↔
        pos ∈ snps ∨
        ∃ line p fmt k field genotype,
          line ∈ lines ∧ Py.startswith line "#" = false ∧
          V4.row_fields line !! 1 = Some p ∧ Py.int p = Ok pos ∧
          V4.row_fields line !! 8 = Some fmt ∧
          sample_names !! k = Some sample ∧
          V4.row_fields line !! (9 + k) = Some field ∧
          Py.split ":" field !! V4.gt_index (Py.split ":" fmt) = Some genotype ∧
          genotype ≠ "0" ∧ genotype ≠ ".".
Proof.
  intros Hrun.
  pose proof (variant_rows_outcome vcf_file sample_names lines sample_snps w) as Hout.
  destruct (forallb _ lines); [|congruence].
  destruct Hout as (d' & Hrun' & Hkeys & Hget).
  assert (d' = sample_snps') as -> by congruence.
  split; [exact Hkeys|]. intros sample snps Hs.
  exists (snps ∪ joint_variants sample_names lines sample).
  split; [by rewrite Hget, Hs|].
  intros pos. rewrite elem_of_union, elem_of_joint_variants.
  split; (intros [Hin|Hin]; [by left|right]).
  - destruct Hin as (line & Hline & Hz).
    apply elem_of_row_variants in Hz as (p & fmt & k & field & genotype & Hz).
    by exists line, p, fmt, k, field, genotype.
  - destruct Hin as (line & p & fmt & k & field & genotype & Hline & Hz).
    exists line. split; [done|]. apply elem_of_row_variants.
    by exists p, fmt, k, field, genotype.
Qed.

Lemma X2_joint_variant_sets_witness :
  ∃ sample_snps' snps',
    (V4.variant_rows "joint.vcf" ["s1"; "s2"] [malformed_row; example_row]
       [("s1", ∅); ("s2", ∅)] (World ∅ [] [])).2 = Ok sample_snps' ∧
    Py.dict_get sample_snps' "s1" = Some snps' ∧ 633562%Z ∈ snps'.
Proof.
  exists [("s1", {[633562%Z]}); ("s2", ∅)].
  destruct (X2_joint_variant_sets "joint.vcf" ["s1"; "s2"] [malformed_row; example_row]
              [("s1", ∅); ("s2", ∅)] [("s1", {[633562%Z]}); ("s2", ∅)] (World ∅ [] []))
    as [_ Hsets].
  - vm_compute. reflexivity.
  - destruct (Hsets "s1" ∅ eq_refl) as (snps' & Hget & Hmem).
    exists snps'. split; [vm_compute; reflexivity|]. split; [exact Hget|].
    apply Hmem. right.
    exists example_row, "633562", "GT:DP", 0, "1:30", "1".
    split; [apply list_elem_of_In; simpl; tauto|].
    do 7 (split; [reflexivity|]). split; discriminate.
Defined.

Lemma dict_ext {V} (d1 d2 : dict V) :
  Py.keys d1 = Py.keys d2 → NoDup (Py.keys d1) →
  (∀ k, Py.dict_get d1 k = Py.dict_get d2 k) → d1 = d2.
Proof.
  revert d2. induction d1 as [|[k v] d1 IH]; intros [|[k' v'] d2] Hk Hnd Hget;
    try done.
  unfold Py.keys in *. simpl in Hk. injection Hk as <- Hk.
  simpl in Hnd. apply NoDup_cons in Hnd as [Hfresh Hnd].
  pose proof (Hget k) as Hkk. simpl in Hkk. rewrite !decide_True in Hkk by done.
  injection Hkk as <-. f_equal. apply IH; [done|done|].
  intros k0. pose proof (Hget k0) as Hk0. simpl in Hk0.
  destruct (decide (k0 = k)) as [->|Hne]; [|done].
  destruct (Py.dict_get d1 k) eqn:E1.
  { apply dict_get_Some_keys in E1. by destruct Hfresh. }
  destruct (Py.dict_get d2 k) eqn:E2; [|done].
  destruct Hfresh. rewrite Hk. exact (dict_get_Some_keys _ _ _ E2).
Qed.

(** X3. The outcome of the loop over the rows does not depend on their
    order: the same variant sets, or IndexError in both orders. *)
Theorem X3_joint_row_order
    (vcf_file : string) (sample_names lines lines' : list string)
    (sample_snps : dict (gset Z)) (w w' : world) :
  lines ≡ₚ lines' →
  NoDup (Py.keys sample_snps) →
  (V4.variant_rows vcf_file sample_names lines sample_snps w).2 =
  (V4.variant_rows vcf_file sample_names lines' sample_snps w').2.
Proof.
  intros Hperm Hnd.
  pose proof (variant_rows_outcome vcf_file sample_names lines sample_snps w) as H1.
  pose proof (variant_rows_outcome vcf_file sample_names lines' sample_snps w') as H2.
  assert (forallb (row_accepted (length sample_names)) lines =
          forallb (row_accepted (length sample_names)) lines') as Hall.
  { apply eq_true_iff_eq. rewrite !forallb_forall. split.
    - intros H x Hx. apply H. apply list_elem_of_In. rewrite Hperm.
      by apply list_elem_of_In.
    - intros H x Hx. apply H. apply list_elem_of_In. rewrite <- Hperm.
      by apply list_elem_of_In. }
  rewrite <- Hall in H2. destruct (forallb _ lines); [|congruence].
  destruct H1 as (d1 & -> & Hk1 & Hg1). destruct H2 as (d2 & -> & Hk2 & Hg2).
  f_equal. apply dict_ext; [congruence|by rewrite Hk1|].
  intros s. rewrite Hg1, Hg2. destruct (Py.dict_get sample_snps s) as [S0|]; [simpl|done].
  do 2 f_equal. apply set_eq. intros z. rewrite !elem_of_joint_variants.
  split; intros (line & Hline & Hz); exists line; (split; [|done]).
  - by rewrite <- Hperm.
  - by rewrite Hperm.
Qed.

Lemma X3_joint_row_order_witness :
  (V4.variant_rows "joint.vcf" ["s1"; "s2"] [malformed_row; example_row]
     [("s1", ∅); ("s2", ∅)] (World ∅ [] [])).2 =
  (V4.variant_rows "joint.vcf" ["s1"; "s2"] [example_row; malformed_row]
     [("s1", ∅); ("s2", ∅)] (World ∅ [] [])).2.
Proof.
  apply X3_joint_row_order.
  - apply perm_swap.
  - apply (bool_decide_unpack _). vm_compute. exact I.
Defined.

Lemma keys_dict_set {V} (d : dict V) k v :
  Py.keys (Py.dict_set k v d) =
  if decide (k ∈ Py.keys d) then Py.keys d else Py.keys d ++ [k].
Proof.
  destruct (decide (k ∈ Py.keys d)) as [Hin|Hout].
  - by apply keys_set_in.
  - by rewrite dict_set_fresh, keys_app.
Qed.

Lemma keys_dict_of_names {V} (v : V) names : ∀ acc,
  let d := foldl (λ d kv, Py.dict_set kv.1 kv.2 d) acc ((λ s, (s, v)) <$> names) in
  (NoDup (Py.keys acc) → NoDup (Py.keys d)) ∧
  (∀ s, s ∈ Py.keys d ↔ s ∈ Py.keys acc ∨ s ∈ names) ∧
  (NoDup (Py.keys acc ++ names) → Py.keys d = Py.keys acc ++ names).
Proof.
  induction names as [|name rest IH]; intros acc; cbn [fmap list_fmap foldl].
  - split; [done|]. split; [|by rewrite app_nil_r].
    intros s. split; [by left|]. intros [H|H]; [done|]. by apply elem_of_nil in H.
  - cbn zeta. destruct (IH (Py.dict_set name v acc)) as (Hnd & Hin & Heq). cbn zeta in *.
    cbn [fst snd]. rewrite keys_dict_set in Hnd, Hin, Heq.
    split; [|split].
    + intros Hacc. apply Hnd. destruct (decide (name ∈ Py.keys acc)); [done|].
      apply NoDup_app. split; [done|]. split; [|apply NoDup_singleton].
      intros x Hx ->%list_elem_of_singleton. done.
    + intros s. rewrite Hin, elem_of_cons.
      destruct (decide (name ∈ Py.keys acc)) as [Hname|Hname].
      * split; [tauto|]. intros [H|[->|H]]; tauto.
      * rewrite elem_of_app, list_elem_of_singleton. tauto.
    + intros Hall. apply NoDup_app in Hall as (Hacc & Hdisj & Hrest).
      apply NoDup_cons in Hrest as [Hfresh Hrest].
      destruct (decide (name ∈ Py.keys acc)) as [Hname|Hname].
      { destruct (Hdisj name Hname). by left. }
      rewrite Heq; [by rewrite <- app_assoc|].
      rewrite <- app_assoc. simpl. apply NoDup_app. split; [done|]. split; [|by constructor].
      exact Hdisj.
Qed.

Lemma sample_names_of_records C : ∀ d rs,
  Forall2 (λ kv r, V4.sample_record C kv.1 kv.2 = Ok r) d rs →
  (λ r, Py.dict_get r "Sample_Name") <$> rs = Some <$> Py.keys d.
Proof.
  intros d rs H. induction H as [|[s S] r d rs Hr _ IH]; [done|].
  unfold Py.keys in *. simpl in *. f_equal; [|exact IH].
  destruct (V4_sample_record_total C s S) as (r' & Hr' & Hname & _). congruence.
Qed.

Lemma V4_sample_records_inv C d rs :
  V4.sample_records C d = Ok rs →
  Forall2 (λ kv r, V4.sample_record C kv.1 kv.2 = Ok r) d rs.
Proof.
  intros H. destruct (V4_sample_records_total C d) as (rs' & Hrs & Hall). congruence.
Qed.

(** X4. A joint file with a header line gives one record per distinct
    sample name of that header, in the header's own order when no name is
    repeated; each record carries its sample name under "Sample_Name" and
    is the record of that sample's variant set. *)
Theorem X4_joint_records
    (vcf_file : string) (lineage_references : dict (gset Z)) (w : world)
    (text : string) (records : list (dict string)) :
  files w !! vcf_file = Some text →
  V4.find_header (lines_of text) ≠ [] →
  (V4.process_joint_vcf vcf_file lineage_references w).2 = Ok records →
  let sample_names := drop 9 (V4.find_header (lines_of text)) in
  ∃ sample_snps,
    (V4.variant_rows vcf_file sample_names (lines_of text)
       (Py.dict_of_items ((λ s, (s, ∅)) <$> sample_names)) w).2 = Ok sample_snps ∧
    NoDup (Py.keys sample_snps) ∧
    (∀ s, s ∈ Py.keys sample_snps ↔ s ∈ sample_names) ∧
    (NoDup sample_names → Py.keys sample_snps = sample_names) ∧
    Forall2 (λ kv r, V4.sample_record lineage_references kv.1 kv.2 = Ok r)
      sample_snps records ∧
    (λ r, Py.dict_get r "Sample_Name") <$> records = Some <$> Py.keys sample_snps.
Proof.
  intros Hfile Hheader Hrun. cbv zeta.
  rewrite (process_joint_vcf_found _ _ _ _ Hfile) in Hrun.
  destruct (V4.find_header (lines_of text)) as [|h header] eqn:Hh; [done|].
  cbv zeta in Hrun. set (names := drop 9 (h :: header)) in *.
  pose proof (variant_rows_outcome vcf_file names (lines_of text)
                (Py.dict_of_items ((λ s, (s, ∅)) <$> names)) w) as Hout.
  destruct (keys_dict_of_names (∅ : gset Z) names []) as (Hnd & Hin & Heq).
  cbv zeta in Hnd, Hin, Heq. fold (Py.dict_of_items ((λ s, (s, (∅ : gset Z))) <$> names))
    in Hnd, Hin, Heq.
  destruct (forallb _ (lines_of text)).
  - destruct Hout as (d' & Hd' & Hkeys & _).
    destruct (V4.variant_rows _ _ _ _ w) as [w1 [d1|e]]; simpl in Hd'; [|done].
    injection Hd' as ->. simpl in Hrun.
    apply V4_sample_records_inv in Hrun.
    exists d'. split; [done|]. rewrite Hkeys.
    split; [apply Hnd; constructor|]. split.
    + intros s. rewrite Hin. split; [intros [H|H]; [by apply elem_of_nil in H|done]|by right].
    + split; [exact Heq|]. split; [exact Hrun|].
      rewrite <- Hkeys. by apply (sample_names_of_records lineage_references).
  - destruct (V4.variant_rows _ _ _ _ w) as [w1 [d1|e]]; simpl in Hout; [done|].
    simpl in Hrun. done.
Qed.

Lemma X4_joint_records_witness :
  ∃ records,
    (V4.process_joint_vcf "joint.vcf" V4.lineage_references joint_world).2 = Ok records ∧
    (λ r, Py.dict_get r "Sample_Name") <$> records = [Some "s1"; Some "s2"].
Proof.
  destruct ((V4.process_joint_vcf "joint.vcf" V4.lineage_references joint_world).2)
    as [records|e] eqn:Hrun; [|vm_compute in Hrun; discriminate].
  exists records. split; [reflexivity|].
  destruct (X4_joint_records "joint.vcf" V4.lineage_references joint_world joint_vcf
              records) as (sample_snps & _ & _ & _ & Hkeys & _ & Hnames).
  - reflexivity.
  - vm_compute. discriminate.
  - exact Hrun.
  - rewrite Hnames, Hkeys; [reflexivity|].
    apply (bool_decide_unpack _). vm_compute. exact I.
Defined.

(** ** The joint batch *)

Lemma process_joint_vcf_shape f C :
  ∀ w, ∃ msgs, (V4.process_joint_vcf f C w).1 = say msgs w.
Proof.
  intros w. destruct (files w !! f) as [t|] eqn:Hfile.
  - rewrite (process_joint_vcf_found _ _ _ _ Hfile).
    destruct (V4.find_header (lines_of t)) as [|h header]; [by eexists|].
    cbv zeta.
    destruct (variant_rows_shape f (drop 9 (h :: header)) (lines_of t)
                (Py.dict_of_items ((λ s, (s, ∅)) <$> drop 9 (h :: header))))
      as (msgs & r & Hrun).
    rewrite Hrun. exists msgs. by destruct r.
  - rewrite (process_joint_vcf_missing _ _ _ Hfile). by eexists.
Qed.

Lemma process_joint_vcf_local f C w w' :
  files w !! f = files w' !! f →
  (V4.process_joint_vcf f C w).2 = (V4.process_joint_vcf f C w').2.
Proof.
  intros Heq. destruct (files w !! f) as [t|] eqn:Hfile; symmetry in Heq.
  - rewrite (process_joint_vcf_found _ _ _ _ Hfile), (process_joint_vcf_found _ _ _ _ Heq).
    destruct (V4.find_header (lines_of t)) as [|h header]; [done|].
    cbv zeta.
    destruct (variant_rows_shape f (drop 9 (h :: header)) (lines_of t)
                (Py.dict_of_items ((λ s, (s, ∅)) <$> drop 9 (h :: header))))
      as (msgs & r & Hrun).
    rewrite !Hrun. by destruct r.
  - by rewrite (process_joint_vcf_missing _ _ _ Hfile), (process_joint_vcf_missing _ _ _ Heq).
Qed.

Lemma process_joint_vcf_named f C w rs :
  (V4.process_joint_vcf f C w).2 = Ok rs →
  Forall (λ r, is_Some (Py.dict_get r "Sample_Name")) rs.
Proof.
  destruct (files w !! f) as [t|] eqn:Hfile.
  - rewrite (process_joint_vcf_found _ _ _ _ Hfile).
    destruct (V4.find_header (lines_of t)) as [|h header]; [by intros [= <-]|].
    cbv zeta. destruct (V4.variant_rows _ _ _ _ w) as [w1 [d|e]]; [|done].
    simpl. intros Hrs%V4_sample_records_inv.
    induction Hrs as [|[s S] r d rs Hr _ IH]; constructor; [|exact IH].
    destruct (V4_sample_record_total C s S) as (r' & Hr' & Hname & _).
    simpl in Hr. assert (r' = r) as -> by congruence. by eexists.
  - rewrite (process_joint_vcf_missing _ _ _ Hfile). by intros [= <-].
Qed.

Lemma records_of_local w w' f : files w = files w' → records_of w f = records_of w' f.
Proof.
  intros Heq. unfold records_of.
  by rewrite (process_joint_vcf_local f V4.lineage_references w w') by (by rewrite Heq).
Qed.

Lemma records_of_named w f :
  Forall (λ r, is_Some (Py.dict_get r "Sample_Name")) (records_of w f).
Proof.
  unfold records_of.
  destruct ((V4.process_joint_vcf f V4.lineage_references w).2) as [rs|e] eqn:Hrun;
    [|constructor].
  by apply process_joint_vcf_named in Hrun.
Qed.

Lemma V4_batch_cons f rest acc w :
  V4.batch (f :: rest) acc w =
  match V4.process_joint_vcf f V4.lineage_references
          (say [Line ("Processing " +:+ f +:+ " ...")] w) with
  | (w1, Ok []) => V4.batch rest acc w1
  | (w1, Ok results) => V4.batch rest (acc ++ results) w1
  | (w1, Raise e) => V4.batch rest acc (say [ErrorLine f e] w1)
  end.
Proof.
  cbn [V4.batch]. unfold mbind, io_bind, print, emit, try_except.
  fold (say [Line ("Processing " +:+ f +:+ " ...")] w).
  destruct (V4.process_joint_vcf f V4.lineage_references _) as [w1 [[|r rs]|e]]; done.
Qed.

Lemma V4_batch_spec fs : ∀ acc w,
  ∃ msgs, V4.batch fs acc w = (say msgs w, Ok (acc ++ concat (records_of w <$> fs))).
Proof.
  induction fs as [|f rest IH]; intros acc w.
  - exists []. rewrite say_nil. simpl. by rewrite app_nil_r.
  - rewrite V4_batch_cons. set (w0 := say [Line ("Processing " +:+ f +:+ " ...")] w).
    destruct (process_joint_vcf_shape f V4.lineage_references w0) as (m1 & Hw1).
    assert (records_of w f = records_of w0 f) as Hrec by (by apply records_of_local).
    cbn [fmap list_fmap concat]. rewrite Hrec. unfold records_of at 1.
    destruct (V4.process_joint_vcf f V4.lineage_references w0) as [w1 r].
    simpl in Hw1. subst w1. cbn [snd].
    assert (∀ w', files w' = files w → records_of w' <$> rest = records_of w <$> rest)
      as Hrest.
    { intros w' Hw'. apply list_fmap_ext. intros _ f' _. by apply records_of_local. }
    destruct r as [[|r rs]|e].
    + destruct (IH acc (say m1 w0)) as (m2 & ->).
      exists ([Line ("Processing " +:+ f +:+ " ...")] ++ m1 ++ m2).
      unfold w0. rewrite !say_say, Hrest by reflexivity. by rewrite <- ?app_assoc.
    + destruct (IH (acc ++ r :: rs) (say m1 w0)) as (m2 & ->).
      exists ([Line ("Processing " +:+ f +:+ " ...")] ++ m1 ++ m2).
      unfold w0. rewrite !say_say, Hrest by reflexivity. by rewrite <- ?app_assoc.
    + destruct (IH acc (say [ErrorLine f e] (say m1 w0))) as (m2 & ->).
      exists ([Line ("Processing " +:+ f +:+ " ...")] ++ m1 ++ [ErrorLine f e] ++ m2).
      unfold w0. rewrite !say_say, Hrest by reflexivity. by rewrite <- ?app_assoc.
Qed.

(** X5. The records of a joint batch are the records of its files, in
    the order of the files, each file giving what it gives on its own: a
    file that raises or gives nothing contributes no record and changes
    nothing for the other files.  The loop itself never raises and only
    prints. *)
Theorem X5_joint_batch_by_file
    (vcf_files : list string) (all_results : list (dict string)) (w : world) :
  ∃ msgs,
    V4.batch vcf_files all_results w =
      (say msgs w, Ok (all_results ++ concat (records_of w <$> vcf_files))).
Proof. apply V4_batch_spec. Qed.

Lemma frame_empty_named rs :
  rs ≠ [] → Forall (λ r, is_Some (Py.dict_get r "Sample_Name")) rs →
  V4.frame_empty rs = false.
Proof.
  destruct rs as [|r rs]; [done|]. intros _ Hall. apply Forall_cons in Hall as [[v Hr] _].
  unfold V4.frame_empty. cbn [forallb]. rewrite bool_decide_eq_false_2; [done|].
  by intros ->.
Qed.

Lemma concat_records_named w fs :
  Forall (λ r, is_Some (Py.dict_get r "Sample_Name")) (concat (records_of w <$> fs)).
Proof.
  induction fs as [|f rest IH]; [constructor|]. cbn [fmap list_fmap concat].
  apply Forall_app. split; [apply records_of_named|exact IH].
Qed.

(** X6. The loop over the files followed by the saving step (V4 lines
    140-161), run from the world [w].  The combined table is written
    exactly when the batch gives at least one record, and then holds all
    the records of the batch, file after file; the last line printed is
    "Combined results saved to ..." in that case and "No results to
    save." when there is no record.  The branch that prints "No valid
    data to write to file." is never taken.  The table is the one of
    [write_table], kept apart from the text files: nothing is said here
    of the text files, nor of the check of the output directory that
    comes before the loop. *)
Theorem X6_joint_save_outcome (vcf_files : list string) (output_dir : string) (w : world) :
  let records := concat (records_of w <$> vcf_files) in
  let combined_file := path_join output_dir V4.combined_name in
  let w' := ((V4.batch vcf_files [] ≫= V4.save output_dir) w).1 in
  tables w' =
    match records with
    | [] => tables w
    | _ => tables w ++ [(combined_file, records)]
    end ∧
  ∃ msgs,
    stdout w' =
      stdout w ++ msgs ++
        [match records with
         | [] => Line "No results to save."
         | _ => Line (nl +:+ "Combined results saved to " +:+ combined_file)
         end].
Proof.
  cbv zeta. destruct (V4_batch_spec vcf_files [] w) as (msgs & Hrun).
  unfold mbind, io_bind. rewrite Hrun. cbn [app].
  pose proof (concat_records_named w vcf_files) as Hnamed.
  destruct (concat (records_of w <$> vcf_files)) as [|r rs] eqn:Hrec.
  - split; [reflexivity|]. exists msgs.
    unfold V4.save, print, emit, say. cbn [fst files stdout tables].
    by rewrite <- app_assoc.
  - unfold V4.save. rewrite (frame_empty_named (r :: rs)) by done.
    unfold mbind, io_bind, write_table, print, emit, say.
    cbn [fst files stdout tables]. split; [reflexivity|]. exists msgs.
    by rewrite <- app_assoc.
Qed.

(** ** The record of a sample *)

Lemma dict_get_app_l {V} (d1 d2 : dict V) k :
  k ∈ Py.keys d1 → Py.dict_get (d1 ++ d2) k = Py.dict_get d1 k.
Proof.
  unfold Py.keys. induction d1 as [|[k0 v0] d1 IH]; simpl; intros Hin.
  - by apply elem_of_nil in Hin.
  - destruct (decide (k = k0)) as [->|Hne]; [done|].
    apply IH. by apply elem_of_cons in Hin as [?|?].
Qed.

Lemma dict_set_two_fresh {V} (d : dict V) k1 v1 k2 v2 :
  k1 ∉ Py.keys d → k2 ∉ Py.keys d → k1 ≠ k2 →
  Py.dict_set k2 v2 (Py.dict_set k1 v1 d) = d ++ [(k1, v1); (k2, v2)].
Proof.
  intros H1 H2 Hne. rewrite (dict_set_fresh d) by done.
  rewrite dict_set_fresh.
  - by rewrite <- app_assoc.
  - rewrite keys_app. intros [Hin|Hin]%elem_of_app; [done|].
    apply list_elem_of_singleton in Hin. by destruct Hne.
Qed.

Lemma max_values_nonempty (scores : dict N) :
  scores ≠ [] → ∃ m, Py.max (Py.values (as_percentages scores)) = Ok m.
Proof.
  intros Hne. apply max_by_nonempty. by destruct scores.
Qed.

Lemma V1_predicted_total (scores : dict N) :
  scores ≠ [] → ∃ label, V1.predicted_lineage (render_scores scores) = Ok label.
Proof.
  intros Hne. destruct (max_values_nonempty scores Hne) as (m & Hm).
  destruct (V1_best_match scores m Hm) as (label & Hlabel & _). by exists label.
Qed.

Lemma V4_record_layout (C : dict (gset Z)) (sample : string) (snps : gset Z) :
  NoDup (Py.keys C) → "Sample_Name" ∉ Py.keys C → "Predicted_lineage" ∉ Py.keys C →
  ∃ lp label,
    V4.score_loop C snps [] = Ok lp ∧
    V4.predicted_lineage lp = Ok label ∧
    V4.sample_record C sample snps =
      Ok (lp ++ [("Sample_Name", sample); ("Predicted_lineage", label)]) ∧
    Py.keys lp = Py.keys C ∧
    ∀ l M, (l, M) ∈ C →
      ∃ q, V4.probability M snps = Ok q ∧ Py.dict_get lp l = Some (Fmt.percent q).
Proof.
  intros Hnd Hname Hpred.
  pose proof (V4_score_loop_eq C snps Hnd) as Hrun.
  set (scores := score_table (λ M, guarded_ratio M snps) C) in *.
  assert (Py.keys (render_scores scores) = Py.keys C) as Hkeys
    by (unfold scores; by rewrite keys_render, keys_score_table).
  destruct (V4_predicted_total scores) as (label & Hlabel).
  exists (render_scores scores), label.
  split; [exact Hrun|]. split; [exact Hlabel|]. split; [|split; [exact Hkeys|]].
  - unfold V4.sample_record. rewrite Hrun. cbn [mbind result_bind]. rewrite Hlabel.
    cbn [mbind result_bind]. f_equal.
    apply dict_set_two_fresh; [by rewrite Hkeys|by rewrite Hkeys|done].
  - intros l M Hin. exists (guarded_ratio M snps). split; [apply V4_probability_eq|].
    apply dict_get_elem; [by rewrite Hkeys|]. rewrite percent_guarded.
    unfold render_scores, scores, score_table. rewrite <- list_fmap_compose.
    apply list_elem_of_fmap. by exists (l, M).
Qed.

Lemma V1_record_layout (C : dict (gset Z)) (sample : string) (snps : gset Z) :
  NoDup (Py.keys C) → "Sample_Name" ∉ Py.keys C → "Predicted_lineage" ∉ Py.keys C →
  C ≠ [] → (∀ l M, (l, M) ∈ C → M ≠ ∅) →
  ∃ lp label,
    V1.score_loop C snps [] = Ok lp ∧
    V1.predicted_lineage lp = Ok label ∧
    V1.sample_record C sample snps =
      Ok (lp ++ [("Predicted_lineage", label); ("Sample_Name", sample)]) ∧
    Py.keys lp = Py.keys C ∧
    ∀ l M, (l, M) ∈ C →
      ∃ q, Single.probability M snps = Ok q ∧ Py.dict_get lp l = Some (Fmt.percent q).
Proof.
  intros Hnd Hname Hpred Hne Hsets.
  assert (∀ l M, (l, M) ∈ C → size M ≠ 0) as Hsize.
  { intros l M Hin Hz. apply size_zero_empty in Hz. by apply (Hsets l M). }
  pose proof (V1_score_loop_acc C snps [] Hnd Hsize) as Hrun. cbn [app] in Hrun.
  set (scores := score_table (λ M, ratio M snps) C) in *.
  assert (Py.keys (render_scores scores) = Py.keys C) as Hkeys
    by (unfold scores; by rewrite keys_render, keys_score_table).
  destruct (V1_predicted_total scores) as (label & Hlabel).
  { unfold scores, score_table. by destruct C. }
  exists (render_scores scores), label.
  split; [exact Hrun|]. split; [exact Hlabel|]. split; [|split; [exact Hkeys|]].
  - unfold V1.sample_record. rewrite Hrun. cbn [mbind result_bind]. rewrite Hlabel.
    cbn [mbind result_bind]. f_equal.
    apply dict_set_two_fresh; [by rewrite Hkeys|by rewrite Hkeys|done].
  - intros l M Hin. exists (ratio M snps). split.
    { rewrite Single_probability_eq. by rewrite decide_False by (by apply (Hsize l)). }
    apply dict_get_elem; [by rewrite Hkeys|]. rewrite percent_ratio.
    unfold render_scores, scores, score_table. rewrite <- list_fmap_compose.
    apply list_elem_of_fmap. by exists (l, M).
Qed.

(** X7. The layout of a record.  When the catalog has no lineage called
    "Sample_Name" or "Predicted_lineage", the record of V4 is the
    per-lineage percentages in catalog order, then "Sample_Name", then
    "Predicted_lineage"; the record of V1 (non-empty catalog, no empty
    marker set) ends with "Predicted_lineage", then "Sample_Name".  Under
    each lineage is the two-decimal percentage of its score. *)
Theorem X7_record_layout
    (lineage_references : dict (gset Z)) (sample : string) (snps : gset Z) :
  NoDup (Py.keys lineage_references) →
  "Sample_Name" ∉ Py.keys lineage_references →
  "Predicted_lineage" ∉ Py.keys lineage_references →
  (∃ lineage_probabilities label,
     V4.score_loop lineage_references snps [] = Ok lineage_probabilities ∧
     V4.predicted_lineage lineage_probabilities = Ok label ∧
     V4.sample_record lineage_references sample snps =
       Ok (lineage_probabilities ++
             [("Sample_Name", sample); ("Predicted_lineage", label)]) ∧
     Py.keys lineage_probabilities = Py.keys lineage_references ∧
     ∀ lineage snp_set, (lineage, snp_set) ∈ lineage_references →
       ∃ q, V4.probability snp_set snps = Ok q ∧
            Py.dict_get lineage_probabilities lineage = Some (Fmt.percent q)) ∧
  (lineage_references ≠ [] →
   (∀ lineage snp_set, (lineage, snp_set) ∈ lineage_references → snp_set ≠ ∅) →
   ∃ lineage_probabilities label,
     V1.score_loop lineage_references snps [] = Ok lineage_probabilities ∧
     V1.predicted_lineage lineage_probabilities = Ok label ∧
     V1.sample_record lineage_references sample snps =
       Ok (lineage_probabilities ++
             [("Predicted_lineage", label); ("Sample_Name", sample)]) ∧
     Py.keys lineage_probabilities = Py.keys lineage_references ∧
     ∀ lineage snp_set, (lineage, snp_set) ∈ lineage_references →
       ∃ q, Single.probability snp_set snps = Ok q ∧
            Py.dict_get lineage_probabilities lineage = Some (Fmt.percent q)).
Proof.
  intros Hnd Hname Hpred. split.
  - by apply V4_record_layout.
  - intros Hne Hsets. by apply V1_record_layout.
Qed.

Lemma X7_record_layout_witness :
  ∃ lp4 label4 lp1 label1,
    V4.sample_record V4.lineage_references "s" only_in_V1 =
      Ok (lp4 ++ [("Sample_Name", "s"); ("Predicted_lineage", label4)]) ∧
    Py.keys lp4 = Py.keys V4.lineage_references ∧
    V1.sample_record V1.lineage_references "s" only_in_V1 =
      Ok (lp1 ++ [("Predicted_lineage", label1); ("Sample_Name", "s")]) ∧
    Py.keys lp1 = Py.keys V1.lineage_references.
Proof.
  destruct (X7_record_layout V4.lineage_references "s" only_in_V1)
    as [(lp4 & label4 & _ & _ & Hr4 & Hk4 & _) _].
  { apply (bool_decide_unpack _). vm_compute. exact I. }
  { apply (bool_decide_unpack _). vm_compute. exact I. }
  { apply (bool_decide_unpack _). vm_compute. exact I. }
  destruct (X7_record_layout V1.lineage_references "s" only_in_V1)
    as [_ H1].
  { apply (bool_decide_unpack _). vm_compute. exact I. }
  { apply (bool_decide_unpack _). vm_compute. exact I. }
  { apply (bool_decide_unpack _). vm_compute. exact I. }
  destruct H1 as (lp1 & label1 & _ & _ & Hr1 & Hk1 & _).
  { apply (bool_decide_unpack _). vm_compute. exact I. }
  { assert (Hall : Forall (λ kv : string * gset Z, kv.2 ≠ ∅) V1.lineage_references)
      by (apply (bool_decide_unpack _); vm_compute; exact I).
    intros l M Hin. rewrite Forall_forall in Hall. apply (Hall _ Hin). }
  exists lp4, label4, lp1, label1.
  split; [exact Hr4|]. split; [exact Hk4|]. split; [exact Hr1|exact Hk1].
Defined.

(** ** Single-sample extraction *)

Lemma position_fields_omap lines :
  Single.position_fields lines =
  omap (λ line, if Py.startswith line "#" then None
                else Py.split tab (Py.strip line) !! 1) lines.
Proof.
  induction lines as [|line rest IH]; [done|]. cbn [Single.position_fields omap list_omap].
  destruct (Py.startswith line "#"); [exact IH|].
  destruct (Py.split tab (Py.strip line) !! 1); by rewrite IH.
Qed.

Lemma position_fields_nil lines :
  Single.position_fields lines = [] ↔ forallb without_position lines = true.
Proof.
  induction lines as [|line rest IH]; [done|].
  cbn [Single.position_fields forallb]. unfold without_position at 1.
  destruct (Py.startswith line "#"); cbn [orb andb]; [exact IH|].
  destruct (Py.split tab (Py.strip line) !! 1) as [p|] eqn:Hp.
  - apply lookup_lt_Some in Hp. split; [done|].
    intros [Hlen _]%andb_true_iff. apply Nat.leb_le in Hlen. lia.
  - apply lookup_ge_None in Hp. rewrite IH.
    rewrite (proj2 (Nat.leb_le _ _)) by lia. done.
Qed.

Lemma extract_snp_positions_missing vcf_file output_txt w :
  files w !! vcf_file = None →
  Single.extract_snp_positions vcf_file output_txt w =
    (say [Line ("File not found: " +:+ vcf_file)] w, Ok None).
Proof.
  intros Hfile. unfold Single.extract_snp_positions, mbind, io_bind, path_exists.
  rewrite Hfile. rewrite bool_decide_eq_false_2 by (by intros [? ?]). reflexivity.
Qed.

Lemma extract_snp_positions_without_rows vcf_file output_txt text w :
  files w !! vcf_file = Some text →
  Single.position_fields (lines_of text) = [] →
  Single.extract_snp_positions vcf_file output_txt w =
    (say [Line ("No SNPs found in " +:+ vcf_file)] w, Ok None).
Proof.
  intros Hfile Hnil. unfold Single.extract_snp_positions, mbind, io_bind, path_exists.
  rewrite Hfile. rewrite bool_decide_eq_true_2 by (by eexists). cbn [negb].
  unfold read_lines. rewrite Hfile. cbn [default from_option id]. rewrite Hnil.
  reflexivity.
Qed.

Lemma sample_variants_without_file rc vcf_file msg w :
  Single.extract_snp_positions vcf_file (snp_file_of vcf_file) w =
    (say [msg] w, Ok None) →
  Single.sample_variants rc vcf_file w = (say [msg; skipped vcf_file] w, Ok None).
Proof.
  intros Hx. unfold Single.sample_variants, mbind, io_bind.
  fold (snp_file_of vcf_file). rewrite Hx.
  change (say [msg; skipped vcf_file] w) with (say ([msg] ++ [skipped vcf_file]) w).
  rewrite <- say_say. reflexivity.
Qed.

Lemma V1_process_vcf_none rc vcf_file C w w1 :
  Single.sample_variants rc vcf_file w = (w1, Ok None) →
  V1.process_vcf rc vcf_file C w = (w1, Ok None).
Proof. intros H. unfold V1.process_vcf, mbind, io_bind. by rewrite H. Qed.

Lemma V5_process_vcf_none rc vcf_file out C w w1 :
  Single.sample_variants rc vcf_file w = (w1, Ok None) →
  V5.process_vcf rc vcf_file out C w = (w1, Ok None).
Proof. intros H. unfold V5.process_vcf, mbind, io_bind. by rewrite H. Qed.

(** X8. Single-sample extraction, case by case (V1 and V5).  For a
    missing file, and for a file where every line is a comment or has a
    single column, [process_vcf] prints two lines, returns None and
    writes nothing, whatever the reader is.  Otherwise
    [extract_snp_positions] writes the position file: the second column
    of every data line that has one, in file order, one per line. *)
Theorem X8_single_extraction_outcome
    (read_column0 : string → result (list string))
    (vcf_file output_dir : string) (lineage_references : dict (gset Z)) (w : world) :
  match files w !! vcf_file with
  | None =>
      V1.process_vcf read_column0 vcf_file lineage_references w =
        (say [Line ("File not found: " +:+ vcf_file); skipped vcf_file] w, Ok None) ∧
      V5.process_vcf read_column0 vcf_file output_dir lineage_references w =
        (say [Line ("File not found: " +:+ vcf_file); skipped vcf_file] w, Ok None)
  | Some text =>
      if forallb without_position (lines_of text) then
        V1.process_vcf read_column0 vcf_file lineage_references w =
          (say [Line ("No SNPs found in " +:+ vcf_file); skipped vcf_file] w, Ok None) ∧
        V5.process_vcf read_column0 vcf_file output_dir lineage_references w =
          (say [Line ("No SNPs found in " +:+ vcf_file); skipped vcf_file] w, Ok None)
      else
        let positions :=
          omap (λ line, if Py.startswith line "#" then None
                        else Py.split tab (Py.strip line) !! 1) (lines_of text) in
        Single.extract_snp_positions vcf_file (snp_file_of vcf_file) w =
          (World (<[snp_file_of vcf_file := Py.join nl positions]> (files w))
                 (stdout w) (tables w),
           Ok (Some (snp_file_of vcf_file)))
  end.
Proof.
  destruct (files w !! vcf_file) as [text|] eqn:Hfile.
  - destruct (forallb without_position (lines_of text)) eqn:Hrows.
    + apply position_fields_nil in Hrows.
      pose proof (sample_variants_without_file read_column0 vcf_file _ w
                    (extract_snp_positions_without_rows _ _ _ _ Hfile Hrows)) as Hv.
      split; [by apply V1_process_vcf_none|by apply V5_process_vcf_none].
    + cbv zeta. rewrite <- position_fields_omap.
      apply extract_snp_positions_found; [done|].
      intros Hnil%position_fields_nil. congruence.
  - pose proof (sample_variants_without_file read_column0 vcf_file _ w
                  (extract_snp_positions_missing _ _ _ Hfile)) as Hv.
    split; [by apply V1_process_vcf_none|by apply V5_process_vcf_none].
Qed.

(** X9. The single-sample extraction when every position is a number:
    the position file is written in the working directory under the
    sample's name, the sample's variant set is the set of the numbers the
    reader gives, whatever their order and repetitions, and V1's record
    is the record of that set under the sample's name. *)
Theorem X9_single_extraction
    (read_column0 : string → result (list string))
    (vcf_file text : string) (column : list string) (zs : list Z) (w : world) :
  files w !! vcf_file = Some text →
  Single.position_fields (lines_of text) ≠ [] →
  read_column0 (Py.join nl (Single.position_fields (lines_of text))) = Ok column →
  column ≠ [] →
  mapM Py.int column = Ok zs →
  let sample_name := Py.splitext_root (Py.basename vcf_file) in
  let w1 :=
    World (<[sample_name +:+ "_snp.txt" :=
               Py.join nl (Single.position_fields (lines_of text))]> (files w))
          (stdout w) (tables w) in
  Single.sample_variants read_column0 vcf_file w = (w1, Ok (Some (list_to_set zs))) ∧
  ∀ lineage_references,
    V1.process_vcf read_column0 vcf_file lineage_references w =
      (w1, Some <$> V1.sample_record lineage_references sample_name (list_to_set zs)).
Proof.
  intros Hfile Hpos Hread Hcol Hint. cbv zeta.
  pose proof (sample_variants_found read_column0 vcf_file text column zs w
                Hfile Hpos Hread Hcol Hint) as Hv.
  split; [exact Hv|]. intros C. unfold V1.process_vcf, mbind, io_bind. rewrite Hv.
  unfold lift. by destruct (V1.sample_record C _ _).
Qed.

Lemma X9_single_extraction_witness :
  Single.sample_variants plain_reader "isolate7.vcf" lineage3_world =
    (World (<["isolate7_snp.txt" := Py.join nl ["24007"; "633562"; "2840999"; "3582694"]]>
              (files lineage3_world)) [] [],
     Ok (Some (list_to_set [24007; 633562; 2840999; 3582694]%Z))).
Proof.
  destruct (X9_single_extraction plain_reader "isolate7.vcf" lineage3_vcf
              ["24007"; "633562"; "2840999"; "3582694"]
              [24007; 633562; 2840999; 3582694]%Z lineage3_world) as [Hv _].
  - reflexivity.
  - vm_compute. discriminate.
  - reflexivity.
  - discriminate.
  - reflexivity.
  - exact Hv.
Defined.

(** ** Ties in the best-match policy *)

Section FirstMax.
Context {A : Type} (key : A → Q).

Lemma max_from_first l : ∀ best,
  ∃ pre post,
    best :: l = pre ++ Py.max_from key best l :: post ∧
    (∀ y, y ∈ pre → (key y < key (Py.max_from key best l))%Q) ∧
    (∀ y, y ∈ post → (key y <= key (Py.max_from key best l))%Q).
Proof.
  induction l as [|x l IH]; intros best; cbn [Py.max_from].
  - exists [], []. split; [done|]. split; intros y Hy; by apply elem_of_nil in Hy.
  - destruct (Py.Qltb (key best) (key x)) eqn:E.
    + apply Qltb_true in E. destruct (IH x) as (pre & post & Heq & Hpre & Hpost).
      exists (best :: pre), post. split; [simpl; by f_equal|]. split; [|exact Hpost].
      intros y [->|Hy]%elem_of_cons; [|by apply Hpre].
      destruct pre as [|p pre'].
      * simpl in Heq. injection Heq as <- _. exact E.
      * simpl in Heq. injection Heq as <- _.
        eapply Qlt_trans; [exact E|]. apply Hpre. by left.
    + apply Qltb_false in E. destruct (IH best) as (pre & post & Heq & Hpre & Hpost).
      destruct pre as [|p pre'].
      * simpl in Heq. injection Heq as Hr Hl.
        exists [], (x :: l). split; [simpl; by rewrite <- Hr|].
        split; [intros y Hy; by apply elem_of_nil in Hy|].
        intros y [->|Hy]%elem_of_cons; [by rewrite <- Hr|].
        apply Hpost. by rewrite <- Hl.
      * simpl in Heq. injection Heq as <- Hl.
        exists (best :: x :: pre'), post. split; [simpl; do 2 f_equal; exact Hl|].
        split; [|exact Hpost].
        intros y [->|[->|Hy]%elem_of_cons]%elem_of_cons.
        -- apply Hpre. by left.
        -- eapply Qle_lt_trans; [exact E|]. apply Hpre. by left.
        -- apply Hpre. by right.
Qed.

Lemma max_by_first l x :
  Py.max_by key l = Ok x →
  ∃ pre post,
    l = pre ++ x :: post ∧
    (∀ y, y ∈ pre → (key y < key x)%Q) ∧ (∀ y, y ∈ post → (key y <= key x)%Q).
Proof.
  destruct l as [|a l]; [done|]. intros [= <-]. apply max_from_first.
Qed.

End FirstMax.

Lemma hundredths_lt (h h' : N) : (Z.of_N h # 100 < Z.of_N h' # 100)%Q ↔ (h < h')%N.
Proof. unfold Qlt. simpl. lia. Qed.

Lemma V5_first_best (lp : dict Q) (m : Q) :
  NoDup (Py.keys lp) → Py.max (Py.values lp) = Ok m → ¬ (m == 0)%Q →
  ∃ label q before after,
    V5.predicted_lineage lp = Ok label ∧
    lp = before ++ (label, q) :: after ∧
    (∀ l' q', (l', q') ∈ before → (q' < q)%Q) ∧
    (∀ l' q', (l', q') ∈ after → (q' <= q)%Q).
Proof.
  intros Hnd Hm Hm0.
  destruct (max_by_nonempty (V5.get_score lp) (Py.keys lp)) as [label Hlabel].
  { by destruct lp. }
  destruct (max_by_first _ _ _ Hlabel) as (kpre & kpost & Hkeys & Hpre & Hpost).
  unfold Py.keys in Hkeys.
  apply fmap_app_inv in Hkeys as (before & rest & -> & Hrest & Hlp).
  symmetry in Hrest. apply fmap_cons_inv in Hrest as ([l q] & after & Hl & -> & ->).
  cbn [fst] in Hl. subst l.
  assert (V5.get_score lp label = q) as Hq.
  { apply get_score_elem; [done|]. rewrite Hlp. apply elem_of_app. right. by left. }
  exists label, q, before, after.
  split; [|split; [exact Hlp|split]].
  - unfold V5.predicted_lineage. rewrite Hm. cbn [mbind result_bind].
    destruct (Qeq_bool m 0) eqn:E; [|exact Hlabel].
    apply Qeq_bool_iff in E. by destruct Hm0.
  - intros l' q' Hin. rewrite <- Hq.
    rewrite <- (get_score_elem lp l' q' Hnd)
      by (rewrite Hlp; apply elem_of_app; by left).
    apply Hpre. apply list_elem_of_fmap. by exists (l', q').
  - intros l' q' Hin. rewrite <- Hq.
    rewrite <- (get_score_elem lp l' q' Hnd)
      by (rewrite Hlp; apply elem_of_app; right; by right).
    apply Hpost. apply list_elem_of_fmap. by exists (l', q').
Qed.

Lemma V1_first_best (scores : dict N) (m : Q) :
  Py.max (Py.values (as_percentages scores)) = Ok m → ¬ (m == 0)%Q →
  ∃ label h before after,
    V1.predicted_lineage (render_scores scores) = Ok label ∧
    scores = before ++ (label, h) :: after ∧
    (∀ l' h', (l', h') ∈ before → (h' < h)%N) ∧
    (∀ l' h', (l', h') ∈ after → (h' ≤ h)%N).
Proof.
  intros Hm Hm0.
  destruct (max_by_nonempty snd (as_percentages scores)) as [[l0 q0] Hbest].
  { by destruct scores. }
  destruct (max_by_first _ _ _ Hbest) as (ppre & ppost & Hdec & Hpre & Hpost).
  unfold as_percentages in Hdec.
  apply fmap_app_inv in Hdec as (before & rest & -> & Hrest & Hsc).
  symmetry in Hrest. apply fmap_cons_inv in Hrest as ([l h] & after & Hl & -> & ->).
  cbn [fst snd] in Hl. injection Hl as -> ->.
  exists l, h, before, after.
  split; [|split; [exact Hsc|split]].
  - unfold V1.predicted_lineage. rewrite parsed_render. cbn [mbind result_bind].
    rewrite Hm. cbn [mbind result_bind].
    destruct (Qeq_bool m 0) eqn:E.
    { apply Qeq_bool_iff in E. by destruct Hm0. }
    fold (as_percentages scores). by rewrite Hbest.
  - intros l' h' Hin. apply hundredths_lt.
    apply (Hpre (l', Z.of_N h' # 100)). apply list_elem_of_fmap. by exists (l', h').
  - intros l' h' Hin. apply hundredths_le.
    apply (Hpost (l', Z.of_N h' # 100)). apply list_elem_of_fmap. by exists (l', h').
Qed.

(** X10. Ties in the best-match policy.  When the maximum is not 0 the
    label is the first lineage, in the order of the mapping, that reaches
    it: every lineage before it has a strictly lower score, every lineage
    after it a lower or equal one (V5 on the numbers, V1 on the stored
    two-decimal percentages). *)
Theorem X10_best_match_ties :
  (∀ (lineage_probabilities : dict Q) (m : Q),
     NoDup (Py.keys lineage_probabilities) →
     Py.max (Py.values lineage_probabilities) = Ok m → ¬ (m == 0)%Q →
     ∃ label q before after,
       V5.predicted_lineage lineage_probabilities = Ok label ∧
       lineage_probabilities = before ++ (label, q) :: after ∧
       (∀ l' q', (l', q') ∈ before → (q' < q)%Q) ∧
       (∀ l' q', (l', q') ∈ after → (q' <= q)%Q)) ∧
  (∀ (scores : dict N) (m : Q),
     Py.max (Py.values (as_percentages scores)) = Ok m → ¬ (m == 0)%Q →
     ∃ label h before after,
       V1.predicted_lineage (render_scores scores) = Ok label ∧
       scores = before ++ (label, h) :: after ∧
       (∀ l' h', (l', h') ∈ before → (h' < h)%N) ∧
       (∀ l' h', (l', h') ∈ after → (h' ≤ h)%N)).
Proof. split; [apply V5_first_best|apply V1_first_best]. Qed.

Lemma X10_best_match_ties_witness :
  (∃ label q before after,
     V5.predicted_lineage tied_V5 = Ok label ∧
     tied_V5 = before ++ (label, q) :: after ∧
     (∀ l' q', (l', q') ∈ before → (q' < q)%Q) ∧
     (∀ l' q', (l', q') ∈ after → (q' <= q)%Q)) ∧
  V5.predicted_lineage tied_V5 = Ok "lineage2" ∧
  (∃ label h before after,
     V1.predicted_lineage (render_scores tied_V1) = Ok label ∧
     tied_V1 = before ++ (label, h) :: after ∧
     (∀ l' h', (l', h') ∈ before → (h' < h)%N) ∧
     (∀ l' h', (l', h') ∈ after → (h' ≤ h)%N)) ∧
  V1.predicted_lineage (render_scores tied_V1) = Ok "lineage2".
Proof.
  destruct X10_best_match_ties as [H5 H1].
  split; [|split; [reflexivity|split; [|reflexivity]]].
  - apply (H5 tied_V5 75%Q); [|reflexivity|discriminate].
    apply (bool_decide_unpack _). vm_compute. exact I.
  - apply (H1 tied_V1 (7500 # 100)%Q); [reflexivity|discriminate].
Defined.

(** ** Lineages with the markers of an earlier lineage *)

Lemma split_at_key {V} (p1 : dict V) : ∀ p2 s1 s2 k v1 v2,
  NoDup (Py.keys (p1 ++ (k, v1) :: s1)) →
  p1 ++ (k, v1) :: s1 = p2 ++ (k, v2) :: s2 →
  p1 = p2 ∧ v1 = v2 ∧ s1 = s2.
Proof.
  unfold Py.keys.
  induction p1 as [|[k1 x1] p1 IH]; intros [|[k2 x2] p2] s1 s2 k v1 v2 Hnd Heq;
    simpl in *.
  - by injection Heq as <- <-.
  - injection Heq as <- <- ->. apply NoDup_cons in Hnd as [Hfresh _].
    destruct Hfresh. rewrite fmap_app. apply elem_of_app. right. by left.
  - injection Heq as -> -> <-. apply NoDup_cons in Hnd as [Hfresh _].
    destruct Hfresh. rewrite fmap_app. apply elem_of_app. right. by left.
  - injection Heq as <- <- Heq. apply NoDup_cons in Hnd as [_ Hnd].
    destruct (IH p2 s1 s2 k v1 v2 Hnd Heq) as (-> & -> & ->). done.
Qed.

Lemma keys_raw_table f C : Py.keys (raw_table f C) = Py.keys C.
Proof. unfold Py.keys, raw_table. by rewrite <- list_fmap_compose. Qed.

Lemma V5_shadowed (C c1 c2 c3 : dict (gset Z)) (l1 l2 : string) (M S : gset Z) :
  C = c1 ++ (l1, M) :: c2 ++ (l2, M) :: c3 →
  NoDup (Py.keys C) →
  (∀ l M, (l, M) ∈ C → M ≠ ∅) →
  l2 ≠ "unknown lineage" →
  ∃ lp label,
    V5.score_loop C S [] = Ok lp ∧ V5.predicted_lineage lp = Ok label ∧ label ≠ l2.
Proof.
  intros HC Hnd Hsets Hl2.
  assert (∀ l M, (l, M) ∈ C → size M ≠ 0) as Hsize.
  { intros l M' Hin Hz. apply size_zero_empty in Hz. by apply (Hsets l M'). }
  pose proof (V5_score_loop_acc C S [] Hnd Hsize) as Hrun. cbn [app] in Hrun.
  set (f := λ M : gset Z, ratio M S) in *.
  assert (raw_table f C =
          (raw_table f c1 ++ (l1, f M) :: raw_table f c2) ++ (l2, f M) :: raw_table f c3)
    as Hlp.
  { rewrite HC. unfold raw_table. rewrite !fmap_app, !fmap_cons, fmap_app, fmap_cons.
    by rewrite <- app_assoc. }
  assert (NoDup (Py.keys (raw_table f C))) as Hnd' by (by rewrite keys_raw_table).
  exists (raw_table f C).
  destruct (max_by_nonempty id (Py.values (raw_table f C))) as [m Hm].
  { rewrite Hlp. unfold Py.values. rewrite fmap_app. by destruct (_.*2). }
  destruct (Qeq_bool m 0) eqn:E.
  - exists "unknown lineage". split; [exact Hrun|]. split; [|done].
    unfold V5.predicted_lineage. fold (Py.max (Py.values (raw_table f C))) in Hm.
    rewrite Hm. cbn [mbind result_bind]. by rewrite E.
  - destruct (V5_first_best (raw_table f C) m Hnd' Hm)
      as (label & q & before & after & Hlabel & Hdec & Hbefore & _).
    { intros Hm0. apply Qeq_bool_iff in Hm0. congruence. }
    exists label. split; [exact Hrun|]. split; [exact Hlabel|]. intros ->.
    rewrite Hlp in Hdec. rewrite Hlp in Hnd'.
    destruct (split_at_key _ _ _ _ _ _ _ Hnd' Hdec) as (<- & <- & _).
    apply (Qlt_irrefl (f M)). apply (Hbefore l1). apply elem_of_app. right. by left.
Qed.

Lemma V1_shadowed (C c1 c2 c3 : dict (gset Z)) (l1 l2 : string) (M S : gset Z) :
  C = c1 ++ (l1, M) :: c2 ++ (l2, M) :: c3 →
  NoDup (Py.keys C) →
  (∀ l M, (l, M) ∈ C → M ≠ ∅) →
  l2 ≠ "unknown_lineage" →
  ∃ lp label,
    V1.score_loop C S [] = Ok lp ∧ V1.predicted_lineage lp = Ok label ∧ label ≠ l2.
Proof.
  intros HC Hnd Hsets Hl2.
  assert (∀ l M, (l, M) ∈ C → size M ≠ 0) as Hsize.
  { intros l M' Hin Hz. apply size_zero_empty in Hz. by apply (Hsets l M'). }
  pose proof (V1_score_loop_acc C S [] Hnd Hsize) as Hrun. cbn [app] in Hrun.
  set (f := λ M : gset Z, ratio M S) in *.
  assert (score_table f C =
          (score_table f c1 ++ (l1, stored (f M)) :: score_table f c2)
            ++ (l2, stored (f M)) :: score_table f c3) as Hsc.
  { rewrite HC. unfold score_table. rewrite !fmap_app, !fmap_cons, fmap_app, fmap_cons.
    by rewrite <- app_assoc. }
  assert (NoDup (Py.keys (score_table f C))) as Hnd' by (by rewrite keys_score_table).
  exists (render_scores (score_table f C)).
  destruct (max_values_nonempty (score_table f C)) as [m Hm].
  { rewrite Hsc. by destruct (score_table f c1 ++ _). }
  destruct (Qeq_bool m 0) eqn:E.
  - destruct (V1_best_match _ m Hm) as (label & Hlabel & Hzero & _).
    exists label. split; [exact Hrun|]. split; [exact Hlabel|].
    rewrite Hzero; [done|]. by apply Qeq_bool_iff.
  - destruct (V1_first_best (score_table f C) m Hm)
      as (label & h & before & after & Hlabel & Hdec & Hbefore & _).
    { intros Hm0. apply Qeq_bool_iff in Hm0. congruence. }
    exists label. split; [exact Hrun|]. split; [exact Hlabel|]. intros ->.
    rewrite Hsc in Hdec. rewrite Hsc in Hnd'.
    destruct (split_at_key _ _ _ _ _ _ _ Hnd' Hdec) as (<- & <- & _).
    assert (stored (f M) < stored (f M))%N as Hlt; [|lia].
    apply (Hbefore l1). apply elem_of_app. right. by left.
Qed.

(** X11. A lineage whose marker set is also the marker set of a lineage
    that comes earlier in the catalog is never the label of the
    best-match policy: the two always tie and the earlier one wins. *)
Theorem X11_shadowed_lineage
    (lineage_references before between after : dict (gset Z))
    (first second : string) (snp_set sample_snps : gset Z) :
  lineage_references =
    before ++ (first, snp_set) :: between ++ (second, snp_set) :: after →
  NoDup (Py.keys lineage_references) →
  (∀ lineage M, (lineage, M) ∈ lineage_references → M ≠ ∅) →
  (second ≠ "unknown lineage" →
   ∃ lineage_probabilities label,
     V5.score_loop lineage_references sample_snps [] = Ok lineage_probabilities ∧
     V5.predicted_lineage lineage_probabilities = Ok label ∧ label ≠ second) ∧
  (second ≠ "unknown_lineage" →
   ∃ lineage_probabilities label,
     V1.score_loop lineage_references sample_snps [] = Ok lineage_probabilities ∧
     V1.predicted_lineage lineage_probabilities = Ok label ∧ label ≠ second).
Proof.
  intros HC Hnd Hsets. split; intros Hsecond.
  - by eapply V5_shadowed.
  - by eapply V1_shadowed.
Qed.

Lemma V5_catalog_l2_2 :
  V5.lineage_references =
    take 5 V5.lineage_references ++ ("l2_2_1", l2_2_markers) :: [] ++
    ("l2_2_2", l2_2_markers) :: drop 7 V5.lineage_references.
Proof. apply (bool_decide_unpack _). vm_compute. exact I. Qed.

Lemma V5_catalog_NoDup : NoDup (Py.keys V5.lineage_references).
Proof. apply (bool_decide_unpack _). vm_compute. exact I. Qed.

Lemma V5_catalog_nonempty l M : (l, M) ∈ V5.lineage_references → M ≠ ∅.
Proof.
  assert (Hall : Forall (λ kv : string * gset Z, kv.2 ≠ ∅) V5.lineage_references)
    by (apply (bool_decide_unpack _); vm_compute; exact I).
  intros Hin. rewrite Forall_forall in Hall. apply (Hall _ Hin).
Qed.

Lemma X11_shadowed_lineage_witness :
  ∃ lineage_probabilities label,
    V5.score_loop V5.lineage_references l2_2_markers [] = Ok lineage_probabilities ∧
    V5.predicted_lineage lineage_probabilities = Ok label ∧ label ≠ "l2_2_2".
Proof.
  destruct (X11_shadowed_lineage V5.lineage_references
              (take 5 V5.lineage_references) [] (drop 7 V5.lineage_references)
              "l2_2_1" "l2_2_2" l2_2_markers l2_2_markers) as [H5 _].
  - exact V5_catalog_l2_2.
  - exact V5_catalog_NoDup.
  - exact V5_catalog_nonempty.
  - apply H5. discriminate.
Defined.

(** X12. In the catalog of V5, l2_2_1 and l2_2_2 have the same three
    markers, so V5 never predicts l2_2_2, whatever the sample. *)
Theorem X12_l2_2_2_never_predicted (sample_snps : gset Z) :
  ∃ lineage_probabilities label,
    V5.score_loop V5.lineage_references sample_snps [] = Ok lineage_probabilities ∧
    V5.predicted_lineage lineage_probabilities = Ok label ∧
    label ≠ "l2_2_2".
Proof.
  apply (V5_shadowed V5.lineage_references (take 5 V5.lineage_references) []
           (drop 7 V5.lineage_references) "l2_2_1" "l2_2_2" l2_2_markers sample_snps).
  - exact V5_catalog_l2_2.
  - exact V5_catalog_NoDup.
  - exact V5_catalog_nonempty.
  - discriminate.
Qed.

(** ** The two policies on the same scores *)

Lemma V1_label_cases (scores : dict N) :
  scores ≠ [] →
  ∃ label,
    V1.predicted_lineage (render_scores scores) = Ok label ∧
    (positive_lineages scores = [] → label = "unknown_lineage") ∧
    (positive_lineages scores ≠ [] → label ∈ positive_lineages scores).
Proof.
  intros Hne. destruct (max_values_nonempty scores Hne) as (m & Hm).
  destruct (V1_best_match scores m Hm) as (label & Hlabel & Hzero & Hbest).
  exists label. split; [exact Hlabel|].
  unfold Py.max in Hm. apply max_by_spec in Hm as [Hmin Hmmax].
  apply list_elem_of_fmap in Hmin as ([lm qm] & -> & Hmin).
  apply list_elem_of_fmap in Hmin as ([lm' hm] & [= -> ->] & Hmin). cbn [id snd] in *.
  assert (Hall : ∀ l h, (l, h) ∈ scores → (h ≤ hm)%N).
  { intros l h Hin. apply hundredths_le. apply (Hmmax (Z.of_N h # 100)).
    apply list_elem_of_fmap. exists (l, Z.of_N h # 100). split; [done|].
    apply list_elem_of_fmap. by exists (l, h). }
  split.
  - intros Hnone. apply Hzero.
    destruct (N.eq_dec hm 0%N) as [->|Hpos]; [reflexivity|].
    assert (lm' ∈ positive_lineages scores) as Hin.
    { apply elem_of_positive_lineages. exists hm. split; [done|lia]. }
    rewrite Hnone in Hin. by apply elem_of_nil in Hin.
  - intros Hsome. destruct (positive_lineages scores) as [|l ls] eqn:Hpos; [done|].
    assert (l ∈ positive_lineages scores) as Hl by (rewrite Hpos; by left).
    apply elem_of_positive_lineages in Hl as (h & Hin & Hh).
    pose proof (Hall l h Hin) as Hle.
    destruct Hbest as [(h0 & Hin0 & Hmax0) _].
    { unfold Qeq. simpl. lia. }
    rewrite <- Hpos. apply elem_of_positive_lineages. exists h0. split; [done|].
    pose proof (Hmax0 l h Hin). lia.
Qed.

(** X13. The two policies on the same stored scores (a non-empty
    mapping).  With no positive score both say "unknown_lineage"; with
    exactly one positive score both name that lineage; with several, V4
    lists them all as a mixed isolate and V1 names one of them. *)
Theorem X13_policies_on_same_scores (scores : dict N) :
  scores ≠ [] →
  ∃ single joint,
    V1.predicted_lineage (render_scores scores) = Ok single ∧
    V4.predicted_lineage (render_scores scores) = Ok joint ∧
    match positive_lineages scores with
    | [] => single = "unknown_lineage" ∧ joint = "unknown_lineage"
    | [lineage] => single = lineage ∧ joint = lineage
    | matching =>
        single ∈ matching ∧
        joint = "mixed isolate: " +:+ Py.join ", " (Py.sorted matching)
    end.
Proof.
  intros Hne. destruct (V1_label_cases scores Hne) as (single & Hsingle & Hnone & Hsome).
  exists single. unfold V4.predicted_lineage. rewrite matching_lineages_render.
  cbn [mbind result_bind].
  destruct (positive_lineages scores) as [|l [|l' ls]].
  - eexists. split; [exact Hsingle|]. split; [reflexivity|]. by split; [apply Hnone|].
  - eexists. split; [exact Hsingle|]. split; [reflexivity|]. split; [|done].
    assert (single ∈ [l]) as Hin by (by apply Hsome). by apply list_elem_of_singleton in Hin.
  - eexists. split; [exact Hsingle|]. split; [reflexivity|]. split; [|done].
    by apply Hsome.
Qed.

Lemma X13_policies_on_same_scores_witness :
  ∃ single joint,
    V1.predicted_lineage (render_scores example_scores) = Ok single ∧
    V4.predicted_lineage (render_scores example_scores) = Ok joint ∧
    single ∈ ["lineageB"; "lineageC"] ∧
    joint = "mixed isolate: lineageB, lineageC".
Proof.
  destruct (X13_policies_on_same_scores example_scores) as (single & joint & H1 & H4 & H);
    [discriminate|].
  exists single, joint. split; [exact H1|]. split; [exact H4|]. exact H.
Defined.

(** ** Stored percentages *)

Lemma round_half_even_close n d :
  (2 * Z.abs (Z.pos d * Fmt.round_half_even n d - n) ≤ Z.pos d)%Z.
Proof.
  pose proof (Z.div_mod n (Z.pos d) ltac:(lia)) as Hdm.
  pose proof (Z.mod_pos_bound n (Z.pos d) eq_refl) as Hb.
  unfold Fmt.round_half_even.
  destruct (Z.compare_spec (2 * (n mod Z.pos d)) (Z.pos d));
    [destruct (Z.even (n / Z.pos d)%Z)|..]; lia.
Qed.

Lemma percent_of_hundredths_inj h h' :
  percent_of_hundredths h = percent_of_hundredths h' → h = h'.
Proof.
  intros Heq. pose proof (of_percent_hundredths h) as H1.
  rewrite Heq, of_percent_hundredths in H1. injection H1 as H1. lia.
Qed.

Lemma stored_ratio_full M S :
  size M ≠ 0 → (Z.of_nat (size M) < 20000)%Z →
  stored (ratio M S) = 10000%N ↔ size (M ∩ S) = size M.
Proof.
  intros Hn Hsmall. unfold stored, Fmt.hundredths. rewrite ratio_num.
  pose proof (ratio_den M S Hn) as Hden. pose proof (size_inter_le M S) as Hle.
  set (a := Z.of_nat (size (M ∩ S))) in *.
  assert (a = Z.pos (Qden (ratio M S)) ↔ size (M ∩ S) = size M) as Ha by lia.
  assert (0 ≤ a ≤ Z.pos (Qden (ratio M S)))%Z as Ha0 by lia.
  set (d := Qden (ratio M S)) in *.
  assert (Z.pos d < 20000)%Z as Hd by lia.
  rewrite <- Ha. clearbody a d. clear Ha Hden Hle Hn Hsmall.
  pose proof (Z.div_mod (a * 100 * 100) (Z.pos d) ltac:(lia)) as Hdm.
  pose proof (Z.mod_pos_bound (a * 100 * 100) (Z.pos d) eq_refl) as Hb.
  pose proof (round_half_even_close (a * 100 * 100) d) as Hclose.
  split.
  - intros Hfull. assert (Fmt.round_half_even (a * 100 * 100) d = 10000)%Z as Hr by lia.
    rewrite Hr in Hclose. nia.
  - intros ->. assert (Z.pos d * 100 * 100 / Z.pos d = 10000)%Z as Hfl.
    { rewrite <- Z.mul_assoc, Z.mul_comm. apply Z.div_mul. lia. }
    assert ((Z.pos d * 100 * 100) mod Z.pos d = 0)%Z as Hr.
    { rewrite <- Z.mul_assoc, Z.mul_comm. apply Z.mod_mul. lia. }
    unfold Fmt.round_half_even. rewrite Hfl, Hr. reflexivity.
Qed.

(** X15. For a marker set of fewer than 20000 positions, V4 stores
    "100.00%" exactly when the marker set is not empty and all of its
    positions are in the sample. *)
Theorem X15_full_score (snp_set snps : gset Z) :
  (Z.of_nat (size snp_set) < 20000)%Z →
  ∃ q, V4.probability snp_set snps = Ok q ∧
       (Fmt.percent q = "100.00%" ↔ snp_set ≠ ∅ ∧ snp_set ⊆ snps).
Proof.
  intros Hsmall. exists (guarded_ratio snp_set snps). split; [apply V4_probability_eq|].
  rewrite percent_guarded. change "100.00%" with (percent_of_hundredths 10000).
  assert (percent_of_hundredths (stored (guarded_ratio snp_set snps)) =
          percent_of_hundredths 10000 ↔ stored (guarded_ratio snp_set snps) = 10000%N)
    as ->.
  { split; [apply percent_of_hundredths_inj|by intros ->]. }
  unfold guarded_ratio. destruct (decide (size snp_set = 0)) as [Hz|Hn].
  - apply size_zero_empty in Hz as ->. split; [done|]. by intros [? _].
  - rewrite (stored_ratio_full _ _ Hn Hsmall). split.
    + intros Hsize. split; [by intros E%size_zero_empty|].
      pose proof (set_subseteq_size_eq (snp_set ∩ snps) snp_set
                    (intersection_subseteq_l _ _) ltac:(lia)) as Heq.
      intros z Hz. rewrite <- Heq in Hz.
      by apply elem_of_intersection in Hz as [_ ?].
    + intros [_ Hsub]. f_equal. apply set_eq. intros z.
      rewrite elem_of_intersection. split; [by intros [? _]|]. intros Hz. split; [done|].
      by apply Hsub.
Qed.

Lemma X15_full_score_witness :
  ∃ q, V4.probability lineage3_markers lineage3_markers = Ok q ∧
       (Fmt.percent q = "100.00%" ↔
        lineage3_markers ≠ ∅ ∧ lineage3_markers ⊆ lineage3_markers).
Proof. apply X15_full_score. vm_compute. reflexivity. Defined.

(** ** Files written by the single-sample scripts *)

Lemma writes_bind {A B} P (m : io A) (k : A → io B) :
  writes_only P m → (∀ a, writes_only P (k a)) → writes_only P (m ≫= k).
Proof.
  intros Hm Hk w p Hp. unfold mbind, io_bind. specialize (Hm w p Hp).
  destruct (m w) as [w' [a|e]]; [|exact Hm].
  simpl in Hm. by rewrite (Hk a w' p Hp).
Qed.

Lemma writes_ret {A} P (a : A) : writes_only P (mret a).
Proof. by intros w p _. Qed.
Lemma writes_lift {A} P (r : result A) : writes_only P (lift r).
Proof. by intros w p _. Qed.
Lemma writes_print P s : writes_only P (print s).
Proof. by intros w p _. Qed.
Lemma writes_path_exists P f : writes_only P (path_exists f).
Proof. by intros w p _. Qed.
Lemma writes_read_lines P f : writes_only P (read_lines f).
Proof. by intros w p _. Qed.
Lemma writes_read_text P f : writes_only P (read_text f).
Proof. by intros w p _. Qed.
Lemma writes_write_table P f rows : writes_only P (write_table f rows).
Proof. by intros w p _. Qed.
Lemma writes_write_text (P : string → Prop) f s : P f → writes_only P (write_text f s).
Proof.
  intros Hf w p Hp. unfold write_text. cbn [fst files].
  apply lookup_insert_ne. by intros ->.
Qed.

Lemma writes_mono {A} (P Q : string → Prop) (m : io A) :
  (∀ p, P p → Q p) → writes_only P m → writes_only Q m.
Proof. intros HPQ Hm w p Hp. apply Hm. intros HP. by apply Hp, HPQ. Qed.

Create HintDb writes.
#[export] Hint Resolve writes_ret writes_lift writes_print writes_path_exists
  writes_read_lines writes_read_text writes_write_table : writes.

Ltac writes_step :=
  lazymatch goal with
  | |- writes_only _ (_ ≫= _) => apply writes_bind; [|intros ?]
  | |- writes_only _ (if ?b then _ else _) => destruct b
  | |- writes_only _ (match ?x with _ => _ end) => destruct x
  | |- writes_only _ (write_text _ _) => apply writes_write_text
  | |- writes_only _ _ => solve [auto with writes]
  end.

Lemma writes_sample_variants rc vcf_file :
  writes_only (λ p, p = snp_file_of vcf_file) (Single.sample_variants rc vcf_file).
Proof.
  unfold Single.sample_variants, Single.extract_snp_positions, Single.str_conv.
  fold (snp_file_of vcf_file). repeat writes_step. reflexivity.
Qed.

Lemma writes_V1_batch rc vcf_files : ∀ acc,
  writes_only (λ p, p ∈ snp_file_of <$> vcf_files) (V1.batch rc vcf_files acc).
Proof.
  induction vcf_files as [|f rest IH]; intros acc; cbn [V1.batch]; [apply writes_ret|].
  apply writes_bind; [apply writes_print|intros _].
  apply writes_bind.
  - unfold V1.process_vcf. apply writes_bind.
    + eapply writes_mono; [|apply writes_sample_variants].
      intros p ->. rewrite fmap_cons. by left.
    + intros s. repeat writes_step.
  - intros r. eapply writes_mono; [|destruct r as [[|kv r]|]; apply IH].
    intros p Hp. rewrite fmap_cons. by right.
Qed.

Lemma writes_V5_batch rc output_dir vcf_files : ∀ acc,
  writes_only (λ p, p ∈ snp_file_of <$> vcf_files ∨
                    p ∈ report_file_of output_dir <$> vcf_files)
    (V5.batch rc vcf_files output_dir acc).
Proof.
  induction vcf_files as [|f rest IH]; intros acc; cbn [V5.batch]; [apply writes_ret|].
  apply writes_bind; [apply writes_print|intros _].
  apply writes_bind.
  - unfold V5.process_vcf. fold (report_file_of output_dir f). apply writes_bind.
    + eapply writes_mono; [|apply writes_sample_variants].
      intros p ->. left. rewrite fmap_cons. by left.
    + intros s. repeat writes_step. right. rewrite fmap_cons. by left.
  - intros r. eapply writes_mono; [|destruct r as [[|c t]|]; apply IH].
    intros p [Hp|Hp]; [left|right]; rewrite fmap_cons; by right.
Qed.

(** X16. The text files the single-sample scripts touch.  V1 leaves
    every text file alone except the position files of its inputs (its
    combined table is kept apart, among the tables); V5 leaves every
    text file alone except those, the report files of its inputs and the
    combined report.  This holds whatever the reader returns and whether
    or not the run raises. *)
Theorem X16_single_files_written
    (read_column0 : string → result (list string))
    (vcf_files : list string) (output_dir p : string) (w : world) :
  p ∉ snp_file_of <$> vcf_files →
  files (V1.main read_column0 vcf_files output_dir w).1 !! p = files w !! p ∧
  (p ∉ report_file_of output_dir <$> vcf_files →
   p ≠ path_join output_dir V5.combined_name →
   files (V5.main read_column0 vcf_files output_dir w).1 !! p = files w !! p).
Proof.
  intros Hsnp. split.
  - revert w p Hsnp. change (writes_only (λ p, p ∈ snp_file_of <$> vcf_files)
                               (V1.main read_column0 vcf_files output_dir)).
    unfold V1.main. apply writes_bind; [apply writes_path_exists|intros b].
    destruct b; [apply writes_lift|]. apply writes_bind; [apply writes_V1_batch|].
    intros rs. unfold V1.save. repeat writes_step.
  - intros Hrep Hcomb. revert w.
    enough (writes_only (λ p, (p ∈ snp_file_of <$> vcf_files ∨
                               p ∈ report_file_of output_dir <$> vcf_files) ∨
                              p = path_join output_dir V5.combined_name)
              (V5.main read_column0 vcf_files output_dir)) as Hw.
    { intros w. apply Hw. intros [[?|?]|?]; done. }
    unfold V5.main. apply writes_bind; [apply writes_path_exists|intros b].
    destruct b; [apply writes_lift|]. apply writes_bind.
    + eapply writes_mono; [|apply writes_V5_batch]. intros q Hq. by left.
    + intros rs. repeat writes_step. by right.
Qed.

Lemma X16_single_files_written_witness :
  files (V1.main plain_reader ["isolate7.vcf"] "out" lineage3_world).1 !! "isolate7.vcf" =
    Some lineage3_vcf ∧
  files (V5.main plain_reader ["isolate7.vcf"] "out" lineage3_world).1 !! "isolate7.vcf" =
    Some lineage3_vcf.
Proof.
  destruct (X16_single_files_written plain_reader ["isolate7.vcf"] "out" "isolate7.vcf"
              lineage3_world) as [H1 H5].
  - apply (bool_decide_unpack _). vm_compute. exact I.
  - split; [rewrite H1; reflexivity|]. rewrite H5; [reflexivity| |].
    + apply (bool_decide_unpack _). vm_compute. exact I.
    + apply (bool_decide_unpack _). vm_compute. exact I.
Defined.

(** ** Batches of missing files *)

Lemma V1_batch_missing rc fs : ∀ acc w,
  (∀ f, f ∈ fs → files w !! f = None) →
  V1.batch rc fs acc w = (say (concat (missing_single <$> fs)) w, Ok acc).
Proof.
  induction fs as [|f rest IH]; intros acc w Hall.
  - by rewrite say_nil.
  - cbn [V1.batch]. unfold mbind at 1, io_bind at 1, print, emit.
    fold (say [Line ("Processing " +:+ f +:+ " ...")] w).
    set (w0 := say [Line ("Processing " +:+ f +:+ " ...")] w).
    assert (files w0 !! f = None) as Hf by (apply Hall; by left).
    unfold mbind, io_bind.
    rewrite (V1_process_vcf_none rc f V1.lineage_references w0 _
               (sample_variants_without_file rc f _ w0
                  (extract_snp_positions_missing f _ w0 Hf))).
    rewrite IH by (intros f' Hf'; apply Hall; by right).
    unfold w0. by rewrite !say_say.
Qed.

Lemma V5_batch_missing rc out fs : ∀ acc w,
  (∀ f, f ∈ fs → files w !! f = None) →
  V5.batch rc fs out acc w = (say (concat (missing_single <$> fs)) w, Ok acc).
Proof.
  induction fs as [|f rest IH]; intros acc w Hall.
  - by rewrite say_nil.
  - cbn [V5.batch]. unfold mbind at 1, io_bind at 1, print, emit.
    fold (say [Line ("Processing " +:+ f +:+ " ...")] w).
    set (w0 := say [Line ("Processing " +:+ f +:+ " ...")] w).
    assert (files w0 !! f = None) as Hf by (apply Hall; by left).
    unfold mbind, io_bind.
    rewrite (V5_process_vcf_none rc f out V5.lineage_references w0 _
               (sample_variants_without_file rc f _ w0
                  (extract_snp_positions_missing f _ w0 Hf))).
    rewrite IH by (intros f' Hf'; apply Hall; by right).
    unfold w0. by rewrite !say_say.
Qed.

Lemma V4_batch_missing fs : ∀ acc w,
  (∀ f, f ∈ fs → files w !! f = None) →
  V4.batch fs acc w = (say (concat (missing_joint <$> fs)) w, Ok acc).
Proof.
  induction fs as [|f rest IH]; intros acc w Hall.
  - by rewrite say_nil.
  - rewrite V4_batch_cons.
    rewrite process_joint_vcf_missing by (apply Hall; by left).
    rewrite IH by (intros f' Hf'; apply Hall; by right).
    by rewrite !say_say.
Qed.

(** X17. A batch in which no input file exists.  V5 still writes the
    combined report, empty, and says it was saved; V1 writes and says
    nothing more than the per-file lines; V4 ends with "No results to
    save.". *)
Theorem X17_batch_of_missing_files
    (read_column0 : string → result (list string))
    (vcf_files : list string) (output_dir : string) (w : world) :
  (∀ f, f ∈ vcf_files → files w !! f = None) →
  files w !! output_dir = None →
  V5.main read_column0 vcf_files output_dir w =
    (World (<[path_join output_dir V5.combined_name := EmptyString]> (files w))
           (stdout w ++ concat (missing_single <$> vcf_files) ++
              [Line (nl +:+ "Combined results saved to "
                     +:+ path_join output_dir V5.combined_name)])
           (tables w),
     Ok tt) ∧
  V1.main read_column0 vcf_files output_dir w =
    (say (concat (missing_single <$> vcf_files)) w, Ok tt) ∧
  V4.main vcf_files output_dir w =
    (say (concat (missing_joint <$> vcf_files) ++ [Line "No results to save."]) w, Ok tt).
Proof.
  intros Hall Hout. split; [|split].
  - unfold V5.main, mbind, io_bind, path_exists. rewrite Hout.
    rewrite bool_decide_eq_false_2 by (by intros [? ?]).
    rewrite (V5_batch_missing _ _ _ _ _ Hall). unfold write_text, print, emit, say.
    cbn [files stdout tables]. by rewrite <- app_assoc.
  - unfold V1.main, mbind, io_bind, path_exists. rewrite Hout.
    rewrite bool_decide_eq_false_2 by (by intros [? ?]).
    by rewrite (V1_batch_missing _ _ _ _ Hall).
  - unfold V4.main, mbind, io_bind, path_exists. rewrite Hout.
    rewrite bool_decide_eq_false_2 by (by intros [? ?]).
    rewrite (V4_batch_missing _ _ _ Hall). unfold V4.save, print, emit.
    by rewrite <- say_say.
Qed.

Lemma X17_batch_of_missing_files_witness :
  V5.main plain_reader ["a.vcf"; "b.vcf"] "out" (World ∅ [] []) =
    (World {["out/combined_lineage_results.txt" := EmptyString]}
       [Line "Processing a.vcf ..."; Line "File not found: a.vcf";
        Line "No valid SNP file generated for a. Skipping.";
        Line "Processing b.vcf ..."; Line "File not found: b.vcf";
        Line "No valid SNP file generated for b. Skipping.";
        Line (nl +:+ "Combined results saved to out/combined_lineage_results.txt")] [],
     Ok tt).
Proof.
  destruct (X17_batch_of_missing_files plain_reader ["a.vcf"; "b.vcf"] "out"
              (World ∅ [] [])) as [H5 _].
  - intros f _. reflexivity.
  - reflexivity.
  - rewrite H5. apply (f_equal (λ x, (x, Ok tt))). reflexivity.
Defined.

(** ** Positions that are no markers *)

Lemma V4_probability_ext M S S' :
  M ∩ S = M ∩ S' → V4.probability M S = V4.probability M S'.
Proof. intros H. unfold V4.probability. by rewrite H. Qed.

Lemma Single_probability_ext M S S' :
  M ∩ S = M ∩ S' → Single.probability M S = Single.probability M S'.
Proof. intros H. unfold Single.probability. by rewrite H. Qed.

Lemma V4_score_loop_ext items S S' :
  (∀ l M, (l, M) ∈ items → M ∩ S = M ∩ S') →
  ∀ acc, V4.score_loop items S acc = V4.score_loop items S' acc.
Proof.
  induction items as [|[l M] rest IH]; intros H acc; cbn [V4.score_loop]; [done|].
  rewrite (V4_probability_ext M S S') by (apply (H l); by left).
  destruct (V4.probability M S') as [q|e]; [|done]. cbn [mbind result_bind].
  apply IH. intros l' M' Hin. apply (H l'). by right.
Qed.

Lemma V1_score_loop_ext items S S' :
  (∀ l M, (l, M) ∈ items → M ∩ S = M ∩ S') →
  ∀ acc, V1.score_loop items S acc = V1.score_loop items S' acc.
Proof.
  induction items as [|[l M] rest IH]; intros H acc; cbn [V1.score_loop]; [done|].
  rewrite (Single_probability_ext M S S') by (apply (H l); by left).
  destruct (Single.probability M S') as [q|e]; [|done]. cbn [mbind result_bind].
  apply IH. intros l' M' Hin. apply (H l'). by right.
Qed.

Lemma V5_score_loop_ext items S S' :
  (∀ l M, (l, M) ∈ items → M ∩ S = M ∩ S') →
  ∀ acc, V5.score_loop items S acc = V5.score_loop items S' acc.
Proof.
  induction items as [|[l M] rest IH]; intros H acc; cbn [V5.score_loop]; [done|].
  rewrite (Single_probability_ext M S S') by (apply (H l); by left).
  destruct (Single.probability M S') as [q|e]; [|done]. cbn [mbind result_bind].
  apply IH. intros l' M' Hin. apply (H l'). by right.
Qed.

(** X18. Scores, label and report depend on the sample only through
    the positions it shares with the marker sets: two samples that meet
    every marker set in the same positions get the same record (V4, V1)
    and the same report (V5). *)
Theorem X18_scores_depend_on_markers
    (lineage_references : dict (gset Z)) (sample : string) (snps snps' : gset Z) :
  (∀ lineage snp_set, (lineage, snp_set) ∈ lineage_references →
     snp_set ∩ snps = snp_set ∩ snps') →
  V4.sample_record lineage_references sample snps =
    V4.sample_record lineage_references sample snps' ∧
  V1.sample_record lineage_references sample snps =
    V1.sample_record lineage_references sample snps' ∧
  V5.report lineage_references sample snps =
    V5.report lineage_references sample snps'.
Proof.
  intros H. split; [|split].
  - unfold V4.sample_record. by rewrite (V4_score_loop_ext _ _ _ H).
  - unfold V1.sample_record. by rewrite (V1_score_loop_ext _ _ _ H).
  - unfold V5.report. by rewrite (V5_score_loop_ext _ _ _ H).
Qed.

Lemma X18_scores_depend_on_markers_witness :
  V4.sample_record V4.lineage_references "s" small_sample =
    V4.sample_record V4.lineage_references "s" noisy_sample.
Proof.
  apply (X18_scores_depend_on_markers V4.lineage_references "s" small_sample noisy_sample).
  assert (Hall : Forall (λ kv : string * gset Z, kv.2 ∩ small_sample = kv.2 ∩ noisy_sample)
                   V4.lineage_references)
    by (apply (bool_decide_unpack _); vm_compute; exact I).
  intros l M Hin. rewrite Forall_forall in Hall. apply (Hall _ Hin).
Defined.

(** ** The two catalogs *)

Lemma V1_catalog_NoDup : NoDup (Py.keys V1.lineage_references).
Proof. apply (bool_decide_unpack _). vm_compute. exact I. Qed.

Lemma V4_catalog_NoDup : NoDup (Py.keys V4.lineage_references).
Proof. apply (bool_decide_unpack _). vm_compute. exact I. Qed.

Lemma V1_catalog_nonempty l M : (l, M) ∈ V1.lineage_references → M ≠ ∅.
Proof.
  assert (Hall : Forall (λ kv : string * gset Z, kv.2 ≠ ∅) V1.lineage_references)
    by (apply (bool_decide_unpack _); vm_compute; exact I).
  intros Hin. rewrite Forall_forall in Hall. apply (Hall _ Hin).
Qed.

Lemma catalogs_outside_dassie :
  filter (λ kv, kv.1 ≠ "dassie") V1.lineage_references =
  filter (λ kv, kv.1 ≠ "dassie") V4.lineage_references.
Proof. apply (bool_decide_unpack _). vm_compute. exact I. Qed.

Lemma catalogs_same_keys : Py.keys V1.lineage_references = Py.keys V4.lineage_references.
Proof. apply (bool_decide_unpack _). vm_compute. exact I. Qed.

(** X19. For every sample, the records of V1 and V4 over their own
    catalogs hold the same percentage under every lineage other than
    dassie. *)
Theorem X19_pipelines_agree_outside_dassie (sample : string) (snps : gset Z) :
  ∃ r1 r4,
    V1.sample_record V1.lineage_references sample snps = Ok r1 ∧
    V4.sample_record V4.lineage_references sample snps = Ok r4 ∧
    ∀ lineage, lineage ∈ Py.keys V1.lineage_references → lineage ≠ "dassie" →
      ∃ score, Py.dict_get r1 lineage = Some score ∧ Py.dict_get r4 lineage = Some score.
Proof.
  destruct (V1_record_layout V1.lineage_references sample snps)
    as (lp1 & label1 & _ & _ & Hr1 & Hk1 & Hget1).
  { exact V1_catalog_NoDup. }
  { apply (bool_decide_unpack _). vm_compute. exact I. }
  { apply (bool_decide_unpack _). vm_compute. exact I. }
  { apply (bool_decide_unpack _). vm_compute. exact I. }
  { exact V1_catalog_nonempty. }
  destruct (V4_record_layout V4.lineage_references sample snps)
    as (lp4 & label4 & _ & _ & Hr4 & Hk4 & Hget4).
  { exact V4_catalog_NoDup. }
  { apply (bool_decide_unpack _). vm_compute. exact I. }
  { apply (bool_decide_unpack _). vm_compute. exact I. }
  exists (lp1 ++ [("Predicted_lineage", label1); ("Sample_Name", sample)]),
         (lp4 ++ [("Sample_Name", sample); ("Predicted_lineage", label4)]).
  split; [exact Hr1|]. split; [exact Hr4|].
  intros l Hl Hne.
  assert (l ∈ Py.keys lp1) as Hl1 by (rewrite Hk1; exact Hl).
  assert (l ∈ Py.keys lp4) as Hl4.
  { rewrite Hk4, <- catalogs_same_keys. exact Hl. }
  unfold Py.keys in Hl. apply list_elem_of_fmap in Hl as ([l' M] & Heq & Hin1).
  cbn [fst] in Heq. subst l'.
  assert ((l, M) ∈ V4.lineage_references) as Hin4.
  { assert ((l, M) ∈ filter (λ kv, kv.1 ≠ "dassie") V1.lineage_references) as Hf.
    { apply list_elem_of_filter. split; [exact Hne|exact Hin1]. }
    rewrite catalogs_outside_dassie in Hf.
    apply list_elem_of_filter in Hf as [_ Hf]. exact Hf. }
  destruct (Hget1 l M Hin1) as (q1 & Hq1 & Hd1).
  destruct (Hget4 l M Hin4) as (q4 & Hq4 & Hd4).
  assert (q4 = q1) as Hq.
  { rewrite V4_probability_eq in Hq4. rewrite Single_probability_eq in Hq1.
    unfold guarded_ratio in Hq4.
    destruct (decide (size M = 0)) as [Hz|Hn]; [discriminate Hq1|]. congruence. }
  subst q4. exists (Fmt.percent q1). split.
  - rewrite (dict_get_app_l _ _ _ Hl1). exact Hd1.
  - rewrite (dict_get_app_l _ _ _ Hl4). exact Hd4.
Qed.

(** ** A reader that raises *)

Lemma str_conv_raises rc file text e w :
  files w !! file = Some text → rc text = Raise e →
  Single.str_conv rc file w = (w, Raise e).
Proof.
  intros Hfile Hread. unfold Single.str_conv, mbind, io_bind, path_exists.
  rewrite Hfile. rewrite bool_decide_eq_true_2 by (by eexists). cbn [negb].
  unfold read_text. rewrite Hfile. cbn [default from_option id]. unfold lift.
  by rewrite Hread.
Qed.

Lemma sample_variants_raises rc vcf_file text e w :
  files w !! vcf_file = Some text →
  Single.position_fields (lines_of text) ≠ [] →
  rc (Py.join nl (Single.position_fields (lines_of text))) = Raise e →
  Single.sample_variants rc vcf_file w =
    (World (<[snp_file_of vcf_file :=
                Py.join nl (Single.position_fields (lines_of text))]> (files w))
           (stdout w) (tables w),
     Raise e).
Proof.
  intros Hfile Hpos Hread.
  unfold Single.sample_variants, mbind at 1, io_bind at 1.
  rewrite (extract_snp_positions_found _ _ text) by done.
  unfold mbind, io_bind.
  by rewrite (str_conv_raises rc _ (Py.join nl (Single.position_fields (lines_of text))) e)
    by (apply lookup_insert_eq || done).
Qed.

Lemma V1_batch_cons rc f rest acc w :
  V1.batch rc (f :: rest) acc w =
  match V1.process_vcf rc f V1.lineage_references
          (say [Line ("Processing " +:+ f +:+ " ...")] w) with
  | (w1, Ok None) | (w1, Ok (Some [])) => V1.batch rc rest acc w1
  | (w1, Ok (Some r)) => V1.batch rc rest (acc ++ [r]) w1
  | (w1, Raise e) => (w1, Raise e)
  end.
Proof.
  cbn [V1.batch]. unfold mbind, io_bind, print, emit.
  fold (say [Line ("Processing " +:+ f +:+ " ...")] w).
  destruct (V1.process_vcf rc f V1.lineage_references _) as [w1 [[[|kv r]|]|e]]; done.
Qed.

Lemma V5_batch_cons rc f rest out acc w :
  V5.batch rc (f :: rest) out acc w =
  match V5.process_vcf rc f out V5.lineage_references
          (say [Line ("Processing " +:+ f +:+ " ...")] w) with
  | (w1, Ok None) | (w1, Ok (Some EmptyString)) => V5.batch rc rest out acc w1
  | (w1, Ok (Some text)) => V5.batch rc rest out (acc ++ [text]) w1
  | (w1, Raise e) => (w1, Raise e)
  end.
Proof.
  cbn [V5.batch]. unfold mbind, io_bind, print, emit.
  fold (say [Line ("Processing " +:+ f +:+ " ...")] w).
  destruct (V5.process_vcf rc f out V5.lineage_references _) as [w1 [[[|c t]|]|e]]; done.
Qed.

Lemma V1_process_vcf_raises rc vcf_file C w w1 e :
  Single.sample_variants rc vcf_file w = (w1, Raise e) →
  V1.process_vcf rc vcf_file C w = (w1, Raise e).
Proof. intros H. unfold V1.process_vcf, mbind, io_bind. by rewrite H. Qed.

Lemma V5_process_vcf_raises rc vcf_file out C w w1 e :
  Single.sample_variants rc vcf_file w = (w1, Raise e) →
  V5.process_vcf rc vcf_file out C w = (w1, Raise e).
Proof. intros H. unfold V5.process_vcf, mbind, io_bind. by rewrite H. Qed.

(** X20. The single-sample scripts catch nothing around a file: when the
    reader of the position file raises, the whole run ends with that
    exception after the position file of that input was written; the
    remaining inputs are not looked at and no combined report is
    written. *)
Theorem X20_single_reader_failure
    (read_column0 : string → result (list string))
    (vcf_file text output_dir : string) (rest : list string) (e : exn) (w : world) :
  files w !! output_dir = None →
  files w !! vcf_file = Some text →
  Single.position_fields (lines_of text) ≠ [] →
  read_column0 (Py.join nl (Single.position_fields (lines_of text))) = Raise e →
  let w1 :=
    World (<[snp_file_of vcf_file :=
               Py.join nl (Single.position_fields (lines_of text))]> (files w))
          (stdout w ++ [Line ("Processing " +:+ vcf_file +:+ " ...")]) (tables w) in
  V1.main read_column0 (vcf_file :: rest) output_dir w = (w1, Raise e) ∧
  V5.main read_column0 (vcf_file :: rest) output_dir w = (w1, Raise e).
Proof.
  intros Hout Hfile Hpos Hread. cbv zeta.
  set (w0 := say [Line ("Processing " +:+ vcf_file +:+ " ...")] w).
  pose proof (sample_variants_raises read_column0 vcf_file text e w0 Hfile Hpos Hread)
    as Hv.
  split.
  - unfold V1.main, mbind, io_bind, path_exists. rewrite Hout.
    rewrite bool_decide_eq_false_2 by (by intros [? ?]).
    rewrite V1_batch_cons. fold w0.
    by rewrite (V1_process_vcf_raises _ _ _ _ _ _ Hv).
  - unfold V5.main, mbind, io_bind, path_exists. rewrite Hout.
    rewrite bool_decide_eq_false_2 by (by intros [? ?]).
    rewrite V5_batch_cons. fold w0.
    by rewrite (V5_process_vcf_raises _ _ _ _ _ _ _ Hv).
Qed.

Lemma X20_single_reader_failure_witness :
  V1.main failing_reader ["isolate7.vcf"; "other.vcf"] "out" lineage3_world =
    (World (<["isolate7_snp.txt" := Py.join nl ["24007"; "633562"; "2840999"; "3582694"]]>
              (files lineage3_world))
           [Line "Processing isolate7.vcf ..."] [],
     Raise (LibraryError "EmptyDataError")).
Proof.
  destruct (X20_single_reader_failure failing_reader "isolate7.vcf" lineage3_vcf "out"
              ["other.vcf"] (LibraryError "EmptyDataError") lineage3_world) as [H1 _].
  - reflexivity.
  - reflexivity.
  - vm_compute. discriminate.
  - reflexivity.
  - exact H1.
Defined.
